(** * HomeDrive storage core: path guard, atomic store, trash, duplicate scan

    A shallow embedding of [file_ops.py] and [maintenance.py].  Python
    strings are [string], byte strings are [list byte], the directory tree
    is an ordered tree (directory listings keep their order, as
    [os.listdir] and [os.walk] see them), Python dictionaries whose
    insertion order is observable are association lists, exceptions are an
    explicit [outcome] type. *)

From Stdlib Require Import ZArith NArith Ascii Lia.
From Stdlib Require DecimalString.
From Stdlib.Strings Require Import Byte.
From stdpp Require Import base list countable strings.

(** ** Python [str] helpers *)

Module Str.

(** [str(n)] for integers *)
Definition str_of_nat (n : nat) : string :=
  DecimalString.NilZero.string_of_uint (Nat.to_uint n).

Definition str_of_Z (z : Z) : string :=
  DecimalString.NilZero.string_of_int (Z.to_int z).

(** [s.startswith(p)] *)
Definition startswith (s p : string) : bool := String.prefix p s.

(** [s.endswith("/")] *)
Fixpoint endswith_sep (s : string) : bool :=
  match s with
  | "" => false
  | String c "" => bool_decide (c = "/"%char)
  | String _ s' => endswith_sep s'
  end.

(** [sub in s] for strings *)
Fixpoint contains (s sub : string) : bool :=
  startswith s sub ||
  match s with
  | "" => false
  | String _ s' => contains s' sub
  end.

(** [s.replace(a, b)] for single characters *)
Fixpoint replace_char (a b : ascii) (s : string) : string :=
  match s with
  | "" => ""
  | String c s' =>
      String (if bool_decide (c = a) then b else c) (replace_char a b s')
  end.

(** [s[:n]] *)
Fixpoint take (n : nat) (s : string) : string :=
  match n, s with
  | S n', String c s' => String c (take n' s')
  | _, _ => ""
  end.

(** [s.split("/")]: never empty, [""] for the empty string. *)
Fixpoint split_sep (s : string) : list string :=
  match s with
  | "" => [""]
  | String c s' =>
      if bool_decide (c = "/"%char) then "" :: split_sep s'
      else match split_sep s' with
           | h :: t => String c h :: t
           | [] => [String c ""]
           end
  end.

(** ["/".join(parts)] *)
Fixpoint join_sep (parts : list string) : string :=
  match parts with
  | [] => ""
  | [p] => p
  | p :: rest => p +:+ "/" +:+ join_sep rest
  end.

Fixpoint has_sep (s : string) : bool :=
  match s with
  | "" => false
  | String c s' => bool_decide (c = "/"%char) || has_sep s'
  end.

Fixpoint has_nul (s : string) : bool :=
  match s with
  | "" => false
  | String c s' => bool_decide (c = "000"%char) || has_nul s'
  end.

End Str.

(** ** [os.path] on POSIX *)

Module Posix.
Import Str.

(** [os.path.join(a, b)] *)
Definition os_path_join (a b : string) : string :=
  if startswith b "/" then b
  else if bool_decide (a = "") || endswith_sep a then a +:+ b
  else a +:+ "/" +:+ b.

(** [(p[:i], p[i:])] with [i = p.rfind("/") + 1] *)
Fixpoint split_last_sep (p : string) : string * string :=
  match p with
  | "" => ("", "")
  | String c p' =>
      let (h, t) := split_last_sep p' in
      match h with
      | "" => if bool_decide (c = "/"%char) then ("/", t) else ("", String c t)
      | _ => (String c h, t)
      end
  end.

(** [s.rstrip("/")] *)
Fixpoint rstrip_sep (s : string) : string :=
  match s with
  | "" => ""
  | String c s' =>
      match rstrip_sep s' with
      | "" => if bool_decide (c = "/"%char) then "" else String c ""
      | r => String c r
      end
  end.

(** [os.path.dirname(p)]: the head, without trailing separators unless it
    consists of separators only. *)
Definition os_path_dirname (p : string) : string :=
  let head := fst (split_last_sep p) in
  match rstrip_sep head with
  | "" => head
  | stripped => stripped
  end.

(** [os.path.basename(p)] *)
Definition os_path_basename (p : string) : string := snd (split_last_sep p).

(** [(t[:d], t[d:])] with [d = t.rfind(".")], when there is a dot. *)
Fixpoint split_last_dot (t : string) : option (string * string) :=
  match t with
  | "" => None
  | String c t' =>
      match split_last_dot t' with
      | Some (a, b) => Some (String c a, b)
      | None => if bool_decide (c = "."%char) then Some ("", t) else None
      end
  end.

Fixpoint has_non_dot (s : string) : bool :=
  match s with
  | "" => false
  | String c s' => negb (bool_decide (c = "."%char)) || has_non_dot s'
  end.

(** [os.path.splitext(p)]: the extension starts at the last dot of the last
    component, leading dots of that component not counting. *)
Definition os_path_splitext (p : string) : string * string :=
  let (h, t) := split_last_sep p in
  match split_last_dot t with
  | Some (a, b) => if has_non_dot a then (h +:+ a, b) else (p, "")
  | None => (p, "")
  end.

(** One step of lexical normalisation over the components of an absolute
    path: empty and [.] components vanish, [..] drops the last component
    (and stays at the root). *)
Definition norm_step (cur : list string) (c : string) : list string :=
  if bool_decide (c = "") || bool_decide (c = ".") then cur
  else if bool_decide (c = "..") then removelast cur
  else cur ++ [c].

(** Components of [os.path.normpath(p)] for an absolute [p]. *)
Definition norm_parts (p : string) : list string :=
  fold_left norm_step (split_sep p) [].

(** The string of an absolute path given by its components. *)
Definition render (parts : list string) : string :=
  match parts with
  | [] => "/"
  | _ => fold_right (fun c acc => "/" +:+ c +:+ acc) "" parts
  end.

Fixpoint strip_common (a b : list string) : list string * list string :=
  match a, b with
  | x :: a', y :: b' =>
      if bool_decide (x = y) then strip_common a' b' else (a, b)
  | _, _ => (a, b)
  end.

(** [os.path.relpath(path, start)] for absolute arguments. *)
Definition os_path_relpath (path start : string) : string :=
  let (s, p) := strip_common (norm_parts start) (norm_parts path) in
  match (repeat ".." (length s) ++ p)%list with
  | [] => "."
  | rel => join_sep rel
  end.

End Posix.

(** ** Exceptions and results *)

Inductive exn :=
| ValueError (msg : string)
| OSError (msg : string)
| PermissionError (msg : string)
| RuntimeError (msg : string).

(** [PermissionError] is a subclass of [OSError] ([IOError] is its alias). *)
Definition is_OSError (e : exn) : bool :=
  match e with
  | OSError _ | PermissionError _ => true
  | _ => false
  end.

Definition is_ValueError (e : exn) : bool :=
  match e with
  | ValueError _ => true
  | _ => false
  end.

(** [str(e)] *)
Definition str_of_exn (e : exn) : string :=
  match e with
  | ValueError msg | OSError msg | PermissionError msg | RuntimeError msg => msg
  end.

(** What a call does: it returns, it raises, or (only for the loops that
    the model runs with a bound on their iterations) it is still running
    when the bound is reached. *)
Inductive outcome (A : Type) :=
| Ret (a : A)
| Raise (e : exn)
| Timeout.
Arguments Ret {A} a.
Arguments Raise {A} e.
Arguments Timeout {A}.

(** The error kind of the interface: [ValueError("Invalid path")]. *)
Definition InvalidPath : exn := ValueError "Invalid path".

(** ** PathGuard: [is_safe_path] and [get_full_path] *)

Module PathGuard.
Import Str Posix.

Section Guard.

(** Where the program file lives; [config.py] derives the storage root
    from it. *)
Variable EXECUTABLE_DIR : string.

(** The symbolic links of the file system: the link text stored at a
    canonical location, if that location is a link. *)
Variable readlink : list string -> option string.

(** How many links one resolution may expand before the canonicaliser
    reports a symlink loop. *)
Variable max_links : nat.

Definition BASE_DIR : string := os_path_join EXECUTABLE_DIR "homedrive_storage".

(** [Path.resolve()] (non-strict) on the components that remain to be
    walked from the canonical location [cur]: [.] and empty components
    vanish, [..] goes to the parent, a link is replaced by its text, a
    component that does not exist is kept as it is.  A NUL character makes
    the system call raise [ValueError]; a symlink loop is reported by
    pathlib with [RuntimeError]. *)
Fixpoint realpath_from (links : nat) : list string -> list string -> outcome (list string) :=
  fix walk (cur rest : list string) {struct rest} : outcome (list string) :=
    match rest with
    | [] => Ret cur
    | c :: rest' =>
        if bool_decide (c = "") || bool_decide (c = ".") then walk cur rest'
        else if bool_decide (c = "..") then walk (removelast cur) rest'
        else if has_nul c then Raise (ValueError "embedded null byte")
        else match readlink (cur ++ [c]) with
             | None => walk (cur ++ [c]) rest'
             | Some text =>
                 match links with
                 | 0 => Raise (RuntimeError "Symlink loop")
                 | S links' =>
                     realpath_from links'
                       (if startswith text "/" then [] else cur)
                       (split_sep text ++ rest')
                 end
             end
    end.

(** [Path(p).resolve()] for an absolute [p]. *)
Definition resolve (p : string) : outcome (list string) :=
  realpath_from max_links [] (split_sep p).

(** [base / user_path] of pathlib: an absolute right operand replaces the
    left one. *)
Definition pathlib_join (base : list string) (user_path : string) : string :=
  os_path_join (render base) user_path.

(** [is_safe_path(user_path)]: [ValueError] and [OSError] become [False];
    any other exception propagates. *)
Definition is_safe_path (user_path : string) : outcome bool :=
  match resolve BASE_DIR with
  | Ret base =>
      match (if bool_decide (user_path = "") then Ret base
             else resolve (pathlib_join base user_path)) with
      | Ret target => Ret (startswith (render target) (render base))
      | Raise e => if is_ValueError e || is_OSError e then Ret false else Raise e
      | Timeout => Timeout
      end
  | Raise e => if is_ValueError e || is_OSError e then Ret false else Raise e
  | Timeout => Timeout
  end.

(** [get_full_path(user_path)] *)
Definition get_full_path (user_path : string) : outcome string :=
  match is_safe_path user_path with
  | Ret true =>
      Ret (if bool_decide (user_path = "") then BASE_DIR
           else os_path_join BASE_DIR user_path)
  | Ret false => Raise InvalidPath
  | Raise e => Raise e
  | Timeout => Timeout
  end.

(** The canonical target of a request, as [is_safe_path] computes it. *)
Definition canonical_target (base : list string) (user_path : string)
  : outcome (list string) :=
  if bool_decide (user_path = "") then Ret base
  else resolve (pathlib_join base user_path).

End Guard.

(** A path has a [..] segment. *)
Definition has_dotdot_segment (p : string) : bool :=
  bool_decide (".." ∈ split_sep p).

End PathGuard.

(** ** The file system

    The part of the machine the storage core works on: a tree of folders
    and regular files (the core never creates links), the locations whose
    directory entry cannot be removed or renamed (immutable or otherwise
    protected objects: what makes [os.remove] and [shutil.rmtree] fail),
    and the free space that [shutil.disk_usage] reports. *)

Module FS.
Import Str Posix.

Definition bytes : Type := list byte.

#[warning="-register-all"]
Inductive node :=
| File (data : bytes)
| Dir (entries : list (string * node)).

(** Directory entries, in listing order. *)
Fixpoint assoc (name : string) (es : list (string * node)) : option node :=
  match es with
  | [] => None
  | (n, c) :: es' => if bool_decide (n = name) then Some c else assoc name es'
  end.

(** Replace the entry in place, or add it at the end of the listing. *)
Fixpoint assoc_set (name : string) (v : node) (es : list (string * node))
  : list (string * node) :=
  match es with
  | [] => [(name, v)]
  | (n, c) :: es' =>
      if bool_decide (n = name) then (n, v) :: es'
      else (n, c) :: assoc_set name v es'
  end.

Fixpoint assoc_del (name : string) (es : list (string * node))
  : list (string * node) :=
  match es with
  | [] => []
  | (n, c) :: es' =>
      if bool_decide (n = name) then assoc_del name es'
      else (n, c) :: assoc_del name es'
  end.

(** The object at a location (the list of names from the root). *)
Fixpoint get (t : node) (loc : list string) : option node :=
  match loc with
  | [] => Some t
  | c :: loc' =>
      match t with
      | Dir es =>
          match assoc c es with
          | Some child => get child loc'
          | None => None
          end
      | File _ => None
      end
  end.

(** Set ([Some]) or remove ([None]) the object at a location whose parent
    is a folder; [None] when there is no such parent. *)
Fixpoint put (t : node) (loc : list string) (v : option node) : option node :=
  match loc with
  | [] => v
  | c :: loc' =>
      match t with
      | Dir es =>
          match loc' with
          | [] =>
              Some (Dir (match v with
                         | Some n => assoc_set c n es
                         | None => assoc_del c es
                         end))
          | _ =>
              match assoc c es with
              | Some child =>
                  match put child loc' v with
                  | Some child' => Some (Dir (assoc_set c child' es))
                  | None => None
                  end
              | None => None
              end
          end
      | File _ => None
      end
  end.

Definition is_dir_at (t : node) (loc : list string) : bool :=
  match get t loc with
  | Some (Dir _) => true
  | _ => false
  end.

(** Path resolution of the kernel from the location [cur]: every component
    is looked up in a folder; the last one need not exist. *)
Fixpoint namei (t : node) (cur rest : list string) : option (list string) :=
  match rest with
  | [] => Some cur
  | c :: rest' =>
      if is_dir_at t cur then
        if bool_decide (c = "") || bool_decide (c = ".") then namei t cur rest'
        else if bool_decide (c = "..") then namei t (removelast cur) rest'
        else namei t (cur ++ [c]) rest'
      else None
  end.

(** The location a path string denotes (paths are absolute: the storage
    root is). *)
Definition locate (t : node) (p : string) : option (list string) :=
  if bool_decide (p = "") then None else namei t [] (split_sep p).

(** Total size of the regular files of a tree. *)
Fixpoint files_size (n : node) : N :=
  match n with
  | File d => N.of_nat (length d)
  | Dir es =>
      (fix sum (es : list (string * node)) : N :=
         match es with
         | [] => 0%N
         | (_, c) :: es' => (files_size c + sum es')%N
         end) es
  end.

(** [os.walk(top)], top down in listing order: the folder, its folder
    names and its file names. *)
Fixpoint walk_node (top : string) (n : node)
  : list (string * list string * list string) :=
  match n with
  | File _ => []
  | Dir es =>
      (top,
       omap (fun e => match snd e with Dir _ => Some (fst e) | File _ => None end) es,
       omap (fun e => match snd e with File _ => Some (fst e) | Dir _ => None end) es)
      :: (fix below (es : list (string * node)) :=
            match es with
            | [] => []
            | (name, c) :: es' =>
                (walk_node (os_path_join top name) c ++ below es')%list
            end) es
  end.

Record world := World {
  tree : node;
  locked : list (list string);
  disk_free : N
}.

Definition set_tree (w : world) (t : node) : world :=
  {| tree := t; locked := locked w; disk_free := disk_free w |}.

(** The entry at this location cannot be removed or renamed. *)
Definition is_locked (w : world) (loc : list string) : bool :=
  bool_decide (loc ∈ locked w).

(** Some entry at or below this location cannot be removed. *)
Definition locked_below (w : world) (loc : list string) : bool :=
  existsb (fun l => bool_decide (loc `prefix_of` l)) (locked w).

(** *** The monad of the storage core: state and exceptions *)

Definition M (A : Type) : Type := world -> world * outcome A.

Definition ret {A : Type} (a : A) : M A := fun w => (w, Ret a).

Definition bind {A B : Type} (m : M A) (f : A -> M B) : M B := fun w =>
  match m w with
  | (w', Ret a) => f a w'
  | (w', Raise e) => (w', Raise e)
  | (w', Timeout) => (w', Timeout)
  end.

Notation "x <- m ;; k" := (bind m (fun x => k))
  (at level 20, m at level 99, k at level 200, only parsing).

Definition raise {A : Type} (e : exn) : M A := fun w => (w, Raise e).

Definition timeout {A : Type} : M A := fun w => (w, Timeout).

(** [try: body except Exception as e: handler(e)] *)
Definition try_except {A : Type} (body : M A) (handler : exn -> M A) : M A :=
  fun w =>
    match body w with
    | (w', Raise e) => handler e w'
    | r => r
    end.

Definition ask {A : Type} (f : world -> A) : M A := fun w => (w, Ret (f w)).

Definition update (f : world -> outcome node) : M unit := fun w =>
  match f w with
  | Ret t => (set_tree w t, Ret tt)
  | Raise e => (w, Raise e)
  | Timeout => (w, Timeout)
  end.

(** *** System calls *)

Definition stat (w : world) (p : string) : option node :=
  match locate (tree w) p with
  | Some loc => get (tree w) loc
  | None => None
  end.

Definition os_path_exists (p : string) : M bool :=
  ask (fun w => bool_decide (is_Some (stat w p))).

Definition os_path_isdir (p : string) : M bool :=
  ask (fun w => match stat w p with Some (Dir _) => true | _ => false end).

(** [os.path.getsize]: the length of a file (a folder reports the size of
    its own block). *)
Definition os_path_getsize (p : string) : M N := fun w =>
  match stat w p with
  | Some (File d) => (w, Ret (N.of_nat (length d)))
  | Some (Dir _) => (w, Ret 4096%N)
  | None => (w, Raise (OSError "No such file or directory"))
  end.

(** [open(p, "rb").read()] *)
Definition read_file (p : string) : M bytes := fun w =>
  match stat w p with
  | Some (File d) => (w, Ret d)
  | Some (Dir _) => (w, Raise (OSError "Is a directory"))
  | None => (w, Raise (OSError "No such file or directory"))
  end.

(** [open(p, "wb")]: creates or truncates; the handle is the location. *)
Definition open_wb (p : string) : M (list string) := fun w =>
  match locate (tree w) p with
  | None => (w, Raise (OSError "No such file or directory"))
  | Some loc =>
      match get (tree w) loc with
      | Some (Dir _) => (w, Raise (OSError "Is a directory"))
      | _ =>
          match put (tree w) loc (Some (File [])) with
          | Some t' => (set_tree w t', Ret loc)
          | None => (w, Raise (OSError "No such file or directory"))
          end
      end
  end.

(** [f.write(chunk)] on an open handle. *)
Definition file_write (h : list string) (chunk : bytes) : M unit :=
  update (fun w =>
    match get (tree w) h with
    | Some (File d) =>
        match put (tree w) h (Some (File (d ++ chunk))) with
        | Some t' => Ret t'
        | None => Raise (OSError "Bad file descriptor")
        end
    | _ => Raise (OSError "Bad file descriptor")
    end).

(** [os.remove(p)] *)
Definition os_remove (p : string) : M unit :=
  update (fun w =>
    match locate (tree w) p with
    | None => Raise (OSError "No such file or directory")
    | Some loc =>
        match get (tree w) loc with
        | Some (File _) =>
            if is_locked w loc then Raise (PermissionError "Operation not permitted")
            else match put (tree w) loc None with
                 | Some t' => Ret t'
                 | None => Raise (OSError "No such file or directory")
                 end
        | Some (Dir _) => Raise (OSError "Is a directory")
        | None => Raise (OSError "No such file or directory")
        end
    end).

(** [shutil.rmtree(p)].  What an interrupted removal has already deleted is
    not modelled: a protected entry in the tree makes the call fail with
    the tree as it was. *)
Definition shutil_rmtree (p : string) : M unit :=
  update (fun w =>
    match locate (tree w) p with
    | None => Raise (OSError "No such file or directory")
    | Some loc =>
        match get (tree w) loc with
        | Some (Dir _) =>
            if locked_below w loc then Raise (PermissionError "Operation not permitted")
            else match loc, put (tree w) loc None with
                 | _ :: _, Some t' => Ret t'
                 | _, _ => Raise (OSError "Device or resource busy")
                 end
        | Some (File _) => Raise (OSError "Not a directory")
        | None => Raise (OSError "No such file or directory")
        end
    end).

(** [os.rename(src, dst)] and [os.replace(src, dst)]: one atomic step. *)
Definition os_replace (src dst : string) : M unit :=
  update (fun w =>
    match locate (tree w) src, locate (tree w) dst with
    | Some sloc, Some dloc =>
        match get (tree w) sloc with
        | None => Raise (OSError "No such file or directory")
        | Some n =>
            if bool_decide (sloc = dloc) then Ret (tree w)
            else if bool_decide (sloc `prefix_of` dloc) || bool_decide (dloc `prefix_of` sloc)
            then Raise (OSError "Invalid argument")
            else if is_locked w sloc then Raise (PermissionError "Operation not permitted")
            else
              match n, get (tree w) dloc with
              | File _, Some (Dir _) => Raise (OSError "Is a directory")
              | Dir _, Some (File _) => Raise (OSError "Not a directory")
              | Dir _, Some (Dir (_ :: _)) => Raise (OSError "Directory not empty")
              | _, old =>
                  if bool_decide (is_Some old) && is_locked w dloc
                  then Raise (PermissionError "Operation not permitted")
                  else
                    match put (tree w) sloc None with
                    | Some t1 =>
                        match put t1 dloc (Some n) with
                        | Some t2 => Ret t2
                        | None => Raise (OSError "No such file or directory")
                        end
                    | None => Raise (OSError "No such file or directory")
                    end
              end
        end
    | _, _ => Raise (OSError "No such file or directory")
    end).

Definition os_rename : string -> string -> M unit := os_replace.

(** [shutil.move(src, dst)]: into [dst] when that is a folder, else a
    rename.  When [os.rename] fails, [shutil.move] falls back to copying
    and deleting; that fallback is not modelled (where it succeeds, across
    devices, it ends in the state of the rename): here the call fails with
    the tree as it was, and nothing is stated about moves that fail. *)
Definition shutil_move (src dst : string) : M unit :=
  d <- os_path_isdir dst;;
  if d then
    let real_dst := os_path_join dst (os_path_basename (rstrip_sep src)) in
    (e <- os_path_exists real_dst;;
     if e then raise (OSError "Destination path already exists")
     else os_rename src real_dst)
  else os_rename src dst.

(** [os.makedirs]: the components are created from the left as far as they
    are missing; the last [mkdir] fails on an existing entry unless
    [exist_ok] and that entry is a folder. *)
Fixpoint mkdirs (t : node) (cur rest : list string) (fresh : bool)
  : outcome (node * bool) :=
  match rest with
  | [] => Ret (t, fresh)
  | c :: rest' =>
      if is_dir_at t cur then
        if bool_decide (c = "") || bool_decide (c = ".") then mkdirs t cur rest' fresh
        else if bool_decide (c = "..") then mkdirs t (removelast cur) rest' false
        else
          match get t (cur ++ [c]) with
          | Some _ => mkdirs t (cur ++ [c]) rest' false
          | None =>
              match put t (cur ++ [c]) (Some (Dir [])) with
              | Some t' => mkdirs t' (cur ++ [c]) rest' true
              | None => Raise (OSError "No such file or directory")
              end
          end
      else Raise (OSError "Not a directory")
  end.

Definition os_makedirs (p : string) (exist_ok : bool) : M unit :=
  update (fun w =>
    if bool_decide (p = "") then Raise (OSError "No such file or directory")
    else
      match mkdirs (tree w) [] (split_sep p) false with
      | Ret (t', fresh) =>
          if fresh || (exist_ok && match locate t' p with
                                   | Some loc => is_dir_at t' loc
                                   | None => false
                                   end)
          then Ret t'
          else Raise (OSError "File exists")
      | Raise e => Raise e
      | Timeout => Timeout
      end).

(** [shutil.copy2(src, dst)] of a regular file. *)
Definition shutil_copy2 (src dst : string) : M unit :=
  data <- read_file src;;
  d <- os_path_isdir dst;;
  let real_dst := if d then os_path_join dst (os_path_basename src) else dst in
  h <- open_wb real_dst;;
  file_write h data.

(** [os.walk(top)]: nothing when [top] is not a folder. *)
Definition os_walk (top : string) : M (list (string * list string * list string)) :=
  ask (fun w => match stat w top with
                | Some n => walk_node top n
                | None => []
                end).

End FS.

(** ** AtomicFileStore: [create_folder], [save_uploaded_file] *)

Module Store.
Import Str Posix FS.

(** What the environment does at the successive [file.stream.read] calls of
    one upload and at the [f.write] that follows each of them. *)
Inductive io_event :=
| Data (chunk : bytes)
| ReadFails
| WriteFails (chunk : bytes).

(** The uploaded file of the request: its name and its stream. *)
Record upload := Upload {
  filename : string;
  stream : list io_event
}.

Definition MAX_FILENAME_LENGTH : nat := 255.
Definition CHUNK_SIZE : N := 64 * 1024.
Definition MIN_FREE_SPACE : N := 100 * 1024 * 1024.

(** The storage tree holds no links. *)
Definition no_links : list string -> option string := fun _ => None.

Section Store.

Variable EXECUTABLE_DIR : string.

(** [werkzeug.utils.secure_filename] *)
Variable secure_filename : string -> string.

Definition BASE_DIR : string := PathGuard.BASE_DIR EXECUTABLE_DIR.

Definition is_safe_path (user_path : string) : M bool := fun w =>
  (w, PathGuard.is_safe_path EXECUTABLE_DIR no_links 0 user_path).

Definition get_full_path (user_path : string) : M string := fun w =>
  (w, PathGuard.get_full_path EXECUTABLE_DIR no_links 0 user_path).

(** [get_disk_usage()["free"]] *)
Definition get_disk_usage : M N := ask disk_free.

Definition has_space_for_upload (file_size : N) : M bool :=
  free <- get_disk_usage;;
  let required_free := (file_size + MIN_FREE_SPACE)%N in
  ret (required_free <=? free)%N.

Definition create_folder (user_path folder_name : string) : M string :=
  let folder_name := secure_filename folder_name in
  if bool_decide (folder_name = "") then raise (ValueError "Invalid folder name")
  else if bool_decide (MAX_FILENAME_LENGTH < String.length folder_name)
  then raise (ValueError "Folder name too long")
  else
    let new_path :=
      if bool_decide (user_path = "") then folder_name
      else os_path_join user_path folder_name in
    full_path <- get_full_path new_path;;
    e <- os_path_exists full_path;;
    if e then raise (ValueError "Folder already exists")
    else
      _ <- try_except (os_makedirs full_path false)
             (fun e => if is_OSError e
                       then raise (ValueError "Cannot create folder")
                       else raise e);;
      ret new_path.

(** The [while os.path.exists(full_path)] loop of an upload: the counter is
    appended to the base name until the name is free. *)
Fixpoint free_upload_name (fuel : nat) (base_name ext user_path : string)
  (counter : nat) (filename dest_path full_path : string)
  : M (string * string * string) :=
  e <- os_path_exists full_path;;
  if e then
    match fuel with
    | 0 => timeout
    | S fuel' =>
        let filename := base_name +:+ "_" +:+ str_of_nat counter +:+ ext in
        let dest_path :=
          if bool_decide (user_path = "") then filename
          else os_path_join user_path filename in
        full_path <- get_full_path dest_path;;
        free_upload_name fuel' base_name ext user_path (S counter)
          filename dest_path full_path
    end
  else ret (filename, dest_path, full_path).

(** The [while True] loop that copies the stream to the open file. *)
Fixpoint copy_stream (h : list string) (events : list io_event) : M unit :=
  match events with
  | [] => ret tt
  | Data chunk :: rest =>
      match chunk with
      | [] => ret tt
      | _ => _ <- file_write h chunk;; copy_stream h rest
      end
  | ReadFails :: _ => raise (OSError "Connection reset by peer")
  | WriteFails chunk :: _ =>
      match chunk with
      | [] => ret tt
      | _ => raise (OSError "No space left on device")
      end
  end.

(** The [try] block of an upload and its handler. *)
Definition write_upload (events : list io_event) (dest_path full_path : string)
  : M string :=
  let temp_path := full_path +:+ ".tmp" in
  try_except
    (h <- open_wb temp_path;;
     _ <- copy_stream h events;;
     _ <- os_replace temp_path full_path;;
     ret dest_path)
    (fun e =>
       ex <- os_path_exists temp_path;;
       _ <- (if ex then try_except (os_remove temp_path) (fun _ => ret tt)
             else ret tt);;
       raise (ValueError "Cannot save file")).

(** The name, destination and full path an upload settles on before it
    writes: everything of [save_uploaded_file] up to the [try]. *)
Definition upload_target (fuel : nat) (file : option upload)
  (user_path : string) (relative_path : option string)
  : M (string * string * string) :=
  match file with
  | None => raise (ValueError "No file provided")
  | Some f =>
      if bool_decide (filename f = "") then raise (ValueError "No file provided")
      else
        let named :=
          match relative_path with
          | Some rel =>
              if bool_decide (rel = "") then (secure_filename (filename f), user_path)
              else
                let file_dir := os_path_dirname rel in
                (secure_filename (os_path_basename rel),
                 if bool_decide (file_dir = "") then user_path
                 else if bool_decide (user_path = "") then file_dir
                 else os_path_join user_path file_dir)
          | None => (secure_filename (filename f), user_path)
          end in
        let filename := fst named in
        let upload_path := snd named in
        if bool_decide (filename = "") then raise (ValueError "Invalid filename")
        else if bool_decide (MAX_FILENAME_LENGTH < String.length filename)
        then raise (ValueError "Filename too long")
        else
          let dest_path :=
            if bool_decide (upload_path = "") then filename
            else os_path_join upload_path filename in
          full_path <- get_full_path dest_path;;
          let parent_dir := os_path_dirname full_path in
          pe <- os_path_exists parent_dir;;
          _ <- (if negb (bool_decide (parent_dir = "")) && negb pe
                then try_except (os_makedirs parent_dir true)
                       (fun e => if is_OSError e
                                 then raise (ValueError "Cannot create directory structure")
                                 else raise e)
                else ret tt);;
          let (base_name, ext) := os_path_splitext filename in
          free_upload_name fuel base_name ext user_path 1
            filename dest_path full_path
  end.

Definition save_uploaded_file (fuel : nat) (file : option upload)
  (user_path : string) (relative_path : option string) : M string :=
  target <- upload_target fuel file user_path relative_path;;
  write_upload (match file with Some f => stream f | None => [] end)
    (snd (fst target)) (snd target).

End Store.

End Store.

(** ** TrashManager *)

Module Trash.
Import Str Posix FS.

(** One entry of the manifest. *)
Record trash_item := TrashItem {
  trash_name : string;
  original_path : string;
  original_name : string;
  deletion_time : Z;
  is_folder : bool;
  size : N
}.

(** The manifest [{"items": [...]}]. *)
Definition manifest : Type := list trash_item.

Definition TRASH_MAX_AGE_DAYS : Z := 30.

Section Trash.

Variable EXECUTABLE_DIR : string.

(** [json.dump] and [json.load] on manifests: the text written for a
    manifest, and the manifest a text parses to ([None] when the parser
    raises). *)
Variable json_dump : manifest -> bytes.
Variable json_load : bytes -> option manifest.

Definition BASE_DIR : string := PathGuard.BASE_DIR EXECUTABLE_DIR.
Definition TRASH_DIR : string := os_path_join BASE_DIR ".trash".
Definition TRASH_MANIFEST : string := os_path_join TRASH_DIR ".trash_manifest.json".

Definition get_full_path (user_path : string) : M string :=
  Store.get_full_path EXECUTABLE_DIR user_path.

Definition load_trash_manifest : M manifest :=
  e <- os_path_exists TRASH_MANIFEST;;
  if negb e then ret []
  else
    try_except
      (data <- read_file TRASH_MANIFEST;;
       match json_load data with
       | Some m => ret m
       | None => raise (ValueError "JSONDecodeError")
       end)
      (fun _ => ret []).

Definition save_trash_manifest (m : manifest) : M unit :=
  e <- os_path_exists TRASH_DIR;;
  _ <- (if negb e then os_makedirs TRASH_DIR false else ret tt);;
  let temp_file := TRASH_MANIFEST +:+ ".tmp" in
  try_except
    (h <- open_wb temp_file;;
     _ <- file_write h (json_dump m);;
     os_rename temp_file TRASH_MANIFEST)
    (fun e =>
       ex <- os_path_exists temp_file;;
       _ <- (if ex then os_remove temp_file else ret tt);;
       raise e).

(** [get_dir_size]: every error is swallowed. *)
Definition get_dir_size (path : string) : M N :=
  ask (fun w => match stat w path with
                | Some (Dir es) => files_size (Dir es)
                | _ => 0%N
                end).

(** The collision loop of [move_to_trash]. *)
Fixpoint free_trash_name (fuel : nat) (timestamp : Z) (original_name : string)
  (counter : nat) (trash_name trash_path : string) : M (string * string) :=
  e <- os_path_exists trash_path;;
  if e then
    match fuel with
    | 0 => timeout
    | S fuel' =>
        let trash_name :=
          "item_" +:+ str_of_Z timestamp +:+ "_" +:+ str_of_nat counter
            +:+ "_" +:+ original_name in
        free_trash_name fuel' timestamp original_name (S counter)
          trash_name (os_path_join TRASH_DIR trash_name)
    end
  else ret (trash_name, trash_path).

(** [move_to_trash(user_path)] at clock reading [now]. *)
Definition move_to_trash (fuel : nat) (now : Z) (user_path : string) : M string :=
  full_path <- get_full_path user_path;;
  e <- os_path_exists full_path;;
  if negb e then raise (ValueError "Item does not exist")
  else
    te <- os_path_exists TRASH_DIR;;
    _ <- (if negb te then os_makedirs TRASH_DIR false else ret tt);;
    let timestamp := now in
    let original_name := os_path_basename full_path in
    let trash_name := "item_" +:+ str_of_Z timestamp +:+ "_" +:+ original_name in
    named <- free_trash_name fuel timestamp original_name 1
               trash_name (os_path_join TRASH_DIR trash_name);;
    let trash_name := fst named in
    let trash_path := snd named in
    try_except
      (_ <- shutil_move full_path trash_path;;
       m <- load_trash_manifest;;
       folder <- os_path_isdir trash_path;;
       sz <- (if folder then get_dir_size trash_path
              else os_path_getsize trash_path);;
       _ <- save_trash_manifest
              (m ++ [TrashItem trash_name user_path original_name timestamp
                       folder sz]);;
       ret trash_name)
      (fun e =>
         a <- os_path_exists trash_path;;
         b <- os_path_exists full_path;;
         _ <- (if a && negb b
               then try_except (shutil_move trash_path full_path) (fun _ => ret tt)
               else ret tt);;
         raise (ValueError "Cannot move to trash")).

(** The first entry with this trash name, and its index. *)
Fixpoint find_item (name : string) (i : nat) (items : manifest)
  : option (nat * trash_item) :=
  match items with
  | [] => None
  | it :: rest =>
      if bool_decide (trash_name it = name) then Some (i, it)
      else find_item name (S i) rest
  end.

(** The loop that looks for a free ["(restored N)"] name. *)
Fixpoint free_restore_path (fuel : nat) (base ext : string) (counter : nat)
  (restore_path : string) : M string :=
  e <- os_path_exists restore_path;;
  if e then
    match fuel with
    | 0 => timeout
    | S fuel' =>
        free_restore_path fuel' base ext (S counter)
          (base +:+ " (restored " +:+ str_of_nat counter +:+ ")" +:+ ext)
    end
  else ret restore_path.

Definition restore_from_trash (fuel : nat) (name : string) : M string :=
  m <- load_trash_manifest;;
  match find_item name 0 m with
  | None => raise (ValueError "Item not found in trash")
  | Some (item_index, item) =>
      let trash_path := os_path_join TRASH_DIR name in
      e <- os_path_exists trash_path;;
      if negb e then
        _ <- save_trash_manifest (delete item_index m);;
        raise (ValueError "Trash item file not found")
      else
        restore_path <- get_full_path (original_path item);;
        c <- os_path_exists restore_path;;
        restore_path <-
          (if c then
             let (base, ext) := os_path_splitext restore_path in
             free_restore_path fuel base ext 1 restore_path
           else ret restore_path);;
        let parent_dir := os_path_dirname restore_path in
        pe <- os_path_exists parent_dir;;
        _ <- (if negb pe then os_makedirs parent_dir false else ret tt);;
        try_except
          (_ <- shutil_move trash_path restore_path;;
           _ <- save_trash_manifest (delete item_index m);;
           ret (os_path_relpath restore_path BASE_DIR))
          (fun e => raise (ValueError "Cannot restore item"))
  end.

(** The result [{"deleted": n, "errors": [...]}]. *)
Record cleanup_result := CleanupResult {
  deleted : nat;
  errors : list string
}.

(** The removal of the object of an entry, when it is there: the first
    statement of the [try] in the loop of [cleanup_old_trash]. *)
Definition remove_trash_object (trash_path : string) : M unit :=
  e <- os_path_exists trash_path;;
  if e then
    d <- os_path_isdir trash_path;;
    if d then shutil_rmtree trash_path else os_remove trash_path
  else ret tt.

(** [age > max_age_seconds] *)
Definition expired (current_time : Z) (item : trash_item) : bool :=
  let max_age_seconds := (TRASH_MAX_AGE_DAYS * 24 * 60 * 60)%Z in
  let age := (current_time - deletion_time item)%Z in
  bool_decide (max_age_seconds < age)%Z.

(** One round of the loop of [cleanup_old_trash] over an entry; the state
    is [(items_to_keep, deleted_count, errors)]. *)
Definition cleanup_item (current_time : Z) (item : trash_item)
  (st : manifest * nat * list string) : M (manifest * nat * list string) :=
  let '(items_to_keep, deleted_count, errs) := st in
  if expired current_time item then
    let trash_path := os_path_join TRASH_DIR (trash_name item) in
    try_except
      (_ <- remove_trash_object trash_path;;
       ret (items_to_keep, S deleted_count, errs))
      (fun e => ret (items_to_keep ++ [item], deleted_count,
                     errs ++ [trash_name item +:+ ": " +:+ str_of_exn e]))
  else ret (items_to_keep ++ [item], deleted_count, errs).

Fixpoint cleanup_items (current_time : Z) (items : manifest)
  (st : manifest * nat * list string) : M (manifest * nat * list string) :=
  match items with
  | [] => ret st
  | item :: rest =>
      st' <- cleanup_item current_time item st;;
      cleanup_items current_time rest st'
  end.

(** [cleanup_old_trash()] at clock reading [now]. *)
Definition cleanup_old_trash (now : Z) : M cleanup_result :=
  te <- os_path_exists TRASH_DIR;;
  if negb te then ret (CleanupResult 0 [])
  else
    m <- load_trash_manifest;;
    st <- cleanup_items now m ([], 0, []);;
    let '(items_to_keep, deleted_count, errs) := st in
    _ <- save_trash_manifest items_to_keep;;
    ret (CleanupResult deleted_count errs).

(** [get_trash_info()]: [(count, total_size)]. *)
Definition get_trash_info : M (nat * N) :=
  te <- os_path_exists TRASH_DIR;;
  if negb te then ret (0, 0%N)
  else
    m <- load_trash_manifest;;
    ret (length m, fold_left (fun total item => (total + size item)%N) m 0%N).

(** One round of the loop of [empty_trash]; the state is
    [(deleted_count, errors)]. *)
Definition empty_item (item : trash_item) (st : nat * list string)
  : M (nat * list string) :=
  let '(deleted_count, errs) := st in
  let trash_path := os_path_join TRASH_DIR (trash_name item) in
  try_except
    (e <- os_path_exists trash_path;;
     if e then
       d <- os_path_isdir trash_path;;
       _ <- (if d then shutil_rmtree trash_path else os_remove trash_path);;
       ret (S deleted_count, errs)
     else ret (deleted_count, errs))
    (fun e => ret (deleted_count,
                   errs ++ [trash_name item +:+ ": " +:+ str_of_exn e])).

Fixpoint empty_items (items : manifest) (st : nat * list string)
  : M (nat * list string) :=
  match items with
  | [] => ret st
  | item :: rest =>
      st' <- empty_item item st;;
      empty_items rest st'
  end.

(** [empty_trash()] *)
Definition empty_trash : M cleanup_result :=
  te <- os_path_exists TRASH_DIR;;
  if negb te then ret (CleanupResult 0 [])
  else
    m <- load_trash_manifest;;
    st <- empty_items m (0, []);;
    let '(deleted_count, errs) := st in
    _ <- save_trash_manifest [];;
    ret (CleanupResult deleted_count errs).

End Trash.

End Trash.

(** ** Moving and renaming: [delete_item], [move_item], [rename_item] *)

Module Items.
Import Str Posix FS.

Section Items.

Variable EXECUTABLE_DIR : string.
Variable secure_filename : string -> string.
Variable json_dump : Trash.manifest -> bytes.
Variable json_load : bytes -> option Trash.manifest.

Definition get_full_path (user_path : string) : M string :=
  Store.get_full_path EXECUTABLE_DIR user_path.

(** [delete_item(user_path)]: the item goes to the trash. *)
Definition delete_item (fuel : nat) (now : Z) (user_path : string) : M string :=
  Trash.move_to_trash EXECUTABLE_DIR json_dump json_load fuel now user_path.

(** The two [except] clauses of [move_item] and [rename_item]. *)
Definition reraise {A : Type} (what : string) (e : exn) : M A :=
  match e with
  | PermissionError _ => raise (PermissionError "Permission denied")
  | OSError msg => raise (ValueError (what +:+ msg))
  | _ => raise e
  end.

Definition move_item (source_path dest_folder : string) : M string :=
  source_full <- get_full_path source_path;;
  dest_full <- get_full_path dest_folder;;
  e <- os_path_exists source_full;;
  if negb e then raise (ValueError "Source does not exist")
  else
    de <- os_path_exists dest_full;;
    dd <- os_path_isdir dest_full;;
    if negb de || negb dd
    then raise (ValueError "Destination folder does not exist")
    else
      let item_name := os_path_basename source_full in
      let new_path := os_path_join dest_full item_name in
      ne <- os_path_exists new_path;;
      if ne then raise (ValueError "Item already exists in destination")
      else
        try_except
          (_ <- shutil_move source_full new_path;;
           ret (if bool_decide (dest_folder = "") then item_name
                else os_path_join dest_folder item_name))
          (reraise "Cannot move item: ").

Definition rename_item (user_path new_name : string) : M string :=
  let new_name := secure_filename new_name in
  if bool_decide (new_name = "") then raise (ValueError "Invalid name")
  else if bool_decide (Store.MAX_FILENAME_LENGTH < String.length new_name)
  then raise (ValueError "Name too long")
  else
    full_path <- get_full_path user_path;;
    e <- os_path_exists full_path;;
    if negb e then raise (ValueError "Item does not exist")
    else
      let parent_dir := os_path_dirname full_path in
      let new_full_path := os_path_join parent_dir new_name in
      ne <- os_path_exists new_full_path;;
      if ne then raise (ValueError "Item with this name already exists")
      else
        try_except
          (_ <- os_replace full_path new_full_path;;
           let parent_user_path := os_path_dirname user_path in
           ret (if bool_decide (parent_user_path = "") then new_name
                else os_path_join parent_user_path new_name))
          (reraise "Cannot rename item: ").

End Items.

End Items.

(** ** DuplicateScanner *)

Module Dedup.
Import Str Posix FS.

Definition LARGE_FILE_THRESHOLD : N := 100 * 1024 * 1024.
Definition PARTIAL_HASH_SIZE : N := 1 * 1024 * 1024.
Definition HASH_CHUNK_SIZE : N := 64 * 1024.

(** An entry of [size_groups]: [{"path", "full_path"}]. *)
Record scan_entry := ScanEntry {
  se_path : string;
  se_full_path : string
}.

(** An entry of [file_hashes]: [{"path", "size", "full_path"}]. *)
Record file_info := FileInfo {
  fi_path : string;
  fi_size : N;
  fi_full_path : string
}.

(** One group of the result: [{"hash", "count", "size", "files"}]. *)
Record dup_group := DupGroup {
  dg_hash : string;
  dg_count : nat;
  dg_size : N;
  dg_files : list file_info
}.

(** A [defaultdict(list)], in insertion order of its keys. *)
Section Dict.
Context {K V : Type} `{EqDecision K}.

Fixpoint dict_append (k : K) (v : V) (d : list (K * list V)) : list (K * list V) :=
  match d with
  | [] => [(k, [v])]
  | (k', vs) :: d' =>
      if bool_decide (k' = k) then (k', vs ++ [v]) :: d'
      else (k', vs) :: dict_append k v d'
  end.

(** [d[k] = vs] *)
Fixpoint dict_assign (k : K) (vs : list V) (d : list (K * list V)) : list (K * list V) :=
  match d with
  | [] => [(k, vs)]
  | (k', vs') :: d' =>
      if bool_decide (k' = k) then (k', vs) :: d'
      else (k', vs') :: dict_assign k vs d'
  end.

End Dict.

(** The bytes [f.read(n)] returns from the unread rest, block after block,
    fed to the hash object: [iter(lambda: f.read(n), b"")]. *)
Fixpoint read_blocks (fuel : nat) (n : nat) (rest acc : bytes) : bytes :=
  match fuel with
  | 0 => acc
  | S fuel' =>
      match firstn n rest with
      | [] => acc
      | block => read_blocks fuel' n (skipn n rest) (acc ++ block)
      end
  end.

(** What [hash_file] feeds to the hash object for a file with this
    content: the first and the last [PARTIAL_HASH_SIZE] bytes of a large
    file when [partial] is set, else every block of the file. *)
Definition hashed_bytes (data : bytes) (partial : bool) : bytes :=
  let file_size := N.of_nat (length data) in
  if partial && (LARGE_FILE_THRESHOLD <? file_size)%N then
    firstn (N.to_nat PARTIAL_HASH_SIZE) data
    ++ skipn (length data - N.to_nat PARTIAL_HASH_SIZE) data
  else read_blocks (S (length data)) (N.to_nat HASH_CHUNK_SIZE) data [].

Section Scan.

Variable EXECUTABLE_DIR : string.

(** [hashlib.sha256(...).hexdigest()] of the bytes fed to the hash object. *)
Variable sha256 : bytes -> string.

Definition BASE_DIR : string := PathGuard.BASE_DIR EXECUTABLE_DIR.

Definition hash_file (filepath : string) (partial : bool) : M string :=
  _ <- os_path_getsize filepath;;
  data <- read_file filepath;;
  ret (sha256 (hashed_bytes data partial)).

(** [try: body except (IOError, OSError): skip] *)
Definition or_skip {A : Type} (body : M A) (skip : A) : M A :=
  try_except body (fun e => if is_OSError e then ret skip else raise e).

(** A loop over a list with the loop state threaded through. *)
Fixpoint for_each {A S : Type} (xs : list A) (body : A -> S -> M S) (s : S) : M S :=
  match xs with
  | [] => ret s
  | x :: xs' => s' <- body x s;; for_each xs' body s'
  end.

(** Step 1: group by size. *)
Definition size_grouping : M (list (N * list scan_entry)) :=
  walked <- os_walk BASE_DIR;;
  for_each walked
    (fun '(root, _, files) size_groups =>
       if contains root "_duplicates" || contains root ".trash" then ret size_groups
       else
         for_each files
           (fun filename size_groups =>
              let filepath := os_path_join root filename in
              or_skip
                (file_size <- os_path_getsize filepath;;
                 let rel_path := os_path_relpath filepath BASE_DIR in
                 ret (dict_append file_size (ScanEntry rel_path filepath) size_groups))
                size_groups)
           size_groups)
    [].

(** Step 2: the files whose size matches another file. *)
Definition files_to_hash (size_groups : list (N * list scan_entry)) : list scan_entry :=
  flat_map (fun g => if bool_decide (1 < length (snd g)) then snd g else []) size_groups.

(** Step 3, one round of the loop over [files_to_hash]. *)
Definition hash_candidate (candidate : scan_entry)
  (file_hashes : list (string * list file_info))
  : M (list (string * list file_info)) :=
  or_skip
    (file_hash <- hash_file (se_full_path candidate) true;;
     file_size <- os_path_getsize (se_full_path candidate);;
     ret (dict_append file_hash
            (FileInfo (se_path candidate) file_size (se_full_path candidate))
            file_hashes))
    file_hashes.

(** Step 3: hash the candidates, partially when they are large. *)
Definition partial_hashing (candidates : list scan_entry)
  : M (list (string * list file_info)) :=
  for_each candidates hash_candidate [].

(** Step 4, one round of the loop over [file_hashes.items()]: the members
    of a group whose first member is large are hashed in full and filed
    under their full hash; any other group of two or more is taken over
    under its key. *)
Definition confirm_group (g : string * list file_info)
  (final_hashes : list (string * list file_info))
  : M (list (string * list file_info)) :=
  let '(partial_hash, files) := g in
  if bool_decide (1 < length files) then
    match files with
    | first :: _ =>
        if (LARGE_FILE_THRESHOLD <? fi_size first)%N then
          for_each files
            (fun file_info final_hashes =>
               or_skip
                 (full_hash <- hash_file (fi_full_path file_info) false;;
                  ret (dict_append full_hash file_info final_hashes))
                 final_hashes)
            final_hashes
        else ret (dict_assign partial_hash files final_hashes)
    | [] => ret final_hashes
    end
  else ret final_hashes.

(** Step 4: full hash for the groups whose first member is large. *)
Definition confirm (file_hashes : list (string * list file_info))
  : M (list (string * list file_info)) :=
  for_each file_hashes confirm_group [].

(** The groups that are duplicates. *)
Definition only_duplicates (final_hashes : list (string * list file_info))
  : list (string * list file_info) :=
  filter (fun g => 1 < length (snd g)) final_hashes.

(** The duplicate groups of the tree: steps 1 to 4 and the filter. *)
Definition duplicate_groups : M (list (string * list file_info)) :=
  size_groups <- size_grouping;;
  file_hashes <- partial_hashing (files_to_hash size_groups);;
  final_hashes <- confirm file_hashes;;
  ret (only_duplicates final_hashes).

(** Copy the members of one group to its quarantine folder. *)
Definition quarantine_group (dupes_folder : string) (g : string * list file_info)
  : M unit :=
  let hash_folder := os_path_join dupes_folder (take 8 (fst g)) in
  _ <- os_makedirs hash_folder true;;
  for_each (imap (fun idx fi => (idx, fi)) (snd g))
    (fun '(idx, file_info) _ =>
       let src := fi_full_path file_info in
       let safe_path :=
         replace_char "\"%char "_"%char
           (replace_char "/"%char "_"%char (fi_path file_info)) in
       let dst := os_path_join hash_folder (str_of_nat idx +:+ "_" +:+ safe_path) in
       try_except (shutil_copy2 src dst) (fun _ => ret tt))
    tt.

(** [find_duplicates()]: [(count, duplicates)]. *)
Definition find_duplicates : M (nat * list dup_group) :=
  duplicates <- duplicate_groups;;
  match duplicates with
  | [] => ret (0, [])
  | _ =>
      let dupes_folder := os_path_join BASE_DIR "_duplicates" in
      e <- os_path_exists dupes_folder;;
      _ <- (if e then shutil_rmtree dupes_folder else ret tt);;
      _ <- os_makedirs dupes_folder false;;
      _ <- for_each duplicates (fun g _ => quarantine_group dupes_folder g) tt;;
      let result :=
        map (fun g => DupGroup (fst g) (length (snd g))
                        (match snd g with f :: _ => fi_size f | [] => 0%N end)
                        (snd g)) duplicates in
      ret (length result, result)
  end.

End Scan.

End Dedup.

(** ** Notions used in the statements *)

Module Obs.
Import FS.

(** The same machine with another amount of free disk space. *)
Definition with_free (d : N) (w : world) : world :=
  {| tree := tree w; locked := locked w; disk_free := d |}.

(** A computation that does not look at the free disk space: run with
    another amount, it does the same to the tree and gives the same
    result. *)
Definition free_blind {A : Type} (m : M A) : Prop :=
  forall (d : N) (w : world),
    m (with_free d w) = (with_free d (fst (m w)), snd (m w)).

(** The bytes of the regular file at a path. *)
Definition content (w : world) (p : string) : option bytes :=
  match stat w p with
  | Some (File data) => Some data
  | _ => None
  end.

(** The digest of the whole content of a group member. *)
Definition full_digest (sha256 : bytes -> string) (w : world)
  (fi : Dedup.file_info) : string :=
  sha256 (default [] (content w (Dedup.fi_full_path fi))).

(** Two trees with the same folders at the same locations: path
    resolution cannot tell them apart. *)
Definition same_dirs (t t' : node) : Prop :=
  forall l : list string, is_dir_at t' l = is_dir_at t l.

(** [t'] is [t] but for the file (or the absence of one) at [loc]: the
    folders are where they were, and what is neither above nor below [loc]
    is as it was. *)
Definition differ_at (loc : list string) (t t' : node) : Prop :=
  same_dirs t t' /\
  forall l : list string,
    ~ l `prefix_of` loc -> ~ loc `prefix_of` l -> get t' l = get t l.

(** What a stream delivers before it ends or breaks, and whether it ends
    without breaking. *)
Fixpoint payload (events : list Store.io_event) : bytes :=
  match events with
  | Store.Data (b :: chunk) :: rest => (b :: chunk) ++ payload rest
  | _ => []
  end.

Fixpoint stream_ok (events : list Store.io_event) : bool :=
  match events with
  | [] => true
  | Store.Data [] :: _ => true
  | Store.Data _ :: rest => stream_ok rest
  | Store.ReadFails :: _ => false
  | Store.WriteFails [] :: _ => true
  | Store.WriteFails _ :: _ => false
  end.

(** A path component that names an entry: not empty, not [.], not [..]. *)
Definition plain (c : string) : Prop :=
  c <> "" /\ c <> "." /\ c <> "..".

(** A computation that leaves the machine as it found it. *)
Definition readonly {A : Type} (m : M A) : Prop :=
  forall w : world, fst (m w) = w.

(** The object at this location is there and cannot be removed: a
    protected file, or a folder with a protected entry in or below it. *)
Definition blocked (w : world) (loc : list string) : bool :=
  match get (tree w) loc with
  | Some (File _) => is_locked w loc
  | Some (Dir _) => locked_below w loc
  | None => false
  end.

(** [w'] is [w] after entries of the folder at [dir] have been removed,
    none of which was one that cannot be removed: the folders down to
    [dir] are where they were, the protected entries are the same, and
    every entry of [dir] is as it was or gone. *)
Definition shrunk (dir : list string) (w w' : world) : Prop :=
  locked w' = locked w /\
  (forall l : list string,
     l `prefix_of` dir -> is_dir_at (tree w') l = is_dir_at (tree w) l) /\
  (forall c : string,
     get (tree w') (dir ++ [c]) = get (tree w) (dir ++ [c]) \/
     (get (tree w') (dir ++ [c]) = None /\ blocked w (dir ++ [c]) = false)).

(** The removal of the object of a manifest entry is refused on this
    machine: the [try] of the loop of [cleanup_old_trash] raises. *)
Definition removal_fails (EXECUTABLE_DIR : string) (w : world)
  (item : Trash.trash_item) : bool :=
  match snd (Trash.remove_trash_object
               (Posix.os_path_join (Trash.TRASH_DIR EXECUTABLE_DIR)
                  (Trash.trash_name item)) w) with
  | Raise _ => true
  | _ => false
  end.

(** A computation that changes nothing unless it returns: when it raises
    (or runs out of steps) the machine is as it was. *)
Definition all_or_nothing {A : Type} (m : M A) : Prop :=
  forall w : world,
    match m w with
    | (_, Ret _) => True
    | (w', _) => w' = w
    end.

(** [t'] is [t] after the object at [sloc] has been moved to the free
    location [dloc]: it is there and no longer at [sloc], the folders above
    the two locations are folders as before, and what is neither above nor
    below them is as it was. *)
Definition moved (sloc dloc : list string) (obj : node) (t t' : node) : Prop :=
  get t sloc = Some obj /\ get t dloc = None /\
  ~ sloc `prefix_of` dloc /\ ~ dloc `prefix_of` sloc /\
  get t' dloc = Some obj /\ get t' sloc = None /\
  (forall l : list string,
     ~ l `prefix_of` sloc -> ~ sloc `prefix_of` l ->
     ~ l `prefix_of` dloc -> ~ dloc `prefix_of` l -> get t' l = get t l) /\
  (forall l : list string,
     l `prefix_of` sloc \/ l `prefix_of` dloc -> l <> sloc -> l <> dloc ->
     is_dir_at t l = true /\ is_dir_at t' l = true).

(** A trash name as [move_to_trash] makes them: one path component. *)
Definition component (c : string) : Prop :=
  Str.has_sep c = false /\ plain c.

End Obs.

(** ** Sample data

    A manifest codec that reads back what it wrote (what [json.dump] and
    [json.load] do on manifests), used where a statement is run on a
    concrete machine. *)

Module Sample.
Import FS Trash.

Definition item_fields (it : trash_item)
  : string * string * string * Z * bool * N :=
  (trash_name it, original_path it, original_name it, deletion_time it,
   is_folder it, size it).

Definition item_of_fields (f : string * string * string * Z * bool * N)
  : trash_item :=
  let '(tn, op, on, dt, fo, sz) := f in TrashItem tn op on dt fo sz.

Fixpoint bits_of (p : positive) : bytes :=
  match p with
  | xH => []
  | xO p' => x30 :: bits_of p'
  | xI p' => x31 :: bits_of p'
  end.

Fixpoint of_bits (b : bytes) : option positive :=
  match b with
  | [] => Some xH
  | x30 :: b' => xO <$> of_bits b'
  | x31 :: b' => xI <$> of_bits b'
  | _ => None
  end.

Definition manifest_dump (m : manifest) : bytes :=
  bits_of (encode (map item_fields m)).

Definition manifest_load (data : bytes) : option manifest :=
  match of_bits data with
  | Some p => map item_of_fields <$> decode p
  | None => None
  end.

(** The machine of the samples: the program lives in [/srv/app], the
    storage root holds the given entries. *)
Definition app_dir : string := "/srv/app".

Definition machine (entries : list (string * node)) : world :=
  World (Dir [("srv", Dir [("app", Dir [("homedrive_storage", Dir entries)])])])
    [] (1024 * 1024 * 1024 * 1024).

(** [secure_filename] on the names of the samples: letters, digits, dots
    and underscores, which it leaves as they are. *)
Definition keep_name (s : string) : string := s.

(** An upload whose stream delivers the given chunks and then ends. *)
Definition upload_of (name : string) (chunks : list bytes) : option Store.upload :=
  Some (Store.Upload name (map Store.Data chunks)).

(** A stand-in for SHA-256 without collisions: the bytes themselves, as
    text. *)
Definition digest (data : bytes) : string :=
  foldr (fun b s => String (ascii_of_byte b) s) "" data.

(** Two files of different sizes beside the quarantine folder that an
    earlier scan left behind. *)
Definition stale_quarantine : world :=
  machine [("a.txt", File [x68]);
           ("b.txt", File [x68; x69]);
           ("_duplicates", Dir [("6f6c6421", Dir [("0_old.txt", File [x6f])])])].

(** Two copies of one file and a third file. *)
Definition two_copies : world :=
  machine [("a.txt", File [x68; x69]);
           ("b.txt", File [x68; x69]);
           ("c.txt", File [x68])].

(** Two copies of a file [s] listed before two files [x] and [y]. *)
Definition four_files (s x y : bytes) : world :=
  machine [("s1.bin", File s); ("s2.bin", File s);
           ("x.bin", File x); ("y.bin", File y)].

(** One MiB of zero bytes, and a file of 100 MiB and one byte between two
    such MiB, the first byte of the middle being [mark]. *)
Definition edge : bytes := replicate (N.to_nat Dedup.PARTIAL_HASH_SIZE) x00.

Definition big (mark : byte) : bytes :=
  edge ++ (mark :: replicate (N.to_nat Dedup.LARGE_FILE_THRESHOLD) x00) ++ edge.

(** A storage root with the empty folder [Docs]. *)
Definition docs : world := machine [("Docs", Dir [])].

(** The same storage root, where the entry [Docs/a.txt.tmp] cannot be
    removed or renamed once it is there. *)
Definition docs_protected_temp : world :=
  World (tree docs)
    [["srv"; "app"; "homedrive_storage"; "Docs"; "a.txt.tmp"]]
    (disk_free docs).

(** A stream that delivers one chunk and then breaks. *)
Definition broken_stream : list Store.io_event :=
  [Store.Data [x68; x69]; Store.ReadFails].

(** Two files [x] and [y] on their own. *)
Definition two_files (x y : bytes) : world :=
  machine [("x.bin", File x); ("y.bin", File y)].

(** A machine with 50 MiB of free disk space. *)
Definition low_disk : world :=
  World (Dir [("srv", Dir [("app", Dir [("homedrive_storage", Dir [])])])])
    [] (50 * 1024 * 1024).

(** A storage tree whose folder [out] is a link to [/etc], [loop] a link to
    itself and [in] a link to the folder [Docs/x] of the tree. *)
Definition guard_links (p : list string) : option string :=
  if bool_decide (p = ["srv"; "app"; "homedrive_storage"; "out"]) then Some "/etc"
  else if bool_decide (p = ["srv"; "app"; "homedrive_storage"; "loop"]) then Some "loop"
  else if bool_decide (p = ["srv"; "app"; "homedrive_storage"; "in"]) then Some "Docs/x"
  else None.

(** A trash whose manifest file is cut off after its first character. *)
Definition corrupt_trash : world :=
  machine [("a.txt", File [x68; x69]);
           (".trash", Dir [("item_1700000000_b.txt", File [x62]);
                           (".trash_manifest.json", File [x7b])])].

(** A trash with three entries, shortly after the epoch: two files put
    there in its first seconds, the entry of the second a protected one,
    and a file put there 35 days later. *)
Definition three_items : manifest :=
  [TrashItem "item_1_a" "a" "a" 1 false 1;
   TrashItem "item_2_b" "b" "b" 2 false 1;
   TrashItem "item_3024000_c" "c" "c" 3024000 false 1].

Definition trash_of_three : world :=
  World
    (tree (machine
             [(".trash",
               Dir [("item_1_a", File [x61]);
                    ("item_2_b", File [x62]);
                    ("item_3024000_c", File [x63]);
                    (".trash_manifest.json", File (manifest_dump three_items))])]))
    [["srv"; "app"; "homedrive_storage"; ".trash"; "item_2_b"]]
    (disk_free docs).

(** A trash with one entry, deleted at the clock reading 1700000000. *)
Definition trash_of_one : world :=
  machine
    [(".trash",
      Dir [("item_1700000000_a.txt", File [x68]);
           (".trash_manifest.json",
            File (manifest_dump
                    [TrashItem "item_1700000000_a.txt" "a.txt" "a.txt"
                       1700000000 false 1]))])].

(** A trash whose manifest was not written by [move_to_trash]: the first
    entry names the protected file [x] through the folder [d], the second
    is the folder [d]. *)
Definition trash_tampered : world :=
  World
    (tree (machine
             [(".trash",
               Dir [("d", Dir []);
                    ("x", File [x68]);
                    (".trash_manifest.json",
                     File (manifest_dump
                             [TrashItem "d/../x" "x" "x" 0 false 1;
                              TrashItem "d" "d" "d" 0 true 0]))])]))
    [["srv"; "app"; "homedrive_storage"; ".trash"; "x"]]
    (disk_free docs).

(** An empty trash folder in which the manifest, once written, is a
    protected entry. *)
Definition trash_protected_manifest : world :=
  World (tree (machine [(".trash", Dir [])]))
    [["srv"; "app"; "homedrive_storage"; ".trash"; ".trash_manifest.json"]]
    (disk_free docs).

(** A folder with one file. *)
Definition docs_with_file : world :=
  machine [("Docs", Dir [("a.txt", File [x68; x69])])].

End Sample.

(** * Properties *)

Import Str Posix.

(** ** Strings and paths *)

Lemma append_cons (x : ascii) (a b : string) :
  String x a +:+ b = String x (a +:+ b).
Proof. done. Qed.

Lemma append_nil_l (s : string) : "" +:+ s = s.
Proof. done. Qed.

Lemma append_nil_r (s : string) : s +:+ "" = s.
Proof.
  induction s as [|c s IH]; [done|]. by rewrite append_cons, IH.
Qed.

Lemma append_assoc (a b c : string) : (a +:+ b) +:+ c = a +:+ (b +:+ c).
Proof.
  induction a as [|x a IH]; [done|]. by rewrite !append_cons, IH.
Qed.

Lemma length_append (a b : string) :
  String.length (a +:+ b) = String.length a + String.length b.
Proof.
  induction a as [|x a IH]; [done|]. rewrite append_cons. cbn. by rewrite IH.
Qed.

Lemma startswith_nil (s : string) : startswith s "" = true.
Proof. by destruct s. Qed.

Lemma startswith_append (p r : string) : startswith (p +:+ r) p = true.
Proof.
  unfold startswith. induction p as [|c p IH].
  - by destruct r.
  - rewrite append_cons. cbn. destruct (ascii_dec c c); [exact IH|done].
Qed.

Lemma startswith_trans (a b c : string) :
  startswith a b = true -> startswith b c = true -> startswith a c = true.
Proof.
  unfold startswith. revert a b.
  induction c as [|x c IH]; intros a b Hab Hbc.
  - by destruct a.
  - destruct b as [|y b]; [done|]. cbn in Hbc.
    destruct (ascii_dec x y) as [->|]; [|done].
    destruct a as [|z a]; [done|]. cbn in Hab. cbn.
    destruct (ascii_dec y z) as [->|]; [|done].
    destruct (ascii_dec z z); [|done]. eauto.
Qed.

Lemma split_sep_nonempty (s : string) : split_sep s <> [].
Proof.
  induction s as [|c s IH]; cbn; [done|].
  case_bool_decide; [done|]. by destruct (split_sep s).
Qed.

Lemma split_sep_no_sep (s : string) : has_sep s = false -> split_sep s = [s].
Proof.
  induction s as [|c s IH]; cbn; [done|]. intros H.
  apply orb_false_iff in H as [Hc Hs]. rewrite Hc. by rewrite (IH Hs).
Qed.

(** Splitting distributes over a separator between two strings. *)
Lemma split_sep_join (a b : string) :
  split_sep (a +:+ "/" +:+ b) = split_sep a ++ split_sep b.
Proof.
  induction a as [|c a IH]; [done|].
  rewrite append_cons. cbn. rewrite IH. case_bool_decide; [done|].
  pose proof (split_sep_nonempty a). by destruct (split_sep a).
Qed.

(** Appending a separator-free suffix extends the last part. *)
Lemma split_sep_append (a b : string) :
  has_sep b = false ->
  exists init l, split_sep a = init ++ [l] /\
                 split_sep (a +:+ b) = init ++ [l +:+ b].
Proof.
  intros Hb. induction a as [|c a IH].
  - exists [], "". split; [done|]. cbn. by apply split_sep_no_sep.
  - destruct IH as (init & l & E1 & E2). rewrite append_cons. cbn.
    rewrite E1, E2.
    case_bool_decide.
    + exists ("" :: init), l. done.
    + destruct init as [|i init]; cbn.
      * exists [], (String c l). done.
      * exists (String c i :: init), l. done.
Qed.

Lemma join_split_sep (s : string) : join_sep (split_sep s) = s.
Proof.
  induction s as [|c s IH]; cbn; [done|].
  pose proof (split_sep_nonempty s) as Hne.
  case_bool_decide as Hc.
  - subst c. destruct (split_sep s) as [|h t] eqn:E; [done|].
    by rewrite <- IH.
  - destruct (split_sep s) as [|h t] eqn:E; [done|].
    rewrite <- IH. destruct t; done.
Qed.

Lemma split_last_sep_append (p : string) :
  fst (split_last_sep p) +:+ snd (split_last_sep p) = p.
Proof.
  induction p as [|c p IH]; [done|]. cbn.
  destruct (split_last_sep p) as [h t]. cbn in IH.
  destruct h as [|x h].
  - rewrite append_nil_l in IH. subst t. by case_bool_decide; subst.
  - cbn. by rewrite append_cons, IH.
Qed.

Lemma split_last_sep_no_sep (p : string) :
  has_sep (snd (split_last_sep p)) = false.
Proof.
  induction p as [|c p IH]; [done|]. cbn.
  destruct (split_last_sep p) as [h t]. cbn in IH.
  destruct h as [|x h]; [|done].
  case_bool_decide as Hc; [done|]. cbn. by rewrite bool_decide_false.
Qed.

Lemma os_path_splitext_append (p : string) :
  fst (os_path_splitext p) +:+ snd (os_path_splitext p) = p.
Proof.
  unfold os_path_splitext.
  pose proof (split_last_sep_append p) as Hp.
  destruct (split_last_sep p) as [h t]. cbn in Hp.
  assert (forall t a b, split_last_dot t = Some (a, b) -> a +:+ b = t) as Hdot.
  { clear. induction t as [|c t IH]; intros a b; [done|]. cbn.
    destruct (split_last_dot t) as [[a' b']|].
    - intros [= <- <-]. by rewrite append_cons, (IH a' b' eq_refl).
    - case_bool_decide; [|done]. by intros [= <- <-]. }
  destruct (split_last_dot t) as [[a b]|] eqn:E; cbn.
  - destruct (has_non_dot a); cbn.
    + by rewrite append_assoc, (Hdot _ _ _ E).
    + apply append_nil_r.
  - apply append_nil_r.
Qed.

Lemma render_body_app (a b : list string) :
  foldr (fun c acc => "/" +:+ c +:+ acc) "" (a ++ b) =
  foldr (fun c acc => "/" +:+ c +:+ acc) "" a +:+
  foldr (fun c acc => "/" +:+ c +:+ acc) "" b.
Proof.
  induction a as [|z a IH]; [done|]. cbn [foldr app].
  by rewrite IH, !append_assoc.
Qed.

Lemma render_app (a b : list string) :
  a <> [] -> b <> [] -> render (a ++ b) = render a +:+ render b.
Proof.
  intros Ha Hb. unfold render.
  destruct a as [|x a]; [done|]. destruct b as [|y b]; [done|].
  apply (render_body_app (x :: a) (y :: b)).
Qed.

Lemma render_startswith_sep (p : list string) : startswith (render p) "/" = true.
Proof.
  destruct p as [|c p]; [reflexivity|].
  unfold render. cbn [foldr]. rewrite append_cons, append_nil_l.
  unfold startswith. cbn. apply (startswith_nil (c +:+ _)).
Qed.

(** A location below [base], component by component, is rendered with the
    rendering of [base] as a literal prefix. *)
Lemma render_prefix (base target : list string) :
  base `prefix_of` target -> startswith (render target) (render base) = true.
Proof.
  intros [rest ->].
  destruct base as [|b base]; [apply render_startswith_sep|].
  destruct rest as [|r rest].
  - rewrite app_nil_r. rewrite <- (append_nil_r (render (b :: base))) at 1.
    apply startswith_append.
  - rewrite render_app by done. apply startswith_append.
Qed.

(** ** PathGuard *)

Section GuardFacts.
Import PathGuard.

Variable EXECUTABLE_DIR : string.
Variable readlink : list string -> option string.
Variable max_links : nat.

Abbreviation BASE_DIR := (BASE_DIR EXECUTABLE_DIR).
Abbreviation resolve := (resolve readlink max_links).
Abbreviation canonical_target := (canonical_target readlink max_links).
Abbreviation is_safe_path := (is_safe_path EXECUTABLE_DIR readlink max_links).
Abbreviation get_full_path := (get_full_path EXECUTABLE_DIR readlink max_links).

Lemma is_safe_path_unfold (user_path : string) (base : list string) :
  resolve BASE_DIR = Ret base ->
  is_safe_path user_path =
    match canonical_target base user_path with
    | Ret target => Ret (startswith (render target) (render base))
    | Raise e => if is_ValueError e || is_OSError e then Ret false else Raise e
    | Timeout => Timeout
    end.
Proof. intros Hb. unfold PathGuard.is_safe_path. by rewrite Hb. Qed.

(** How PathGuard decides.  With the storage root canonicalised to [base],
    the verdict on [user_path] is the test the code makes on the canonical
    target (links followed, [.] and [..] collapsed): the request is refused
    with [InvalidPath] exactly when the string of the canonical target does
    not start with the string of the canonical root.  A target that lies
    below the root component by component passes that test, and the path
    handed out is [BASE_DIR] joined with the request.  A [ValueError] or
    [OSError] of the canonicaliser is turned into [InvalidPath]; any other
    exception propagates. *)
Theorem path_guard_confinement (user_path : string) (base : list string) :
  resolve BASE_DIR = Ret base ->
  match canonical_target base user_path with
  | Ret target =>
      (get_full_path user_path = Raise InvalidPath <->
       startswith (render target) (render base) = false) /\
      (base `prefix_of` target ->
       startswith (render target) (render base) = true /\
       get_full_path user_path =
         Ret (if bool_decide (user_path = "") then BASE_DIR
              else os_path_join BASE_DIR user_path)) /\
      (forall full, get_full_path user_path = Ret full ->
       startswith (render target) (render base) = true)
  | Raise e =>
      get_full_path user_path =
        Raise (if is_ValueError e || is_OSError e then InvalidPath else e)
  | Timeout => get_full_path user_path = Timeout
  end.
Proof.
  intros Hb. unfold PathGuard.get_full_path.
  rewrite (is_safe_path_unfold _ _ Hb).
  destruct (canonical_target base user_path) as [target|e|]; try done.
  2: { by destruct (is_ValueError e || is_OSError e). }
  destruct (startswith (render target) (render base)) eqn:E.
  - split_and!; try done.
  - split_and!; try done.
    intros Hp. apply render_prefix in Hp. congruence.
Qed.

End GuardFacts.

Lemma path_guard_confinement_witness :
  PathGuard.resolve Sample.guard_links 40 (PathGuard.BASE_DIR "/srv/app")
    = Ret ["srv"; "app"; "homedrive_storage"] /\
  PathGuard.get_full_path "/srv/app" Sample.guard_links 40 "in/y"
    = Ret "/srv/app/homedrive_storage/in/y" /\
  PathGuard.get_full_path "/srv/app" Sample.guard_links 40 "out/passwd"
    = Raise InvalidPath.
Proof.
  split; [reflexivity|].
  pose proof (path_guard_confinement "/srv/app" Sample.guard_links 40 "in/y"
                ["srv"; "app"; "homedrive_storage"] eq_refl) as Hin.
  pose proof (path_guard_confinement "/srv/app" Sample.guard_links 40 "out/passwd"
                ["srv"; "app"; "homedrive_storage"] eq_refl) as Hout.
  vm_compute in Hin. vm_compute in Hout. vm_compute.
  destruct Hin as (_ & Hin & _). destruct Hout as (Hout & _).
  split.
  - apply Hin. by exists ["Docs"; "x"; "y"].
  - apply Hout. reflexivity.
Defined.

(** A request with a [..] segment and a request with an absolute prefix are
    accepted when their canonical form stays in the root. *)
Lemma path_guard_dotdot_accepted :
  PathGuard.has_dotdot_segment "Docs/../notes.txt" = true /\
  PathGuard.get_full_path "/srv/app" (fun _ => None) 40 "Docs/../notes.txt"
    = Ret "/srv/app/homedrive_storage/Docs/../notes.txt" /\
  startswith "/srv/app/homedrive_storage/notes.txt" "/" = true /\
  PathGuard.get_full_path "/srv/app" (fun _ => None) 40
      "/srv/app/homedrive_storage/notes.txt"
    = Ret "/srv/app/homedrive_storage/notes.txt".
Proof. repeat split; reflexivity. Qed.

(** C1 (failing inputs).  The guard compares strings, without a separator:
    a request that climbs out of the root into a sibling folder whose name
    starts with the name of the root is accepted, although its canonical
    target is not below the root, and the path handed out leads outside.
    And a link that points to itself makes the canonicaliser raise
    [RuntimeError], which the guard does not turn into [InvalidPath]. *)
Theorem path_guard_accepts_sibling_of_root :
  let base := ["srv"; "app"; "homedrive_storage"] in
  let target := ["srv"; "app"; "homedrive_storage_old"; "secret.txt"] in
  PathGuard.resolve Store.no_links 0 (PathGuard.BASE_DIR "/srv/app") = Ret base /\
  PathGuard.canonical_target Store.no_links 0 base
    "../homedrive_storage_old/secret.txt" = Ret target /\
  ~ base `prefix_of` target /\
  PathGuard.is_safe_path "/srv/app" Store.no_links 0
    "../homedrive_storage_old/secret.txt" = Ret true /\
  PathGuard.get_full_path "/srv/app" Store.no_links 0
    "../homedrive_storage_old/secret.txt"
    = Ret "/srv/app/homedrive_storage/../homedrive_storage_old/secret.txt" /\
  PathGuard.get_full_path "/srv/app" Sample.guard_links 40 "loop/x"
    = Raise (RuntimeError "Symlink loop").
Proof.
  cbv zeta. split_and!; try reflexivity.
  intros [k Hk]. by injection Hk.
Qed.

(** ** The manifest codec of the samples *)

Lemma of_bits_of (p : positive) : Sample.of_bits (Sample.bits_of p) = Some p.
Proof. induction p as [p IH|p IH|]; cbn; [by rewrite IH..|done]. Qed.

Lemma manifest_load_dump (m : Trash.manifest) :
  Sample.manifest_load (Sample.manifest_dump m) = Some m.
Proof.
  unfold Sample.manifest_load, Sample.manifest_dump.
  rewrite of_bits_of, decode_encode. cbn. f_equal.
  induction m as [|[] m IH]; [done|]. cbn. by rewrite IH.
Qed.

(** ** The monad *)

Section MonadFacts.
Import FS.
Context {A B : Type}.

Lemma bind_Ret (m : M A) (f : A -> M B) (w w' : world) (a : A) :
  m w = (w', Ret a) -> bind m f w = f a w'.
Proof. intros H. unfold bind. by rewrite H. Qed.

Lemma bind_Raise (m : M A) (f : A -> M B) (w w' : world) (e : exn) :
  m w = (w', Raise e) -> bind m f w = (w', Raise e).
Proof. intros H. unfold bind. by rewrite H. Qed.

Lemma bind_Timeout (m : M A) (f : A -> M B) (w w' : world) :
  m w = (w', Timeout) -> bind m f w = (w', Timeout).
Proof. intros H. unfold bind. by rewrite H. Qed.

End MonadFacts.

(** ** The trash manifest *)

Section ManifestFacts.
Import FS Trash.

Variable EXECUTABLE_DIR : string.
Variable json_dump : manifest -> bytes.
Variable json_load : bytes -> option manifest.

Abbreviation TRASH_DIR := (TRASH_DIR EXECUTABLE_DIR).
Abbreviation TRASH_MANIFEST := (TRASH_MANIFEST EXECUTABLE_DIR).
Abbreviation load_trash_manifest := (load_trash_manifest EXECUTABLE_DIR json_load).
Abbreviation get_trash_info := (get_trash_info EXECUTABLE_DIR json_load).

(** What the manifest file holds, as [load_trash_manifest] reads it. *)
Lemma load_trash_manifest_run (w : world) :
  load_trash_manifest w =
    (w, Ret match stat w TRASH_MANIFEST with
            | Some (File data) => default [] (json_load data)
            | _ => []
            end).
Proof.
  unfold Trash.load_trash_manifest, bind, os_path_exists, ask, try_except,
    read_file, ret, raise.
  destruct (stat w TRASH_MANIFEST) as [[data|es]|] eqn:E.
  - rewrite bool_decide_true by eauto. cbn -[stat Trash.TRASH_MANIFEST].
    rewrite E. by destruct (json_load data).
  - rewrite bool_decide_true by eauto. cbn -[stat Trash.TRASH_MANIFEST].
    by rewrite E.
  - rewrite bool_decide_false; [done|]. by intros [? ?].
Qed.

(** C10.  Loading the manifest never raises and changes nothing: it returns
    the manifest the file parses to, and the empty manifest when the file
    is missing, is not a readable file, or does not parse.  In each of
    these three cases the trash then presents itself as empty: count 0 and
    total size 0, whatever the trash folder holds. *)
Theorem load_trash_manifest_never_fails (w : world) :
  (exists m, load_trash_manifest w = (w, Ret m)) /\
  ((forall data, stat w TRASH_MANIFEST = Some (File data) ->
                 json_load data = None) ->
   load_trash_manifest w = (w, Ret []) /\
   get_trash_info w = (w, Ret (0, 0%N))).
Proof.
  split; [rewrite load_trash_manifest_run; eauto|].
  intros Hbad.
  assert (load_trash_manifest w = (w, Ret [])) as Hload.
  { rewrite load_trash_manifest_run.
    destruct (stat w TRASH_MANIFEST) as [[data|es]|] eqn:E; try done.
    by rewrite (Hbad data eq_refl). }
  split; [done|].
  unfold Trash.get_trash_info, bind, os_path_exists, ask.
  destruct (bool_decide _); cbn -[Trash.load_trash_manifest]; [|done].
  by rewrite Hload.
Qed.

End ManifestFacts.

Lemma load_trash_manifest_never_fails_witness :
  Trash.load_trash_manifest Sample.app_dir Sample.manifest_load
    Sample.corrupt_trash = (Sample.corrupt_trash, Ret []) /\
  Trash.get_trash_info Sample.app_dir Sample.manifest_load
    Sample.corrupt_trash = (Sample.corrupt_trash, Ret (0, 0%N)).
Proof.
  apply (load_trash_manifest_never_fails Sample.app_dir Sample.manifest_load
           Sample.corrupt_trash).
  intros data H. vm_compute in H. injection H as <-. reflexivity.
Defined.

(** ** What the store does not look at: the free disk space *)

Section FreeBlind.
Import FS Obs.

Lemma free_blind_ret {A : Type} (a : A) : free_blind (ret a).
Proof. done. Qed.

Lemma free_blind_raise {A : Type} (e : exn) : free_blind (@raise A e).
Proof. done. Qed.

Lemma free_blind_timeout {A : Type} : free_blind (@timeout A).
Proof. done. Qed.

Lemma free_blind_bind {A B : Type} (m : M A) (f : A -> M B) :
  free_blind m -> (forall a, free_blind (f a)) -> free_blind (bind m f).
Proof.
  intros Hm Hf d w. unfold bind. rewrite Hm.
  destruct (m w) as [w' [a|e|]]; cbn; [apply Hf|done|done].
Qed.

Lemma free_blind_try_except {A : Type} (m : M A) (h : exn -> M A) :
  free_blind m -> (forall e, free_blind (h e)) -> free_blind (try_except m h).
Proof.
  intros Hm Hh d w. unfold try_except. rewrite Hm.
  destruct (m w) as [w' [a|e|]]; cbn; [done|apply Hh|done].
Qed.

Lemma free_blind_ask {A : Type} (f : world -> A) :
  (forall d w, f (with_free d w) = f w) -> free_blind (ask f).
Proof. intros Hf d w. unfold ask. cbn. by rewrite Hf. Qed.

Lemma free_blind_update (f : world -> outcome node) :
  (forall d w, f (with_free d w) = f w) -> free_blind (update f).
Proof.
  intros Hf d w. unfold update. rewrite Hf. by destruct (f w).
Qed.

Lemma free_blind_if {A : Type} (b : bool) (m1 m2 : M A) :
  free_blind m1 -> free_blind m2 -> free_blind (if b then m1 else m2).
Proof. by destruct b. Qed.

Lemma free_blind_os_path_exists (p : string) : free_blind (os_path_exists p).
Proof. by apply free_blind_ask. Qed.

Lemma free_blind_os_path_isdir (p : string) : free_blind (os_path_isdir p).
Proof. by apply free_blind_ask. Qed.

Lemma free_blind_open_wb (p : string) : free_blind (open_wb p).
Proof.
  intros d w. unfold open_wb. cbn.
  destruct (locate (tree w) p) as [loc|]; [|done].
  destruct (get (tree w) loc) as [[?|?]|]; try done;
    by destruct (put (tree w) loc (Some (File []))).
Qed.

Lemma free_blind_file_write (h : list string) (chunk : bytes) :
  free_blind (file_write h chunk).
Proof. by apply free_blind_update. Qed.

Lemma free_blind_os_remove (p : string) : free_blind (os_remove p).
Proof. by apply free_blind_update. Qed.

Lemma free_blind_os_replace (src dst : string) : free_blind (os_replace src dst).
Proof. by apply free_blind_update. Qed.

Lemma free_blind_os_makedirs (p : string) (exist_ok : bool) :
  free_blind (os_makedirs p exist_ok).
Proof. by apply free_blind_update. Qed.

End FreeBlind.

Create HintDb free_blind.

#[local] Hint Resolve free_blind_ret free_blind_raise free_blind_timeout
  free_blind_bind free_blind_try_except free_blind_if
  free_blind_os_path_exists free_blind_os_path_isdir free_blind_open_wb
  free_blind_file_write free_blind_os_remove free_blind_os_replace
  free_blind_os_makedirs : free_blind.

Section StoreFreeBlind.
Import FS Obs Store.

Variable EXECUTABLE_DIR : string.
Variable secure_filename : string -> string.

Abbreviation get_full_path := (Store.get_full_path EXECUTABLE_DIR).
Abbreviation save_uploaded_file :=
  (Store.save_uploaded_file EXECUTABLE_DIR secure_filename).

Lemma free_blind_get_full_path (p : string) : free_blind (get_full_path p).
Proof. done. Qed.

Lemma free_blind_free_upload_name (fuel : nat) (base_name ext user_path : string)
  (counter : nat) (filename dest_path full_path : string) :
  free_blind (free_upload_name EXECUTABLE_DIR fuel base_name ext user_path
                counter filename dest_path full_path).
Proof.
  revert counter filename dest_path full_path.
  induction fuel as [|fuel IH]; intros; cbn [free_upload_name];
    (apply free_blind_bind; [apply free_blind_os_path_exists|]);
    intros []; auto with free_blind.
  apply free_blind_bind; [apply free_blind_get_full_path|]. intros full.
  apply IH.
Qed.

Lemma free_blind_copy_stream (h : list string) (events : list io_event) :
  free_blind (copy_stream h events).
Proof.
  induction events as [|[[|b chunk]| |[|b chunk]] events IH];
    cbn [copy_stream]; auto with free_blind.
Qed.

Lemma free_blind_write_upload (events : list io_event) (dest_path full_path : string) :
  free_blind (write_upload events dest_path full_path).
Proof.
  unfold write_upload.
  apply free_blind_try_except.
  - repeat (apply free_blind_bind; [|intros ?]);
      auto using free_blind_copy_stream with free_blind.
  - intros e. apply free_blind_bind; auto with free_blind.
Qed.

Lemma free_blind_upload_target (fuel : nat) (file : option upload)
  (user_path : string) (relative_path : option string) :
  free_blind (upload_target EXECUTABLE_DIR secure_filename fuel file
                user_path relative_path).
Proof.
  unfold upload_target. destruct file as [f|]; auto with free_blind.
  repeat case_bool_decide; auto with free_blind.
  all: apply free_blind_bind; [apply free_blind_get_full_path|intros full].
  all: apply free_blind_bind; auto with free_blind; intros pe.
  all: apply free_blind_bind;
    [apply free_blind_if; auto with free_blind;
     apply free_blind_try_except; auto with free_blind;
     intros e; destruct (is_OSError e); auto with free_blind|intros _].
  all: destruct (os_path_splitext _); apply free_blind_free_upload_name.
Qed.


End StoreFreeBlind.

(** C6 (failing input).  With 50 MiB of free space [has_space_for_upload]
    answers no for an upload of one byte, and the upload is accepted and
    written all the same: [save_uploaded_file] never asks. *)
Theorem upload_accepted_below_margin :
  Store.has_space_for_upload 1 Sample.low_disk = (Sample.low_disk, Ret false) /\
  exists w',
    Store.save_uploaded_file Sample.app_dir Sample.keep_name 8
      (Sample.upload_of "a.txt" [[x68]]) "" None Sample.low_disk
      = (w', Ret "a.txt") /\
    FS.stat w' "/srv/app/homedrive_storage/a.txt" = Some (FS.File [x68]) /\
    FS.disk_free w' = (50 * 1024 * 1024)%N.
Proof.
  split; [reflexivity|].
  eexists. split; [vm_compute; reflexivity|]. split; reflexivity.
Qed.

(** ** The duplicate scan reads, the quarantine writes *)

Section ReadOnly.
Import FS Obs.

Lemma readonly_ret {A : Type} (a : A) : readonly (ret a).
Proof. done. Qed.

Lemma readonly_raise {A : Type} (e : exn) : readonly (@raise A e).
Proof. done. Qed.

Lemma readonly_ask {A : Type} (f : world -> A) : readonly (ask f).
Proof. done. Qed.

Lemma readonly_bind {A B : Type} (m : M A) (f : A -> M B) :
  readonly m -> (forall a, readonly (f a)) -> readonly (bind m f).
Proof.
  intros Hm Hf w. unfold bind. specialize (Hm w).
  destruct (m w) as [w' [a|e|]]; cbn in *; subst; [apply Hf|done|done].
Qed.

Lemma readonly_try_except {A : Type} (m : M A) (h : exn -> M A) :
  readonly m -> (forall e, readonly (h e)) -> readonly (try_except m h).
Proof.
  intros Hm Hh w. unfold try_except. specialize (Hm w).
  destruct (m w) as [w' [a|e|]]; cbn in *; subst; [done|apply Hh|done].
Qed.

Lemma readonly_os_path_getsize (p : string) : readonly (os_path_getsize p).
Proof. intros w. unfold os_path_getsize. by destruct (stat w p) as [[]|]. Qed.

Lemma readonly_read_file (p : string) : readonly (read_file p).
Proof. intros w. unfold read_file. by destruct (stat w p) as [[]|]. Qed.

Lemma readonly_for_each {A S : Type} (xs : list A) (body : A -> S -> M S) (s : S) :
  (forall x s, readonly (body x s)) -> readonly (Dedup.for_each xs body s).
Proof.
  intros Hb. revert s. induction xs as [|x xs IH]; intros s; cbn; [done|].
  apply readonly_bind; auto.
Qed.

Lemma readonly_run {A : Type} (m : M A) (w : world) :
  readonly m -> m w = (w, snd (m w)).
Proof. intros H. specialize (H w). destruct (m w). cbn in *. by subst. Qed.

End ReadOnly.

Create HintDb readonly.

#[local] Hint Resolve readonly_ret readonly_raise readonly_ask readonly_bind
  readonly_try_except readonly_os_path_getsize readonly_read_file
  readonly_for_each : readonly.

Section ScanReadOnly.
Import FS Obs Dedup.

Variable EXECUTABLE_DIR : string.
Variable sha256 : bytes -> string.

Abbreviation duplicate_groups := (Dedup.duplicate_groups EXECUTABLE_DIR sha256).
Abbreviation find_duplicates := (Dedup.find_duplicates EXECUTABLE_DIR sha256).

Lemma readonly_hash_file (p : string) (partial : bool) :
  readonly (hash_file sha256 p partial).
Proof. unfold hash_file. auto with readonly. Qed.

Lemma readonly_or_skip {A : Type} (m : M A) (skip : A) :
  readonly m -> readonly (or_skip m skip).
Proof.
  intros Hm. unfold or_skip. apply readonly_try_except; [done|].
  intros e. destruct (is_OSError e); auto with readonly.
Qed.

Lemma readonly_size_grouping : readonly (size_grouping EXECUTABLE_DIR).
Proof.
  unfold size_grouping. apply readonly_bind; [apply readonly_ask|].
  intros walked. apply readonly_for_each. intros [[root dirs] files] groups.
  destruct (_ || _); [apply readonly_ret|].
  apply readonly_for_each. intros filename groups'.
  apply readonly_or_skip. auto with readonly.
Qed.

Lemma readonly_partial_hashing (candidates : list scan_entry) :
  readonly (partial_hashing sha256 candidates).
Proof.
  unfold partial_hashing. apply readonly_for_each. intros c hashes.
  unfold hash_candidate. apply readonly_or_skip.
  apply readonly_bind; [apply readonly_hash_file|]. auto with readonly.
Qed.

Lemma readonly_confirm (file_hashes : list (string * list file_info)) :
  readonly (confirm sha256 file_hashes).
Proof.
  unfold confirm. apply readonly_for_each. intros [h files] final.
  unfold confirm_group.
  case_bool_decide; [|apply readonly_ret].
  destruct files as [|first rest]; [apply readonly_ret|].
  destruct (_ <? _)%N; [|apply readonly_ret].
  apply readonly_for_each. intros fi final'. apply readonly_or_skip.
  apply readonly_bind; [apply readonly_hash_file|]. auto with readonly.
Qed.

(** Steps 1 to 4 of the scan only read. *)
Lemma readonly_duplicate_groups : readonly duplicate_groups.
Proof.
  unfold Dedup.duplicate_groups.
  apply readonly_bind; [apply readonly_size_grouping|]. intros ?.
  apply readonly_bind; [apply readonly_partial_hashing|]. intros ?.
  apply readonly_bind; [apply readonly_confirm|]. intros ?.
  apply readonly_ret.
Qed.

(** C9 (what the code does instead).  A scan that finds no duplicate group
    returns before it touches the quarantine: the whole machine, the
    [_duplicates] folder of an earlier scan included, is as it was. *)
Theorem scan_without_duplicates_keeps_quarantine (w : world) :
  snd (duplicate_groups w) = Ret [] ->
  find_duplicates w = (w, Ret (0, [])).
Proof.
  intros Hnone. unfold Dedup.find_duplicates.
  rewrite (bind_Ret _ _ w w []); [done|].
  rewrite (readonly_run _ w readonly_duplicate_groups). by rewrite Hnone.
Qed.

End ScanReadOnly.

Lemma scan_without_duplicates_keeps_quarantine_witness :
  Dedup.find_duplicates Sample.app_dir Sample.digest Sample.stale_quarantine
    = (Sample.stale_quarantine, Ret (0, [])) /\
  FS.stat Sample.stale_quarantine
    "/srv/app/homedrive_storage/_duplicates/6f6c6421/0_old.txt"
    = Some (FS.File [x6f]).
Proof.
  split; [|reflexivity].
  apply (scan_without_duplicates_keeps_quarantine Sample.app_dir Sample.digest
           Sample.stale_quarantine).
  vm_compute. reflexivity.
Defined.

(** ** What the scan hashes *)

Section HashFacts.
Import FS Dedup.

(** Reading block after block until the empty block feeds the whole
    content to the hash object. *)
Lemma read_blocks_all (fuel n : nat) (rest acc : bytes) :
  0 < n -> length rest < fuel -> read_blocks fuel n rest acc = acc ++ rest.
Proof.
  intros Hn. revert rest acc.
  induction fuel as [|fuel IH]; intros rest acc Hfuel; [lia|].
  cbn [read_blocks].
  destruct (firstn n rest) as [|b block] eqn:E.
  - destruct rest as [|r rest]; [by rewrite app_nil_r|].
    destruct n; [lia|done].
  - rewrite <- E, IH.
    + by rewrite <- app_assoc, take_drop.
    + rewrite length_drop. destruct rest; [by destruct n|]. cbn in *. lia.
Qed.

Lemma hashed_bytes_spec (data : bytes) (partial : bool) :
  hashed_bytes data partial =
    if partial && (LARGE_FILE_THRESHOLD <? N.of_nat (length data))%N
    then firstn (N.to_nat PARTIAL_HASH_SIZE) data
         ++ skipn (length data - N.to_nat PARTIAL_HASH_SIZE) data
    else data.
Proof.
  unfold hashed_bytes. destruct (partial && _); [done|].
  rewrite read_blocks_all; [done| |lia].
  unfold HASH_CHUNK_SIZE. lia.
Qed.

End HashFacts.

Section TwoPhase.
Import FS Obs Dedup.

Variable sha256 : bytes -> string.

Abbreviation hash_file := (Dedup.hash_file sha256).

Lemma hash_file_run (w : world) (p : string) (partial : bool) (data : bytes) :
  content w p = Some data ->
  hash_file p partial w = (w, Ret (sha256 (hashed_bytes data partial))).
Proof.
  unfold content, Dedup.hash_file, bind, os_path_getsize, read_file, ret.
  destruct (stat w p) as [[d|]|] eqn:E; [|done..]. intros [= ->].
  by rewrite E.
Qed.

Lemma rehash_members (w : world) (files : list file_info)
  (final : list (string * list file_info)) :
  Forall (fun fi => is_Some (content w (fi_full_path fi))) files ->
  for_each files
    (fun file_info final_hashes =>
       or_skip
         (full_hash <- hash_file (fi_full_path file_info) false;;
          ret (dict_append full_hash file_info final_hashes))
         final_hashes)
    final w
  = (w, Ret (foldl (fun acc fi => dict_append (full_digest sha256 w fi) fi acc)
               final files)).
Proof.
  intros Hall. revert final.
  induction Hall as [|fi files [data Hfi] _ IH]; intros final; [done|].
  cbn [for_each foldl].
  erewrite bind_Ret; [apply IH|].
  unfold or_skip, try_except.
  erewrite bind_Ret by (by apply hash_file_run).
  rewrite hashed_bytes_spec. unfold full_digest. by rewrite Hfi.
Qed.

End TwoPhase.

Section TwoPhaseSteps.
Import FS Obs Dedup.

Variable sha256 : bytes -> string.

Lemma hash_candidate_run (w : world) (c : scan_entry) (data : bytes)
  (file_hashes : list (string * list file_info)) :
  content w (se_full_path c) = Some data ->
  hash_candidate sha256 c file_hashes w =
    (w, Ret (dict_append (sha256 (hashed_bytes data true))
               (FileInfo (se_path c) (N.of_nat (length data)) (se_full_path c))
               file_hashes)).
Proof.
  intros Hc. unfold hash_candidate, or_skip, try_except.
  erewrite bind_Ret by (by apply hash_file_run).
  unfold bind, os_path_getsize, ret. unfold content in Hc.
  destruct (stat w (se_full_path c)) as [[d|]|]; [|done..].
  by injection Hc as ->.
Qed.


End TwoPhaseSteps.


(** At the threshold itself the partial pass digests the whole content. *)
Lemma hashed_bytes_at_threshold (data : FS.bytes) :
  N.of_nat (length data) = Dedup.LARGE_FILE_THRESHOLD ->
  Dedup.hashed_bytes data true = data /\
  data <> firstn (N.to_nat Dedup.PARTIAL_HASH_SIZE) data
          ++ skipn (length data - N.to_nat Dedup.PARTIAL_HASH_SIZE) data.
Proof.
  intros Hlen. split.
  - by rewrite hashed_bytes_spec, Hlen, N.ltb_irrefl.
  - intros Heq. apply (f_equal length) in Heq.
    rewrite length_app, length_take, length_drop in Heq.
    unfold Dedup.LARGE_FILE_THRESHOLD in Hlen.
    unfold Dedup.PARTIAL_HASH_SIZE in Heq. lia.
Qed.

(** A file of exactly 100 MiB: the partial pass digests its whole content,
    not its first and last MiB. *)
Lemma hash_at_threshold_is_full :
  N.of_nat (length (replicate (N.to_nat Dedup.LARGE_FILE_THRESHOLD) x00))
    = Dedup.LARGE_FILE_THRESHOLD /\
  Dedup.hashed_bytes (replicate (N.to_nat Dedup.LARGE_FILE_THRESHOLD) x00) true
    = replicate (N.to_nat Dedup.LARGE_FILE_THRESHOLD) x00 /\
  Dedup.hashed_bytes (replicate (N.to_nat Dedup.LARGE_FILE_THRESHOLD) x00) true <>
    firstn (N.to_nat Dedup.PARTIAL_HASH_SIZE)
      (replicate (N.to_nat Dedup.LARGE_FILE_THRESHOLD) x00)
    ++ skipn (length (replicate (N.to_nat Dedup.LARGE_FILE_THRESHOLD) x00)
              - N.to_nat Dedup.PARTIAL_HASH_SIZE)
         (replicate (N.to_nat Dedup.LARGE_FILE_THRESHOLD) x00).
Proof.
  assert (N.of_nat (length (replicate (N.to_nat Dedup.LARGE_FILE_THRESHOLD) x00))
          = Dedup.LARGE_FILE_THRESHOLD) as Hlen.
  { rewrite length_replicate. apply N2Nat.id. }
  destruct (hashed_bytes_at_threshold _ Hlen) as [Hfull Hne].
  split; [exact Hlen|]. split; [exact Hfull|].
  rewrite Hfull. exact Hne.
Defined.

(** ** A partial digest shared with a small file *)

Section DigestCollision.
Import FS Obs Dedup.

Variable sha256 : bytes -> string.

Lemma getsize_content (w : world) (p : string) (d : bytes) :
  content w p = Some d -> os_path_getsize p w = (w, Ret (N.of_nat (length d))).
Proof.
  unfold content, os_path_getsize. destruct (stat w p) as [[?|?]|]; [|done..].
  by intros [= ->].
Qed.

Lemma or_skip_Ret {A : Type} (m : M A) (skip : A) (w w' : world) (a : A) :
  m w = (w', Ret a) -> or_skip m skip w = (w', Ret a).
Proof. intros H. unfold or_skip, try_except. by rewrite H. Qed.

Lemma dict_append_nil {K V : Type} `{EqDecision K} (k : K) (v : V) :
  dict_append k v [] = [(k, [v])].
Proof. done. Qed.

Lemma dict_append_hit {K V : Type} `{EqDecision K} (k : K) (v : V) (vs : list V)
  (d : list (K * list V)) :
  dict_append k v ((k, vs) :: d) = (k, vs ++ [v]) :: d.
Proof. cbn. by rewrite bool_decide_true. Qed.

Lemma dict_append_miss {K V : Type} `{EqDecision K} (k k' : K) (v : V)
  (vs : list V) (d : list (K * list V)) :
  k' <> k -> dict_append k v ((k', vs) :: d) = (k', vs) :: dict_append k v d.
Proof. intros. cbn. by rewrite bool_decide_false. Qed.

Lemma size_grouping_four_files (s x y : bytes) :
  N.of_nat (length s) <> N.of_nat (length x) ->
  length x = length y ->
  size_grouping Sample.app_dir (Sample.four_files s x y) =
    (Sample.four_files s x y,
     Ret [(N.of_nat (length s),
           [ScanEntry "s1.bin" "/srv/app/homedrive_storage/s1.bin";
            ScanEntry "s2.bin" "/srv/app/homedrive_storage/s2.bin"]);
          (N.of_nat (length x),
           [ScanEntry "x.bin" "/srv/app/homedrive_storage/x.bin";
            ScanEntry "y.bin" "/srv/app/homedrive_storage/y.bin"])]).
Proof.
  intros Hsx Hxy. unfold size_grouping.
  rewrite (bind_Ret _ _ _ (Sample.four_files s x y)
             [("/srv/app/homedrive_storage", [],
               ["s1.bin"; "s2.bin"; "x.bin"; "y.bin"])])
    by reflexivity.
  cbn [for_each].
  erewrite bind_Ret; [reflexivity|].
  change (contains _ _ || contains _ _) with false. cbv iota.
  cbn [for_each].
  do 4 (erewrite bind_Ret;
        [|apply or_skip_Ret;
          erewrite bind_Ret by (apply getsize_content; reflexivity);
          reflexivity]).
  rewrite <- Hxy.
  repeat (rewrite dict_append_nil || rewrite dict_append_hit
          || rewrite (dict_append_miss _ _ _ _ _ Hsx)).
  reflexivity.
Qed.

Lemma head_tail_length (x : bytes) :
  (LARGE_FILE_THRESHOLD < N.of_nat (length x))%N ->
  length (firstn (N.to_nat PARTIAL_HASH_SIZE) x
          ++ skipn (length x - N.to_nat PARTIAL_HASH_SIZE) x)
  = 2 * N.to_nat PARTIAL_HASH_SIZE.
Proof.
  intros Hbig. rewrite length_app, length_take, length_drop.
  unfold LARGE_FILE_THRESHOLD, PARTIAL_HASH_SIZE in *. lia.
Qed.

Lemma partial_hashing_four_files (s x y : bytes) :
  length x = length y ->
  (LARGE_FILE_THRESHOLD < N.of_nat (length x))%N ->
  firstn (N.to_nat PARTIAL_HASH_SIZE) x
    ++ skipn (length x - N.to_nat PARTIAL_HASH_SIZE) x = s ->
  firstn (N.to_nat PARTIAL_HASH_SIZE) y
    ++ skipn (length y - N.to_nat PARTIAL_HASH_SIZE) y = s ->
  partial_hashing sha256
    [ScanEntry "s1.bin" "/srv/app/homedrive_storage/s1.bin";
     ScanEntry "s2.bin" "/srv/app/homedrive_storage/s2.bin";
     ScanEntry "x.bin" "/srv/app/homedrive_storage/x.bin";
     ScanEntry "y.bin" "/srv/app/homedrive_storage/y.bin"]
    (Sample.four_files s x y) =
    (Sample.four_files s x y,
     Ret [(sha256 s,
           [FileInfo "s1.bin" (N.of_nat (length s)) "/srv/app/homedrive_storage/s1.bin";
            FileInfo "s2.bin" (N.of_nat (length s)) "/srv/app/homedrive_storage/s2.bin";
            FileInfo "x.bin" (N.of_nat (length x)) "/srv/app/homedrive_storage/x.bin";
            FileInfo "y.bin" (N.of_nat (length x)) "/srv/app/homedrive_storage/y.bin"])]).
Proof.
  intros Hxy Hbig Hx Hy.
  assert (length s = 2 * N.to_nat PARTIAL_HASH_SIZE) as Hs
    by (rewrite <- Hx; by apply head_tail_length).
  assert ((LARGE_FILE_THRESHOLD <? N.of_nat (length s))%N = false) as Hsmall.
  { apply N.ltb_ge. rewrite Hs. unfold LARGE_FILE_THRESHOLD, PARTIAL_HASH_SIZE. lia. }
  unfold partial_hashing. cbn [for_each].
  do 4 (erewrite bind_Ret; [|apply hash_candidate_run; reflexivity]).
  rewrite !hashed_bytes_spec, Hx, Hy, <- Hxy, Hsmall.
  rewrite (proj2 (N.ltb_lt _ _) Hbig). cbn [andb se_path se_full_path].
  rewrite dict_append_nil, !dict_append_hit. reflexivity.
Qed.

Lemma confirm_small_first (k : string) (first : file_info) (rest : list file_info)
  (w : world) :
  rest <> [] ->
  (LARGE_FILE_THRESHOLD <? fi_size first)%N = false ->
  confirm sha256 [(k, first :: rest)] w = (w, Ret [(k, first :: rest)]).
Proof.
  intros Hrest Hsmall. unfold confirm. cbn [for_each].
  erewrite bind_Ret; [reflexivity|].
  unfold confirm_group. rewrite bool_decide_true, Hsmall; [done|].
  destruct rest; [done|]. cbn. lia.
Qed.

(** C4 (failing input).  Two copies of a 2 MiB file [s], listed before two
    files [x] and [y] of one size above 100 MiB that differ, but whose
    first and last MiB are those of [s]: the scan reports all four as one
    duplicate group, whatever the hash function is. *)
Theorem shared_partial_digest_groups_differing_files (s x y : bytes) :
  x <> y ->
  length x = length y ->
  (LARGE_FILE_THRESHOLD < N.of_nat (length x))%N ->
  firstn (N.to_nat PARTIAL_HASH_SIZE) x
    ++ skipn (length x - N.to_nat PARTIAL_HASH_SIZE) x = s ->
  firstn (N.to_nat PARTIAL_HASH_SIZE) y
    ++ skipn (length y - N.to_nat PARTIAL_HASH_SIZE) y = s ->
  duplicate_groups Sample.app_dir sha256 (Sample.four_files s x y) =
    (Sample.four_files s x y,
     Ret [(sha256 s,
           [FileInfo "s1.bin" (N.of_nat (length s)) "/srv/app/homedrive_storage/s1.bin";
            FileInfo "s2.bin" (N.of_nat (length s)) "/srv/app/homedrive_storage/s2.bin";
            FileInfo "x.bin" (N.of_nat (length x)) "/srv/app/homedrive_storage/x.bin";
            FileInfo "y.bin" (N.of_nat (length x)) "/srv/app/homedrive_storage/y.bin"])]).
Proof.
  intros _ Hxy Hbig Hx Hy.
  assert (length s = 2 * N.to_nat PARTIAL_HASH_SIZE) as Hs
    by (rewrite <- Hx; by apply head_tail_length).
  assert (N.of_nat (length s) <> N.of_nat (length x)) as Hsx.
  { rewrite Hs. unfold LARGE_FILE_THRESHOLD, PARTIAL_HASH_SIZE in *. lia. }
  assert ((LARGE_FILE_THRESHOLD <? N.of_nat (length s))%N = false) as Hsmall.
  { apply N.ltb_ge. rewrite Hs. unfold LARGE_FILE_THRESHOLD, PARTIAL_HASH_SIZE. lia. }
  unfold duplicate_groups.
  rewrite (bind_Ret _ _ _ _ _ (size_grouping_four_files s x y Hsx Hxy)).
  change (files_to_hash _) with
    [ScanEntry "s1.bin" "/srv/app/homedrive_storage/s1.bin";
     ScanEntry "s2.bin" "/srv/app/homedrive_storage/s2.bin";
     ScanEntry "x.bin" "/srv/app/homedrive_storage/x.bin";
     ScanEntry "y.bin" "/srv/app/homedrive_storage/y.bin"].
  rewrite (bind_Ret _ _ _ _ _ (partial_hashing_four_files s x y Hxy Hbig Hx Hy)).
  erewrite bind_Ret by (by apply confirm_small_first).
  reflexivity.
Qed.

End DigestCollision.

Lemma head_tail_of_framed (e1 mid e2 : FS.bytes) (n : nat) :
  length e1 = n -> length e2 = n ->
  firstn n (e1 ++ mid ++ e2) ++ skipn (length (e1 ++ mid ++ e2) - n) (e1 ++ mid ++ e2)
  = e1 ++ e2.
Proof.
  intros H1 H2. rewrite take_app_length' by done. f_equal.
  rewrite (app_assoc e1 mid e2). rewrite drop_app_length'; [done|].
  rewrite !length_app. lia.
Qed.

Lemma big_differ : Sample.big x00 <> Sample.big x01.
Proof.
  unfold Sample.big. intros H. apply app_inv_head in H.
  apply app_inv_tail in H.
  apply (f_equal (fun l => match l with b :: _ => b | [] => x00 end)) in H.
  cbv beta iota in H. discriminate H.
Qed.

Lemma length_big (mark : byte) :
  length (Sample.big mark)
  = N.to_nat Dedup.PARTIAL_HASH_SIZE
    + (S (N.to_nat Dedup.LARGE_FILE_THRESHOLD) + N.to_nat Dedup.PARTIAL_HASH_SIZE).
Proof.
  unfold Sample.big, Sample.edge.
  by rewrite !length_app, length_cons, !length_replicate.
Qed.

Lemma shared_partial_digest_groups_differing_files_witness :
  Sample.big x00 <> Sample.big x01 /\
  Dedup.duplicate_groups Sample.app_dir Sample.digest
    (Sample.four_files (Sample.edge ++ Sample.edge) (Sample.big x00) (Sample.big x01))
  = (Sample.four_files (Sample.edge ++ Sample.edge) (Sample.big x00) (Sample.big x01),
     Ret [(Sample.digest (Sample.edge ++ Sample.edge),
           [Dedup.FileInfo "s1.bin" (N.of_nat (length (Sample.edge ++ Sample.edge)))
              "/srv/app/homedrive_storage/s1.bin";
            Dedup.FileInfo "s2.bin" (N.of_nat (length (Sample.edge ++ Sample.edge)))
              "/srv/app/homedrive_storage/s2.bin";
            Dedup.FileInfo "x.bin" (N.of_nat (length (Sample.big x00)))
              "/srv/app/homedrive_storage/x.bin";
            Dedup.FileInfo "y.bin" (N.of_nat (length (Sample.big x00)))
              "/srv/app/homedrive_storage/y.bin"])]).
Proof.
  split; [exact big_differ|].
  apply (shared_partial_digest_groups_differing_files Sample.digest
           (Sample.edge ++ Sample.edge) (Sample.big x00) (Sample.big x01)).
  - exact big_differ.
  - by rewrite !length_big.
  - rewrite length_big.
    unfold Dedup.LARGE_FILE_THRESHOLD, Dedup.PARTIAL_HASH_SIZE. lia.
  - apply head_tail_of_framed; apply length_replicate.
  - apply head_tail_of_framed; apply length_replicate.
Defined.

(** ** The file system: locations *)

Section TreeFacts.
Import FS.

Lemma assoc_set_eq (c : string) (n : node) (es : list (string * node)) :
  assoc c (assoc_set c n es) = Some n.
Proof.
  induction es as [|[c' n'] es IH]; cbn.
  - by rewrite bool_decide_true.
  - case_bool_decide as E; cbn.
    + by rewrite bool_decide_true.
    + by rewrite bool_decide_false.
Qed.

Lemma assoc_set_ne (c c' : string) (n : node) (es : list (string * node)) :
  c' <> c -> assoc c' (assoc_set c n es) = assoc c' es.
Proof.
  intros Hne. induction es as [|[c0 n0] es IH]; cbn.
  - by rewrite bool_decide_false.
  - case_bool_decide as E; cbn.
    + subst c0. by rewrite !bool_decide_false by done.
    + by rewrite IH.
Qed.

Lemma assoc_del_eq (c : string) (es : list (string * node)) :
  assoc c (assoc_del c es) = None.
Proof.
  induction es as [|[c' n'] es IH]; cbn; [done|].
  case_bool_decide as E; cbn; [done|]. by rewrite bool_decide_false.
Qed.

Lemma assoc_del_ne (c c' : string) (es : list (string * node)) :
  c' <> c -> assoc c' (assoc_del c es) = assoc c' es.
Proof.
  intros Hne. induction es as [|[c0 n0] es IH]; cbn; [done|].
  case_bool_decide as E; cbn.
  - subst c0. by rewrite bool_decide_false.
  - by rewrite IH.
Qed.

Lemma get_app (t : node) (a b : list string) :
  get t (a ++ b) = match get t a with Some n => get n b | None => None end.
Proof.
  revert t. induction a as [|c a IH]; intros t; cbn; [done|].
  destruct t as [d|es]; [done|]. destruct (assoc c es); [apply IH|done].
Qed.

(** What was put at a location is there. *)
Lemma put_eq (t : node) (loc : list string) (v : option node) (t' : node) :
  put t loc v = Some t' -> get t' loc = v.
Proof.
  revert t t'. induction loc as [|c loc IH]; intros t t'; cbn.
  - by intros ->.
  - destruct t as [d|es]; [done|]. destruct loc as [|c' loc].
    + intros [= <-]. cbn. destruct v as [n|].
      * by rewrite assoc_set_eq.
      * by rewrite assoc_del_eq.
    + destruct (assoc c es) as [child|]; [|done].
      destruct (put child (c' :: loc) v) as [child'|] eqn:E; [|done].
      intros [= <-]. cbn [get]. rewrite assoc_set_eq. apply (IH _ _ E).
Qed.

(** A location that is neither above nor below the one written is as it
    was. *)
Lemma put_ne (t : node) (loc : list string) (v : option node) (t' : node)
  (l : list string) :
  put t loc v = Some t' ->
  ~ l `prefix_of` loc -> ~ loc `prefix_of` l ->
  get t' l = get t l.
Proof.
  revert t t' l. induction loc as [|c loc IH]; intros t t' l Hput Hl Hloc.
  { destruct Hloc. apply prefix_nil. }
  destruct l as [|c0 l]; [destruct Hl; apply prefix_nil|].
  cbn in Hput. destruct t as [d|es]; [done|].
  destruct loc as [|c' loc].
  - injection Hput as <-. cbn.
    assert (c0 <> c) as Hne.
    { intros ->. apply Hloc. by apply prefix_cons, prefix_nil. }
    destruct v; by rewrite ?assoc_set_ne, ?assoc_del_ne.
  - destruct (assoc c es) as [child|] eqn:Ec; [|done].
    destruct (put child (c' :: loc) v) as [child'|] eqn:E; [|done].
    injection Hput as <-. cbn [get].
    destruct (decide (c0 = c)) as [->|Hne].
    + rewrite assoc_set_eq, Ec. apply (IH _ _ _ E).
      * intros H. apply Hl. by apply prefix_cons.
      * intros H. apply Hloc. by apply prefix_cons.
    + by rewrite assoc_set_ne.
Qed.

(** The locations above the one written are folders, before and after. *)
Lemma put_above (t : node) (loc : list string) (v : option node) (t' : node)
  (l : list string) :
  put t loc v = Some t' -> l `prefix_of` loc -> l <> loc ->
  is_dir_at t l = true /\ is_dir_at t' l = true.
Proof.
  unfold is_dir_at.
  revert t t' l. induction loc as [|c loc IH]; intros t t' l Hput Hl Hne.
  { apply prefix_nil_inv in Hl. done. }
  cbn in Hput. destruct t as [d|es]; [done|].
  destruct l as [|c0 l].
  { cbn. destruct loc as [|c' loc].
    - by injection Hput as <-.
    - destruct (assoc c es); [|done].
      destruct (put _ _ _); [|done]. by injection Hput as <-. }
  apply prefix_cons_inv_1 in Hl as Hc. subst c0.
  apply prefix_cons_inv_2 in Hl.
  destruct loc as [|c' loc].
  { apply prefix_nil_inv in Hl. by subst. }
  destruct (assoc c es) as [child|] eqn:Ec; [|done].
  destruct (put child (c' :: loc) v) as [child'|] eqn:E; [|done].
  injection Hput as <-. cbn [get]. rewrite assoc_set_eq, Ec.
  apply (IH _ _ _ E Hl). congruence.
Qed.

(** Writing into a folder that is there succeeds. *)
Lemma put_in_dir (t : node) (p : list string) (c : string) (v : option node) :
  is_dir_at t p = true -> is_Some (put t (p ++ [c]) v).
Proof.
  unfold is_dir_at. revert t. induction p as [|c0 p IH]; intros t; cbn.
  - destruct t; [done|]. eauto.
  - destruct t as [d|es]; [done|].
    destruct (assoc c0 es) as [child|]; [|done]. intros H.
    destruct (IH child H) as [child' ->].
    destruct (p ++ [c]) eqn:E; [by destruct p|]. eauto.
Qed.

End TreeFacts.

(** ** The file system: path resolution *)

Section WalkFacts.
Import FS Obs.

Lemma is_dir_at_prefix (t : node) (a b : list string) :
  is_dir_at t (a ++ b) = true -> is_dir_at t a = true.
Proof.
  unfold is_dir_at. rewrite get_app.
  destruct (get t a) as [[d|es]|]; [|done..]. by destruct b.
Qed.

Lemma get_below_leaf (t : node) (loc k : list string) :
  is_dir_at t loc = false -> k <> [] -> get t (loc ++ k) = None.
Proof.
  unfold is_dir_at. rewrite get_app.
  destruct (get t loc) as [[d|es]|]; [|done..]. by destruct k.
Qed.

(** Writing or removing a file leaves the folders where they are. *)
Lemma put_leaf_same_dirs (t : node) (loc : list string) (v : option node)
  (t' : node) :
  put t loc v = Some t' ->
  is_dir_at t loc = false ->
  match v with Some (Dir _) => False | _ => True end ->
  same_dirs t t'.
Proof.
  intros Hput Hleaf Hv l.
  assert (is_dir_at t' loc = false) as Hleaf'.
  { unfold is_dir_at. rewrite (put_eq _ _ _ _ Hput). by destruct v as [[]|]. }
  destruct (decide (l `prefix_of` loc)) as [Hl|Hl].
  - destruct (decide (l = loc)) as [->|Hne]; [congruence|].
    destruct (put_above _ _ _ _ _ Hput Hl Hne). congruence.
  - destruct (decide (loc `prefix_of` l)) as [[k ->]|Hloc].
    + assert (k <> []) by (intros ->; apply Hl; by rewrite app_nil_r).
      unfold is_dir_at. by rewrite !get_below_leaf.
    + unfold is_dir_at. by rewrite (put_ne _ _ _ _ _ Hput).
Qed.

Lemma same_dirs_refl (t : node) : same_dirs t t.
Proof. done. Qed.

Lemma same_dirs_trans (t1 t2 t3 : node) :
  same_dirs t1 t2 -> same_dirs t2 t3 -> same_dirs t1 t3.
Proof. intros H1 H2 l. by rewrite H2, H1. Qed.

Lemma namei_ext (t t' : node) (cur rest : list string) :
  same_dirs t t' -> namei t' cur rest = namei t cur rest.
Proof.
  intros H. revert cur. induction rest as [|c rest IH]; intros cur; cbn; [done|].
  rewrite H. destruct (is_dir_at t cur); [|done]. by rewrite !IH.
Qed.

Lemma locate_ext (t t' : node) (p : string) :
  same_dirs t t' -> locate t' p = locate t p.
Proof. intros H. unfold locate. by rewrite (namei_ext _ _ _ _ H). Qed.

Lemma namei_app (t : node) (cur a b : list string) :
  namei t cur (a ++ b) =
    match namei t cur a with Some l => namei t l b | None => None end.
Proof.
  revert cur. induction a as [|c a IH]; intros cur; cbn; [done|].
  destruct (is_dir_at t cur); [|done].
  by repeat (case_bool_decide || destruct (_ || _) || rewrite IH).
Qed.

(** Where a path ends whose last component names an entry. *)
Lemma namei_plain_last (t : node) (cur init : list string) (c : string) :
  plain c ->
  namei t cur (init ++ [c]) =
    match namei t cur init with
    | Some ploc => if is_dir_at t ploc then Some (ploc ++ [c]) else None
    | None => None
    end.
Proof.
  intros (H1 & H2 & H3). rewrite namei_app.
  destruct (namei t cur init) as [ploc|]; [|done]. cbn.
  by rewrite !bool_decide_false by done.
Qed.

End WalkFacts.

(** ** Writing beside a path *)

Section LeafWrites.
Import FS Obs Store.

Lemma differ_at_refl (loc : list string) (t : node) : differ_at loc t t.
Proof. done. Qed.

Lemma differ_at_trans (loc : list string) (t1 t2 t3 : node) :
  differ_at loc t1 t2 -> differ_at loc t2 t3 -> differ_at loc t1 t3.
Proof.
  intros [D1 F1] [D2 F2]. split; [by eapply same_dirs_trans|].
  intros l H1 H2. by rewrite F2, F1.
Qed.

Lemma put_leaf_differ_at (t : node) (loc : list string) (v : option node)
  (t' : node) :
  put t loc v = Some t' ->
  is_dir_at t loc = false ->
  match v with Some (Dir _) => False | _ => True end ->
  differ_at loc t t'.
Proof.
  intros Hput Hleaf Hv. split; [by eapply put_leaf_same_dirs|].
  intros l H1 H2. by eapply put_ne.
Qed.

Lemma sibling_not_prefix (p : list string) (a b : string) :
  a <> b -> ~ (p ++ [a]) `prefix_of` (p ++ [b]).
Proof.
  intros Hne [k Hk]. rewrite <- app_assoc in Hk.
  apply app_inv_head in Hk. destruct k; cbn in Hk; [congruence|].
  by destruct k.
Qed.

(** The temporary sibling: the path with [.tmp] appended differs from the
    path in its last component only, and that component names an entry. *)
Lemma split_sep_tmp (full : string) :
  exists init l,
    split_sep full = init ++ [l] /\
    split_sep (full +:+ ".tmp") = init ++ [l +:+ ".tmp"] /\
    plain (l +:+ ".tmp") /\ l <> l +:+ ".tmp".
Proof.
  destruct (split_sep_append full ".tmp" eq_refl) as (init & l & E1 & E2).
  exists init, l. split_and!; try done.
  - split_and!; intros H; apply (f_equal String.length) in H;
      rewrite length_append in H; cbn in H; lia.
  - intros H. apply (f_equal String.length) in H.
    rewrite length_append in H. cbn in H. lia.
Qed.

Lemma put_over (t : node) (loc : list string) (n : node) :
  is_Some (get t loc) -> is_Some (put t loc (Some n)).
Proof.
  revert t. induction loc as [|c loc IH]; intros t; cbn; [eauto|].
  destruct t as [d|es]; [by intros []|].
  destruct (assoc c es) as [child|]; [|by intros []]. intros H.
  destruct loc as [|c' loc]; [eauto|].
  destruct (IH child H) as [child' ->]. eauto.
Qed.

(** Copying the stream into the open file appends what the stream delivers
    before it ends or breaks, touches nothing else, and fails exactly when
    the stream breaks. *)
Lemma copy_stream_run (h : list string) (events : list io_event) (w : world)
  (d : bytes) :
  get (tree w) h = Some (File d) ->
  exists t',
    fst (copy_stream h events w) = set_tree w t' /\
    differ_at h (tree w) t' /\
    get t' h = Some (File (d ++ payload events)) /\
    match snd (copy_stream h events w) with
    | Ret _ => stream_ok events = true
    | Raise e => stream_ok events = false /\ is_OSError e = true
    | Timeout => False
    end.
Proof.
  revert w d. induction events as [|ev events IH]; intros w d Hd.
  { exists (tree w). destruct w. cbn. by rewrite app_nil_r. }
  assert (exists t', set_tree w t' = w /\ differ_at h (tree w) t' /\
                     get t' h = Some (File (d ++ []))) as Hstay.
  { exists (tree w). destruct w. cbn. by rewrite app_nil_r. }
  destruct ev as [[|b chunk]| |[|b chunk]]; cbn [copy_stream payload stream_ok].
  - destruct Hstay as (t' & <- & ? & ?). by exists t'.
  - unfold bind, file_write, update. rewrite Hd.
    destruct (put_over (tree w) h (File (d ++ b :: chunk))) as [t1 Ht1];
      [by rewrite Hd|].
    rewrite Ht1.
    destruct (IH (set_tree w t1) (d ++ b :: chunk)) as (t' & E1 & D & G & R).
    { cbn. by rewrite (put_eq _ _ _ _ Ht1). }
    exists t'. split_and!.
    + by rewrite E1.
    + eapply differ_at_trans; [|exact D].
      eapply put_leaf_differ_at; [exact Ht1| |done].
      unfold is_dir_at. by rewrite Hd.
    + by rewrite G, <- app_assoc.
    + done.
  - destruct Hstay as (t' & <- & ? & ?). by exists t'.
  - destruct Hstay as (t' & <- & ? & ?). by exists t'.
  - destruct Hstay as (t' & <- & ? & ?). by exists t'.
Qed.

End LeafWrites.

Section Beside.
Import FS Obs Store.

Lemma stat_set_tree (w : world) (t : node) (p : string) :
  stat (set_tree w t) p =
    match locate t p with Some loc => get t loc | None => None end.
Proof. done. Qed.

Lemma tmp_not_empty (full : string) : full +:+ ".tmp" <> "".
Proof.
  intros H. apply (f_equal String.length) in H.
  rewrite length_append in H. cbn in H. lia.
Qed.

Lemma is_dir_at_removelast (t : node) (loc : list string) :
  is_dir_at t loc = true -> is_dir_at t (removelast loc) = true.
Proof.
  destruct (decide (loc = [])) as [->|Hne]; [done|].
  rewrite (app_removelast_last "" Hne) at 1. apply is_dir_at_prefix.
Qed.

(** Where the temporary sibling of a path that holds nothing lies: in a
    folder, and beside the place of the path (if the path has a place). *)
Lemma temp_beside (t : node) (full : string) (tloc : list string) :
  match locate t full with Some loc => get t loc | None => None end = None ->
  locate t (full +:+ ".tmp") = Some tloc ->
  (exists ploc tl, tloc = ploc ++ [tl] /\ is_dir_at t ploc = true) /\
  (locate t full = None \/
   exists loc, locate t full = Some loc /\ get t loc = None /\
               ~ loc `prefix_of` tloc /\ ~ tloc `prefix_of` loc /\
               exists ploc l, loc = ploc ++ [l] /\ is_dir_at t ploc = true).
Proof.
  intros Hnone Ht.
  destruct (split_sep_tmp full) as (init & l & E1 & E2 & Hplain & Hne).
  unfold locate in Ht. rewrite bool_decide_false in Ht by apply tmp_not_empty.
  rewrite E2, namei_plain_last in Ht by done.
  destruct (namei t [] init) as [ploc|] eqn:Ei; [|done].
  destruct (is_dir_at t ploc) eqn:Hd; [|done]. injection Ht as <-.
  split; [by eauto|].
  unfold locate in *. case_bool_decide as Hfull; [by left|]. right.
  rewrite E1, namei_app, Ei in *. cbn in *. rewrite Hd in *.
  assert (forall loc', is_dir_at t loc' = true -> get t loc' <> None) as Hex.
  { intros loc'. unfold is_dir_at. by destruct (get t loc'). }
  case_bool_decide as H1; [by apply Hex in Hnone|].
  case_bool_decide as H2; [by apply Hex in Hnone|]. cbn in *.
  case_bool_decide as H3.
  { apply Hex in Hnone; [done|]. by apply is_dir_at_removelast. }
  exists (ploc ++ [l]). split_and!; try done.
  - by apply sibling_not_prefix.
  - by apply sibling_not_prefix.
  - eauto.
Qed.

(** What holds nothing stays hidden while its temporary sibling is
    written. *)
Lemma hidden_beside_temp (t t' : node) (full : string) (tloc : list string) :
  match locate t full with Some loc => get t loc | None => None end = None ->
  locate t (full +:+ ".tmp") = Some tloc ->
  differ_at tloc t t' ->
  match locate t' full with Some loc => get t' loc | None => None end = None.
Proof.
  intros Hnone Ht [Hdirs Hframe].
  rewrite (locate_ext _ _ _ Hdirs).
  destruct (temp_beside _ _ _ Hnone Ht) as [_ [->|(loc & -> & Hg & H1 & H2 & _)]];
    [done|].
  by rewrite Hframe.
Qed.

End Beside.

(** ** The upload: temporary file, then one rename *)

Section Atomic.
Import FS Obs Store.

Lemma set_tree_tree (w : world) : set_tree w (tree w) = w.
Proof. by destruct w. Qed.

Lemma open_wb_fail (w : world) (p : string) :
  match locate (tree w) p with
  | Some loc => is_dir_at (tree w) loc
  | None => true
  end = true ->
  exists e, open_wb p w = (w, Raise e).
Proof.
  unfold open_wb, is_dir_at. destruct (locate (tree w) p); [|eauto].
  destruct (get (tree w) l) as [[]|]; try done; eauto.
Qed.

Lemma open_wb_run (w : world) (p : string) (ploc : list string) (c : string) :
  locate (tree w) p = Some (ploc ++ [c]) ->
  is_dir_at (tree w) (ploc ++ [c]) = false ->
  is_dir_at (tree w) ploc = true ->
  exists t1, open_wb p w = (set_tree w t1, Ret (ploc ++ [c])) /\
             put (tree w) (ploc ++ [c]) (Some (File [])) = Some t1.
Proof.
  intros Hl Hleaf Hdir. unfold open_wb. rewrite Hl.
  destruct (put_in_dir (tree w) ploc c (Some (File [])) Hdir) as [t1 Ht1].
  exists t1. rewrite Ht1. unfold is_dir_at in Hleaf.
  by destruct (get (tree w) (ploc ++ [c])) as [[]|].
Qed.

(** The handler of a failed upload: the temporary file is removed unless
    its entry is protected; [ValueError] is raised. *)
Lemma upload_handler_run (w : world) (t2 : node) (temp : string)
  (ploc : list string) (c : string) (d : bytes) :
  locate t2 temp = Some (ploc ++ [c]) ->
  get t2 (ploc ++ [c]) = Some (File d) ->
  is_dir_at t2 ploc = true ->
  exists t3,
    (ex <- os_path_exists temp;;
     _ <- (if ex then try_except (os_remove temp) (fun _ => ret tt) else ret tt);;
     @raise string (ValueError "Cannot save file")) (set_tree w t2)
    = (set_tree w t3, Raise (ValueError "Cannot save file")) /\
    differ_at (ploc ++ [c]) t2 t3 /\
    (is_locked w (ploc ++ [c]) = false -> get t3 (ploc ++ [c]) = None).
Proof.
  intros Hl Hg Hdir.
  unfold bind at 1. unfold os_path_exists, ask. rewrite stat_set_tree, Hl, Hg.
  rewrite bool_decide_true by eauto.
  unfold bind, try_except, os_remove, update. cbn [tree set_tree].
  rewrite Hl, Hg.
  change (is_locked (set_tree w t2) (ploc ++ [c])) with (is_locked w (ploc ++ [c])).
  destruct (is_locked w (ploc ++ [c])).
  - exists t2. by split_and!.
  - destruct (put_in_dir t2 ploc c None Hdir) as [t3 Ht3]. rewrite Ht3.
    exists t3. split_and!; [done| |by intros; eapply put_eq].
    eapply put_leaf_differ_at; [done| |done]. unfold is_dir_at. by rewrite Hg.
Qed.

Lemma upload_handler_idle (w : world) (temp : string) :
  match locate (tree w) temp with
  | Some loc => is_dir_at (tree w) loc
  | None => true
  end = true ->
  (ex <- os_path_exists temp;;
   _ <- (if ex then try_except (os_remove temp) (fun _ => ret tt) else ret tt);;
   @raise string (ValueError "Cannot save file")) w
  = (w, Raise (ValueError "Cannot save file")).
Proof.
  intros Hbad. unfold bind at 1. unfold os_path_exists, ask, stat.
  destruct (locate (tree w) temp) as [loc|] eqn:El.
  - unfold is_dir_at in Hbad.
    destruct (get (tree w) loc) as [[d|es]|] eqn:Eg; try done.
    rewrite bool_decide_true by eauto.
    unfold bind, try_except, os_remove, update. by rewrite El, Eg.
  - by rewrite bool_decide_false by (by intros []).
Qed.

(** The rename that ends an upload. *)
Lemma upload_rename_run (w : world) (t2 : node) (temp full : string)
  (ptl ploc : list string) (tl l : string) (d : bytes) :
  locate t2 temp = Some (ptl ++ [tl]) -> locate t2 full = Some (ploc ++ [l]) ->
  get t2 (ptl ++ [tl]) = Some (File d) -> get t2 (ploc ++ [l]) = None ->
  ~ (ploc ++ [l]) `prefix_of` (ptl ++ [tl]) ->
  ~ (ptl ++ [tl]) `prefix_of` (ploc ++ [l]) ->
  is_dir_at t2 ptl = true -> is_dir_at t2 ploc = true ->
  is_locked w (ptl ++ [tl]) = false ->
  exists t4,
    os_replace temp full (set_tree w t2) = (set_tree w t4, Ret tt) /\
    same_dirs t2 t4 /\
    get t4 (ploc ++ [l]) = Some (File d) /\ get t4 (ptl ++ [tl]) = None /\
    forall l' : list string,
      ~ l' `prefix_of` (ptl ++ [tl]) -> ~ (ptl ++ [tl]) `prefix_of` l' ->
      ~ l' `prefix_of` (ploc ++ [l]) -> ~ (ploc ++ [l]) `prefix_of` l' ->
      get t4 l' = get t2 l'.
Proof.
  intros Ht Hl Hg Hn H1 H2 Hdt Hdl Hlock.
  destruct (put_in_dir t2 ptl tl None Hdt) as [t3 Ht3].
  assert (same_dirs t2 t3) as D3.
  { eapply put_leaf_same_dirs; [done| |done]. unfold is_dir_at. by rewrite Hg. }
  assert (get t3 (ploc ++ [l]) = None) as Hn3
    by (by rewrite (put_ne _ _ _ _ _ Ht3)).
  destruct (put_in_dir t3 ploc l (Some (File d))) as [t4 Ht4];
    [by rewrite D3|].
  exists t4. split_and!.
  - unfold os_replace, update. cbn [tree set_tree]. rewrite Ht, Hl, Hg.
    rewrite bool_decide_false by (intros E; apply H2; by rewrite E).
    rewrite !bool_decide_false by done. cbn [orb].
    change (is_locked (set_tree w t2) (ptl ++ [tl]))
      with (is_locked w (ptl ++ [tl])).
    rewrite Hlock, Hn. cbn [andb]. by rewrite Ht3, Ht4.
  - eapply same_dirs_trans; [done|].
    eapply put_leaf_same_dirs; [done| |done]. unfold is_dir_at. by rewrite Hn3.
  - by eapply put_eq.
  - rewrite (put_ne _ _ _ _ _ Ht4) by done. by eapply put_eq.
  - intros l' N1 N2 N3 N4.
    by rewrite (put_ne _ _ _ _ _ Ht4), (put_ne _ _ _ _ _ Ht3).
Qed.

End Atomic.

Section AtomicUpload.
Import FS Obs Store.

Lemma try_except_Raise {A : Type} (body : M A) (handler : exn -> M A)
  (w w' : world) (e : exn) :
  body w = (w', Raise e) -> try_except body handler w = handler e w'.
Proof. intros H. unfold try_except. by rewrite H. Qed.

Lemma try_except_Ret {A : Type} (body : M A) (handler : exn -> M A)
  (w w' : world) (a : A) :
  body w = (w', Ret a) -> try_except body handler w = (w', Ret a).
Proof. intros H. unfold try_except. by rewrite H. Qed.

(** Writing an upload into a path that holds nothing.  At every point of
    the transfer the final path still holds nothing.  If the upload fails,
    for whatever reason, it raises [ValueError], the final path holds
    nothing, and the temporary sibling is gone unless its entry is
    protected (or it was a folder before).  If it succeeds the stream did
    not break, the final path holds exactly what the stream delivered, put
    there by the one rename, and the temporary sibling is gone. *)
Lemma write_upload_atomicity (w : world) (events : list io_event)
  (dest_path full_path : string) :
  stat w full_path = None ->
  (forall k : nat,
     stat (fst ((h <- open_wb (full_path +:+ ".tmp");;
                 copy_stream h (firstn k events)) w)) full_path = None) /\
  match write_upload events dest_path full_path w with
  | (w', Ret p) =>
      p = dest_path /\ stream_ok events = true /\
      stat w' full_path = Some (File (payload events)) /\
      stat w' (full_path +:+ ".tmp") = None
  | (w', Raise e) =>
      e = ValueError "Cannot save file" /\
      stat w' full_path = None /\
      ((forall tloc, locate (tree w) (full_path +:+ ".tmp") = Some tloc ->
          is_locked w tloc = false /\ is_dir_at (tree w) tloc = false) ->
       stat w' (full_path +:+ ".tmp") = None)
  | (_, Timeout) => False
  end.
Proof.
  intros H0. set (temp := full_path +:+ ".tmp").
  destruct (decide (match locate (tree w) temp with
                    | Some loc => is_dir_at (tree w) loc
                    | None => true
                    end = true)) as [Hbad|Hok].
  { destruct (open_wb_fail w temp Hbad) as [e He]. split.
    - intros k. by rewrite (bind_Raise _ _ _ _ _ He).
    - unfold write_upload. cbv zeta. fold temp.
      erewrite try_except_Raise by (by apply bind_Raise).
      rewrite (upload_handler_idle _ _ Hbad).
      split_and!; try done. intros Hc. unfold stat.
      destruct (locate (tree w) temp) as [tloc|]; [|done].
      destruct (Hc tloc eq_refl). congruence. }
  assert (exists tloc, locate (tree w) temp = Some tloc /\
                       is_dir_at (tree w) tloc = false) as (tloc & Et & Hleaf).
  { destruct (locate (tree w) temp) as [tloc|]; [|done].
    exists tloc. split; [done|]. by apply not_true_is_false. }
  clear Hok. rename Hleaf into Hok.
  destruct (temp_beside (tree w) full_path tloc H0 Et)
    as [(ptl & tl & -> & Hdt) Hfull].
  destruct (open_wb_run w temp ptl tl Et Hok Hdt) as (t1 & Hopen & Hput1).
  assert (differ_at (ptl ++ [tl]) (tree w) t1) as D1
    by (by eapply put_leaf_differ_at).
  assert (get (tree (set_tree w t1)) (ptl ++ [tl]) = Some (File [])) as G1
    by (by eapply put_eq).
  split.
  { intros k. rewrite (bind_Ret _ _ _ _ _ Hopen).
    destruct (copy_stream_run _ (firstn k events) _ _ G1) as (t2 & -> & D2 & _).
    rewrite stat_set_tree.
    eapply hidden_beside_temp; [exact H0|exact Et|].
    by eapply differ_at_trans. }
  destruct (copy_stream_run _ events _ _ G1) as (t2 & E2 & D2 & G2 & R).
  destruct (copy_stream (ptl ++ [tl]) events (set_tree w t1)) as [w2 r] eqn:Ecopy.
  cbn [fst snd] in E2, R. subst w2.
  change (set_tree (set_tree w t1) t2) with (set_tree w t2) in Ecopy.
  assert (differ_at (ptl ++ [tl]) (tree w) t2) as D12
    by (by eapply differ_at_trans).
  assert (locate t2 temp = Some (ptl ++ [tl])) as Et2
    by (by rewrite (locate_ext _ _ _ (proj1 D12))).
  assert (is_dir_at t2 ptl = true) as Hdt2 by (by rewrite (proj1 D12)).
  (* what the handler leaves behind *)
  assert (forall e0 : exn,
    (h <- open_wb temp;; _ <- copy_stream h events;;
     _ <- os_replace temp full_path;; ret dest_path) w
      = (set_tree w t2, Raise e0) ->
    match write_upload events dest_path full_path w with
    | (w', Raise e) =>
        e = ValueError "Cannot save file" /\
        stat w' full_path = None /\
        ((forall tloc, locate (tree w) temp = Some tloc ->
            is_locked w tloc = false /\ is_dir_at (tree w) tloc = false) ->
         stat w' temp = None)
    | _ => False
    end) as Hfail.
  { intros e0 Hbody. unfold write_upload. cbv zeta. fold temp.
    rewrite (try_except_Raise _ _ _ _ _ Hbody).
    destruct (upload_handler_run w t2 temp ptl tl _ Et2 G2 Hdt2)
      as (t3 & -> & D3 & Hgone).
    split_and!; [done| |].
    - rewrite stat_set_tree.
      eapply hidden_beside_temp; [exact H0|exact Et|].
      by eapply differ_at_trans.
    - intros Hc. destruct (Hc _ Et) as [Hlock _].
      rewrite stat_set_tree, (locate_ext _ _ _ (proj1 D3)), Et2. auto. }
  destruct r as [[]|e|]; [| |done].
  2: { (* the stream broke *)
    specialize (Hfail e). rewrite (bind_Ret _ _ _ _ _ Hopen) in Hfail.
    rewrite (bind_Raise _ _ _ _ _ Ecopy) in Hfail.
    specialize (Hfail eq_refl).
    destruct (write_upload events dest_path full_path w) as [w' [p|e'|]];
      [done|exact Hfail|done]. }
  (* the stream ended: the rename *)
  assert (forall e0 : exn,
    os_replace temp full_path (set_tree w t2) = (set_tree w t2, Raise e0) ->
    match write_upload events dest_path full_path w with
    | (w', Ret p) =>
        p = dest_path /\ stream_ok events = true /\
        stat w' full_path = Some (File (payload events)) /\
        stat w' temp = None
    | (w', Raise e) =>
        e = ValueError "Cannot save file" /\
        stat w' full_path = None /\
        ((forall tloc, locate (tree w) temp = Some tloc ->
            is_locked w tloc = false /\ is_dir_at (tree w) tloc = false) ->
         stat w' temp = None)
    | (_, Timeout) => False
    end) as Hrename_fails.
  { intros e0 Hrep. specialize (Hfail e0).
    rewrite (bind_Ret _ _ _ _ _ Hopen), (bind_Ret _ _ _ _ _ Ecopy) in Hfail.
    rewrite (bind_Raise _ _ _ _ _ Hrep) in Hfail. specialize (Hfail eq_refl).
    destruct (write_upload events dest_path full_path w) as [w' [p|e'|]];
      [done|exact Hfail|done]. }
  destruct Hfull as [Hnone|(loc & Hloc & Hg & H1 & H2 & ploc & l & -> & Hdl)].
  { eapply Hrename_fails. unfold os_replace, update. cbn [tree set_tree].
    by rewrite Et2, (locate_ext _ _ _ (proj1 D12)), Hnone. }
  assert (locate t2 full_path = Some (ploc ++ [l])) as Hloc2
    by (by rewrite (locate_ext _ _ _ (proj1 D12))).
  assert (get t2 (ploc ++ [l]) = None) as Hg2
    by (by rewrite (proj2 D12)).
  destruct (is_locked w (ptl ++ [tl])) eqn:Hlock.
  { eapply Hrename_fails. unfold os_replace, update. cbn [tree set_tree].
    rewrite Et2, Hloc2, G2.
    rewrite bool_decide_false by (intros E; apply H2; by rewrite E).
    rewrite !bool_decide_false by done. cbn [orb].
    change (is_locked (set_tree w t2) (ptl ++ [tl]))
      with (is_locked w (ptl ++ [tl])).
    by rewrite Hlock. }
  destruct (upload_rename_run w t2 temp full_path ptl ploc tl l _
              Et2 Hloc2 G2 Hg2 H1 H2 Hdt2) as (t4 & Hrep & D4 & G4 & Gt4 & _);
    [by rewrite (proj1 D12)|done|].
  unfold write_upload. cbv zeta. fold temp.
  erewrite try_except_Ret; cycle 1.
  { rewrite (bind_Ret _ _ _ _ _ Hopen), (bind_Ret _ _ _ _ _ Ecopy).
    by rewrite (bind_Ret _ _ _ _ _ Hrep). }
  assert (same_dirs (tree w) t4) as D14
    by (eapply same_dirs_trans; [exact (proj1 D12)|exact D4]).
  split_and!; try done.
  - by rewrite stat_set_tree, (locate_ext _ _ _ D14), Hloc.
  - by rewrite stat_set_tree, (locate_ext _ _ _ D14), Et.
Qed.

End AtomicUpload.

(** ** Creating folders *)

Section MakeDirs.
Import FS Obs Store.

(** A new empty folder where nothing was: what was there before is still
    there, and the folders are still folders. *)
Lemma put_new_keeps (t : node) (loc : list string) (n : node) (t1 : node)
  (l : list string) :
  get t loc = None -> put t loc (Some n) = Some t1 ->
  (is_dir_at t l = true -> is_dir_at t1 l = true) /\
  (is_Some (get t l) -> is_Some (get t1 l)).
Proof.
  intros Hnone Hput.
  destruct (decide (l `prefix_of` loc)) as [Hl|Hl].
  - destruct (decide (l = loc)) as [->|Hne].
    + unfold is_dir_at. rewrite Hnone. split; [done|by intros []].
    + destruct (put_above _ _ _ _ _ Hput Hl Hne) as [_ Hd]. split; [done|].
      intros _. unfold is_dir_at in Hd. by destruct (get t1 l).
  - destruct (decide (loc `prefix_of` l)) as [[k ->]|Hloc].
    + unfold is_dir_at. rewrite get_app, Hnone. split; [done|by intros []].
    + unfold is_dir_at. by rewrite (put_ne _ _ _ _ _ Hput).
Qed.

Lemma mkdirs_keeps (t : node) (cur rest : list string) (fresh : bool)
  (t' : node) (fresh' : bool) (l : list string) :
  mkdirs t cur rest fresh = Ret (t', fresh') ->
  (is_dir_at t l = true -> is_dir_at t' l = true) /\
  (is_Some (get t l) -> is_Some (get t' l)).
Proof.
  revert t cur fresh. induction rest as [|c rest IH]; intros t cur fresh; cbn.
  { by intros [= <- <-]. }
  destruct (is_dir_at t cur); [|done].
  destruct (_ || _); [apply IH|].
  case_bool_decide as Hdd; [apply IH|].
  destruct (get t (cur ++ [c])) eqn:G; [apply IH|].
  destruct (put t (cur ++ [c]) (Some (Dir []))) as [t1|] eqn:P; [|done].
  intros Hm. destruct (IH _ _ _ Hm) as [H1 H2].
  destruct (put_new_keeps _ _ _ _ l G P) as [H3 H4]. split; auto.
Qed.

(** After [mkdirs] the path resolves, and to something that is there. *)
Lemma mkdirs_namei (t : node) (cur rest : list string) (fresh : bool)
  (t' : node) (fresh' : bool) :
  mkdirs t cur rest fresh = Ret (t', fresh') ->
  is_Some (get t cur) ->
  exists loc, namei t' cur rest = Some loc /\ is_Some (get t' loc).
Proof.
  revert t cur fresh. induction rest as [|c rest IH]; intros t cur fresh H Hcur.
  { cbn in H. injection H as <- <-. by exists cur. }
  pose proof (mkdirs_keeps _ _ _ _ _ _ cur H) as [Hkeep _].
  cbn in H. cbn [namei].
  destruct (is_dir_at t cur) eqn:Hd; [|done]. rewrite (Hkeep eq_refl).
  destruct (_ || _); [by eapply IH|].
  case_bool_decide as Hdd.
  { eapply IH; [done|]. apply is_dir_at_removelast in Hd.
    unfold is_dir_at in Hd. by destruct (get t (removelast cur)). }
  destruct (get t (cur ++ [c])) eqn:G; [by eapply IH|].
  destruct (put t (cur ++ [c]) (Some (Dir []))) as [t1|] eqn:P; [|done].
  eapply IH; [done|]. by rewrite (put_eq _ _ _ _ P).
Qed.

Lemma os_makedirs_exists (p : string) (exist_ok : bool) (w w1 : world) :
  os_makedirs p exist_ok w = (w1, Ret tt) ->
  is_Some (stat w1 p) /\ locked w1 = locked w.
Proof.
  unfold os_makedirs, update. case_bool_decide as Hp; [done|].
  destruct (mkdirs (tree w) [] (split_sep p) false) as [[t' fresh]|e|] eqn:E;
    [|done..].
  destruct (_ || _); [|done]. intros [= <-]. split; [|done].
  rewrite stat_set_tree. unfold locate. rewrite bool_decide_false by done.
  destruct (mkdirs_namei _ _ _ _ _ _ E) as (loc & -> & Hloc); [by eexists|].
  done.
Qed.

End MakeDirs.

Section Inversion.
Import FS.
Context {A B : Type}.

Lemma bind_inv_Ret (m : M A) (f : A -> M B) (w w2 : world) (b : B) :
  bind m f w = (w2, Ret b) ->
  exists w1 a, m w = (w1, Ret a) /\ f a w1 = (w2, Ret b).
Proof. unfold bind. destruct (m w) as [w1 [a|e|]]; [eauto|done..]. Qed.

Lemma try_except_inv_Ret (body : M A) (handler : exn -> M A) (w w' : world)
  (a : A) :
  try_except body handler w = (w', Ret a) ->
  body w = (w', Ret a) \/
  exists w1 e, body w = (w1, Raise e) /\ handler e w1 = (w', Ret a).
Proof.
  unfold try_except. destruct (body w) as [w1 [a'|e|]]; [by left|eauto|done].
Qed.

End Inversion.

Section FolderCollision.
Import FS Obs Store.

Variable EXECUTABLE_DIR : string.
Variable secure_filename : string -> string.

Abbreviation create_folder := (Store.create_folder EXECUTABLE_DIR secure_filename).

(** What a successful [create_folder] did. *)
Lemma create_folder_inv (user_path folder_name : string) (w w1 : world)
  (p : string) :
  create_folder user_path folder_name w = (w1, Ret p) ->
  let name := secure_filename folder_name in
  exists full,
    name <> "" /\ String.length name <= MAX_FILENAME_LENGTH /\
    p = (if bool_decide (user_path = "") then name
         else os_path_join user_path name) /\
    PathGuard.get_full_path EXECUTABLE_DIR no_links 0 p = Ret full /\
    stat w full = None /\
    os_makedirs full false w = (w1, Ret tt).
Proof.
  unfold Store.create_folder. cbv zeta.
  case_bool_decide as Hn; [done|]. case_bool_decide as Hlen; [done|].
  intros (w0 & full & Hf & H)%bind_inv_Ret.
  unfold Store.get_full_path in Hf. injection Hf as <- Hf.
  apply bind_inv_Ret in H as (w0 & e & He & H).
  unfold os_path_exists, ask in He. injection He as <- <-.
  case_bool_decide as Hex; [done|].
  apply bind_inv_Ret in H as (w2 & [] & Hmk & H).
  injection H as <- <-.
  apply try_except_inv_Ret in Hmk as [Hmk|(w3 & e & _ & Hh)].
  - exists full. split_and!; try done; [lia|].
    destruct (stat w full) eqn:E; [|done]. destruct Hex. eauto.
  - by destruct (is_OSError e).
Qed.

End FolderCollision.

(** ** Paths below a folder *)

Section PathAlgebra.
Import FS Obs.

Lemma prefix_cons (a c : ascii) (p m : string) :
  String.prefix (String a p) (String c m) =
    if ascii_dec a c then String.prefix p m else false.
Proof. done. Qed.

Lemma has_sep_startswith (m : string) :
  has_sep m = false -> startswith m "/" = false.
Proof.
  destruct m as [|c m]; [done|]. intros H. cbn in H.
  apply orb_false_iff in H as [Hc _]. apply bool_decide_eq_false in Hc.
  unfold startswith. rewrite prefix_cons.
  destruct (ascii_dec "/" c); [congruence|done].
Qed.

Lemma endswith_sep_inv (p : string) :
  endswith_sep p = true -> exists q, p = q +:+ "/".
Proof.
  induction p as [|c p IH]; [done|]. cbn. destruct p as [|c' p].
  - intros ->%bool_decide_eq_true. by exists "".
  - intros [q Hq]%IH. exists (String c q). by rewrite append_cons, <- Hq.
Qed.

(** The string a name is appended to by [os.path.join(a, name)]. *)
Lemma os_path_join_shape (a : string) :
  exists P, (P = "" \/ exists Q, P = Q +:+ "/") /\
            forall m, startswith m "/" = false -> os_path_join a m = P +:+ m.
Proof.
  destruct (bool_decide (a = "") || endswith_sep a) eqn:E.
  - exists a. split.
    + apply orb_true_iff in E as [E|E].
      * left. by apply bool_decide_eq_true in E.
      * right. by apply endswith_sep_inv.
    + intros m Hm. unfold os_path_join. by rewrite Hm, E.
  - exists (a +:+ "/"). split; [right; by exists a|].
    intros m Hm. unfold os_path_join. by rewrite Hm, E, append_assoc.
Qed.

Lemma startswith_app_nonempty (p m : string) :
  p <> "" -> startswith (p +:+ m) "/" = startswith p "/".
Proof.
  destruct p as [|c p]; [done|]. intros _. unfold startswith.
  rewrite append_cons, !prefix_cons.
  destruct (ascii_dec "/" c); [|done]. by destruct p, m.
Qed.

(** The components of [P ++ m] for a folder prefix [P] and a name [m]. *)
Lemma split_sep_below (P : string) :
  P = "" \/ (exists Q, P = Q +:+ "/") ->
  exists init, split_sep P = init ++ [""] /\
    forall m, has_sep m = false -> split_sep (P +:+ m) = init ++ [m].
Proof.
  intros [->|[Q ->]].
  - exists []. split; [done|]. intros m Hm. by apply split_sep_no_sep.
  - exists (split_sep Q). split.
    + by rewrite <- (append_nil_r (Q +:+ "/")), append_assoc, split_sep_join.
    + intros m Hm. by rewrite append_assoc, split_sep_join, (split_sep_no_sep m).
Qed.

Lemma slash_end_nonempty (P : string) :
  P <> "" -> P = "" \/ (exists Q, P = Q +:+ "/") -> exists Q, P = Q +:+ "/".
Proof. by intros ? [|]. Qed.

(** The full path of an upload named [m] into [user_path] is a folder
    prefix, which does not depend on [m], followed by [m]. *)
Lemma upload_path_shape (base user_path : string) :
  exists P, (P = "" \/ exists Q, P = Q +:+ "/") /\
    forall m, has_sep m = false ->
      os_path_join base (if bool_decide (user_path = "") then m
                         else os_path_join user_path m) = P +:+ m.
Proof.
  destruct (os_path_join_shape base) as (Pb & Hb & Eb).
  case_bool_decide as Hu.
  { exists Pb. split; [done|]. intros m Hm. by apply Eb, has_sep_startswith. }
  destruct (bool_decide (user_path = "") || endswith_sep user_path) eqn:E.
  - (* the folder ends with a separator *)
    apply orb_true_iff in E as [E|E]; [by apply bool_decide_eq_true in E|].
    destruct (endswith_sep_inv _ E) as [Q HQ].
    destruct (startswith user_path "/") eqn:Es.
    + exists user_path. split; [by eauto|]. intros m Hm.
      assert (os_path_join user_path m = user_path +:+ m) as ->.
      { unfold os_path_join. rewrite (has_sep_startswith _ Hm).
        by rewrite E, orb_true_r. }
      unfold os_path_join at 1. by rewrite startswith_app_nonempty, Es.
    + exists (Pb +:+ user_path). split.
      { right. exists (Pb +:+ Q). by rewrite HQ, append_assoc. }
      intros m Hm.
      assert (os_path_join user_path m = user_path +:+ m) as ->.
      { unfold os_path_join. rewrite (has_sep_startswith _ Hm).
        by rewrite E, orb_true_r. }
      rewrite Eb, append_assoc; [done|].
      by rewrite startswith_app_nonempty.
  - apply orb_false_iff in E as [_ E].
    assert (forall m, has_sep m = false ->
              os_path_join user_path m = (user_path +:+ "/") +:+ m) as Ej.
    { intros m Hm. unfold os_path_join. rewrite (has_sep_startswith _ Hm), E.
      rewrite bool_decide_false by done. by rewrite append_assoc. }
    assert (user_path +:+ "/" <> "") as Hne by (by destruct user_path).
    destruct (startswith user_path "/") eqn:Es.
    + exists (user_path +:+ "/"). split; [by eauto|]. intros m Hm.
      rewrite (Ej m Hm). unfold os_path_join.
      rewrite startswith_app_nonempty by done.
      by rewrite startswith_app_nonempty, Es by done.
    + exists (Pb +:+ (user_path +:+ "/")). split.
      { right. exists (Pb +:+ user_path). by rewrite append_assoc. }
      intros m Hm. rewrite (Ej m Hm), Eb; [by rewrite !append_assoc|].
      rewrite startswith_app_nonempty by done.
      by rewrite startswith_app_nonempty.
Qed.

Lemma split_last_sep_name (m : string) :
  has_sep m = false -> split_last_sep m = ("", m).
Proof.
  induction m as [|c m IH]; [done|]. cbn. intros H.
  apply orb_false_iff in H as [Hc Hm]. rewrite (IH Hm).
  by rewrite Hc.
Qed.

Lemma split_last_sep_below (P m : string) :
  P = "" \/ (exists Q, P = Q +:+ "/") -> has_sep m = false ->
  split_last_sep (P +:+ m) = (P, m).
Proof.
  intros [->|[Q ->]] Hm; [by apply split_last_sep_name|].
  induction Q as [|c Q IH].
  - rewrite append_nil_l, append_cons, append_nil_l. cbn.
    by rewrite (split_last_sep_name _ Hm).
  - rewrite !append_cons. cbn [split_last_sep]. rewrite IH.
    by destruct Q.
Qed.

Lemma rstrip_sep_spec (p : string) :
  exists S, p = rstrip_sep p +:+ S /\ rstrip_sep S = "".
Proof.
  induction p as [|c p (S & HS & HS')]; [by exists ""|]. cbn.
  destruct (rstrip_sep p) as [|r R] eqn:E.
  - rewrite append_nil_l in HS. subst S. case_bool_decide as Hc.
    + exists (String c p). split; [done|]. cbn. by rewrite E, bool_decide_true.
    + exists p. by rewrite append_cons, append_nil_l.
  - exists S. by rewrite append_cons, <- HS.
Qed.

Lemma split_sep_slashes (S x : string) :
  rstrip_sep S = "" ->
  split_sep (S +:+ x) = repeat "" (String.length S) ++ split_sep x.
Proof.
  induction S as [|c S IH]; [done|]. cbn [rstrip_sep].
  destruct (rstrip_sep S) eqn:E; [|done].
  case_bool_decide as Hc; [|done]. intros _.
  rewrite append_cons. cbn. by rewrite bool_decide_true, IH.
Qed.

Lemma namei_empties_inv (t : node) (cur : list string) (k : nat)
  (loc : list string) :
  namei t cur (repeat "" k) = Some loc -> loc = cur.
Proof.
  induction k as [|k IH]; cbn; [congruence|].
  destruct (is_dir_at t cur); [|done]. done.
Qed.

Lemma namei_empties_dir (t : node) (cur : list string) (k : nat) :
  is_dir_at t cur = true -> namei t cur (repeat "" k) = Some cur.
Proof. intros H. induction k as [|k IH]; cbn; [done|]. by rewrite H. Qed.

(** The folder of a path: [os.path.dirname] of a name below a folder
    prefix resolves to where the prefix resolves. *)
Lemma locate_dirname (t : node) (P m : string) (init ploc : list string) :
  P = "" \/ (exists Q, P = Q +:+ "/") -> has_sep m = false ->
  split_sep P = init ++ [""] ->
  namei t [] init = Some ploc -> is_dir_at t ploc = true ->
  os_path_dirname (P +:+ m) = "" \/
  locate t (os_path_dirname (P +:+ m)) = Some ploc.
Proof.
  intros HP Hm Hinit Hn Hd. unfold os_path_dirname.
  rewrite (split_last_sep_below _ _ HP Hm). cbn [fst].
  destruct (rstrip_sep_spec P) as (S & HS & HS').
  assert (split_sep S = repeat "" (String.length S) ++ [""]) as HsS.
  { by rewrite <- (append_nil_r S) at 1; rewrite split_sep_slashes. }
  destruct (rstrip_sep P) as [|r R] eqn:E.
  - rewrite append_nil_l in HS. subst S.
    destruct (decide (P = "")) as [->|Hne]; [by left|]. right.
    rewrite HsS in Hinit. apply app_inj_tail in Hinit as [<- _].
    apply namei_empties_inv in Hn as ->.
    unfold locate. rewrite bool_decide_false by done.
    rewrite HsS. change (repeat "" (String.length P) ++ [""])
      with (repeat "" (String.length P) ++ repeat "" 1).
    rewrite <- repeat_app. by apply namei_empties_dir.
  - right. unfold locate. rewrite bool_decide_false by done.
    destruct S as [|c S].
    + rewrite append_nil_r in HS. rewrite <- HS, Hinit, namei_app, Hn.
      cbn. by rewrite Hd.
    + cbn [rstrip_sep] in HS'. destruct (rstrip_sep S) eqn:ES; [|done].
      case_bool_decide as Hc; [subst c|done].
      rewrite HS in Hinit.
      change (String r R +:+ String "/" S)
        with (String r R +:+ "/" +:+ S) in Hinit.
      rewrite (split_sep_join (String r R) S) in Hinit.
      rewrite <- (append_nil_r S) in Hinit at 1.
      rewrite split_sep_slashes in Hinit by done.
      rewrite !app_assoc in Hinit. apply app_inj_tail in Hinit as [<- _].
      rewrite namei_app in Hn.
      destruct (namei t [] (split_sep (String r R))) as [l1|]; [|done].
      by apply namei_empties_inv in Hn as ->.
Qed.

End PathAlgebra.

(** ** Uploads into a folder *)

Section UploadsInFolder.
Import FS Obs Store.

Lemma plain_tmp (m : string) : plain (m +:+ ".tmp") /\ m <> m +:+ ".tmp".
Proof.
  split; [split_and!|]; intros H; apply (f_equal String.length) in H;
    rewrite length_append in H; cbn in H; lia.
Qed.

Lemma has_sep_app (a b : string) :
  has_sep (a +:+ b) = has_sep a || has_sep b.
Proof.
  induction a as [|c a IH]; [done|]. rewrite append_cons. cbn.
  by rewrite IH, orb_assoc.
Qed.

(** Where a name below a folder prefix resolves. *)
Lemma locate_below (t : node) (P m : string) (init ploc : list string) :
  has_sep m = false -> plain m ->
  (forall m', has_sep m' = false -> split_sep (P +:+ m') = init ++ [m']) ->
  namei t [] init = Some ploc -> is_dir_at t ploc = true ->
  locate t (P +:+ m) = Some (ploc ++ [m]).
Proof.
  intros Hm Hplain Hsplit Hn Hd. unfold locate.
  rewrite bool_decide_false.
  - by rewrite (Hsplit m Hm), namei_plain_last, Hn, Hd.
  - destruct Hplain as [Hne _]. intros H. apply (f_equal String.length) in H.
    rewrite length_append in H. destruct m; [done|]. cbn in H. lia.
Qed.

(** An upload whose stream does not break, into a folder that is there,
    under a name that is free: the file is written under that name, the
    temporary name is free afterwards, every other entry of the folder is
    as it was. *)
Lemma write_upload_in_folder (w : world) (P m dest_path : string)
  (events : list io_event) (init ploc : list string) :
  has_sep m = false -> plain m ->
  (forall m', has_sep m' = false -> split_sep (P +:+ m') = init ++ [m']) ->
  namei (tree w) [] init = Some ploc -> is_dir_at (tree w) ploc = true ->
  get (tree w) (ploc ++ [m]) = None ->
  is_dir_at (tree w) (ploc ++ [m +:+ ".tmp"]) = false ->
  is_locked w (ploc ++ [m +:+ ".tmp"]) = false ->
  stream_ok events = true ->
  exists t',
    write_upload events dest_path (P +:+ m) w = (set_tree w t', Ret dest_path) /\
    same_dirs (tree w) t' /\
    get t' (ploc ++ [m]) = Some (File (payload events)) /\
    get t' (ploc ++ [m +:+ ".tmp"]) = None /\
    forall c, c <> m -> c <> m +:+ ".tmp" ->
              get t' (ploc ++ [c]) = get (tree w) (ploc ++ [c]).
Proof.
  intros Hm Hplain Hsplit Hn Hd Hfree Htd Htl Hok.
  destruct (plain_tmp m) as [Hptmp Hne].
  assert (has_sep (m +:+ ".tmp") = false) as Hmt
    by (by rewrite has_sep_app, Hm).
  assert (locate (tree w) ((P +:+ m) +:+ ".tmp") = Some (ploc ++ [m +:+ ".tmp"]))
    as Et by (rewrite append_assoc; by eapply locate_below).
  assert (locate (tree w) (P +:+ m) = Some (ploc ++ [m])) as El
    by (by eapply locate_below).
  destruct (open_wb_run w _ ploc _ Et Htd Hd) as (t1 & Hopen & Hput1).
  assert (differ_at (ploc ++ [m +:+ ".tmp"]) (tree w) t1) as D1
    by (by eapply put_leaf_differ_at).
  assert (get (tree (set_tree w t1)) (ploc ++ [m +:+ ".tmp"]) = Some (File []))
    as G1 by (by eapply put_eq).
  destruct (copy_stream_run _ events _ _ G1) as (t2 & E2 & D2 & G2 & R).
  destruct (copy_stream (ploc ++ [m +:+ ".tmp"]) events (set_tree w t1))
    as [w2 r] eqn:Ecopy.
  cbn [fst snd] in E2, R. subst w2.
  change (set_tree (set_tree w t1) t2) with (set_tree w t2) in Ecopy.
  destruct r as [[]|e|]; [|destruct R; congruence|done].
  assert (differ_at (ploc ++ [m +:+ ".tmp"]) (tree w) t2) as [D12 F12]
    by (by eapply differ_at_trans).
  assert (~ (ploc ++ [m]) `prefix_of` (ploc ++ [m +:+ ".tmp"])) as N1
    by (by apply sibling_not_prefix).
  assert (~ (ploc ++ [m +:+ ".tmp"]) `prefix_of` (ploc ++ [m])) as N2
    by (by apply sibling_not_prefix).
  destruct (upload_rename_run w t2 ((P +:+ m) +:+ ".tmp") (P +:+ m)
              ploc ploc (m +:+ ".tmp") m (payload events))
    as (t4 & Hrep & D4 & G4 & Gt4 & F4); try done.
  { by rewrite (locate_ext _ _ _ D12). }
  { by rewrite (locate_ext _ _ _ D12). }
  { by rewrite F12. }
  { by rewrite D12. }
  { by rewrite D12. }
  exists t4. split_and!; try done.
  - unfold write_upload. cbv zeta. apply try_except_Ret.
    rewrite (bind_Ret _ _ _ _ _ Hopen), (bind_Ret _ _ _ _ _ Ecopy).
    by rewrite (bind_Ret _ _ _ _ _ Hrep).
  - by eapply same_dirs_trans.
  - intros c Hc1 Hc2.
    rewrite F4, F12; try done; by apply sibling_not_prefix.
Qed.

End UploadsInFolder.

(** ** The upload as a whole *)

Section UploadAtomicity.
Import FS Obs Store.

Variable EXECUTABLE_DIR : string.
Variable secure_filename : string -> string.

Abbreviation upload_target := (Store.upload_target EXECUTABLE_DIR secure_filename).
Abbreviation save_uploaded_file :=
  (Store.save_uploaded_file EXECUTABLE_DIR secure_filename).

(** The name loop returns a path that holds nothing, and changes
    nothing. *)
Lemma free_upload_name_fresh (fuel : nat) (b e user_path : string) (c : nat)
  (fn d f : string) (w w' : world) (r : string * string * string) :
  Store.free_upload_name EXECUTABLE_DIR fuel b e user_path c fn d f w
    = (w', Ret r) ->
  w' = w /\ stat w (snd r) = None.
Proof.
  revert c fn d f. induction fuel as [|fuel IH]; intros c fn d f;
    cbn [Store.free_upload_name]; unfold bind at 1, os_path_exists, ask;
    case_bool_decide as Hex.
  - done.
  - intros [= <- <-]. split; [done|]. cbn.
    destruct (stat w f); [|done]. destruct Hex. eauto.
  - cbv zeta. unfold bind at 1, Store.get_full_path at 1.
    destruct (PathGuard.get_full_path _ _ _ _) as [full'|?|]; [|done..].
    apply IH.
  - intros [= <- <-]. split; [done|]. cbn.
    destruct (stat w f); [|done]. destruct Hex. eauto.
Qed.

(** What [save_uploaded_file] settles on before it writes holds nothing. *)
Lemma upload_target_fresh (fuel : nat) (file : option upload)
  (user_path : string) (relative_path : option string) (w w1 : world)
  (fn dest_path full_path : string) :
  upload_target fuel file user_path relative_path w
    = (w1, Ret (fn, dest_path, full_path)) ->
  stat w1 full_path = None.
Proof.
  unfold Store.upload_target. destruct file as [f|]; [|done].
  case_bool_decide as H1; [done|]. cbv zeta.
  destruct (match relative_path with Some _ => _ | None => _ end) as [nm up].
  cbn [fst snd].
  case_bool_decide as H2; [done|]. case_bool_decide as H3; [done|].
  intros (w2 & full & _ & H)%bind_inv_Ret.
  apply bind_inv_Ret in H as (w3 & pe & _ & H).
  apply bind_inv_Ret in H as (w4 & [] & _ & H).
  destruct (os_path_splitext _) as [b e].
  by apply free_upload_name_fresh in H as [-> H].
Qed.

(** C2 (amended).  Whatever [save_uploaded_file] settles on as the final
    path holds nothing before the transfer starts and at every point of
    it.  If the upload then fails, for whatever reason, [ValueError] is
    raised, the final path holds nothing, and the temporary sibling is gone
    provided its entry can be removed (the removal is attempted once and
    its failure is ignored).  If the upload succeeds the stream did not
    break, the final path holds exactly what the stream delivered, put there
    by the one rename, and the temporary sibling is gone.  An upload that
    fails before the transfer touches neither path. *)
Theorem upload_atomicity (fuel : nat) (file : option upload)
  (user_path : string) (relative_path : option string) (w : world) :
  match upload_target fuel file user_path relative_path w with
  | (w1, Ret (_, dest_path, full_path)) =>
      let events := match file with Some f => stream f | None => [] end in
      let temp_path := full_path +:+ ".tmp" in
      stat w1 full_path = None /\
      (forall k : nat,
         stat (fst ((h <- open_wb temp_path;;
                     copy_stream h (firstn k events)) w1)) full_path = None) /\
      match save_uploaded_file fuel file user_path relative_path w with
      | (w', Ret p) =>
          p = dest_path /\ stream_ok events = true /\
          stat w' full_path = Some (File (payload events)) /\
          stat w' temp_path = None
      | (w', Raise e) =>
          e = ValueError "Cannot save file" /\
          stat w' full_path = None /\
          ((forall tloc, locate (tree w1) temp_path = Some tloc ->
              is_locked w1 tloc = false /\ is_dir_at (tree w1) tloc = false) ->
           stat w' temp_path = None)
      | (_, Timeout) => False
      end
  | (w1, Raise e) =>
      save_uploaded_file fuel file user_path relative_path w = (w1, Raise e)
  | (w1, Timeout) =>
      save_uploaded_file fuel file user_path relative_path w = (w1, Timeout)
  end.
Proof.
  destruct (upload_target fuel file user_path relative_path w)
    as [w1 [[[fn dest_path] full_path]|e|]] eqn:Ht.
  - pose proof (upload_target_fresh _ _ _ _ _ _ _ _ _ Ht) as Hfresh.
    cbv zeta. split; [done|].
    unfold Store.save_uploaded_file. rewrite (bind_Ret _ _ _ _ _ Ht).
    cbn [fst snd]. by apply write_upload_atomicity.
  - unfold Store.save_uploaded_file. by rewrite (bind_Raise _ _ _ _ _ Ht).
  - unfold Store.save_uploaded_file. by rewrite (bind_Timeout _ _ _ _ Ht).
Qed.

End UploadAtomicity.

Lemma upload_atomicity_witness :
  Store.save_uploaded_file Sample.app_dir Sample.keep_name 4
    (Some (Store.Upload "a.txt" Sample.broken_stream)) "Docs" None Sample.docs
    = (Sample.docs, Raise (ValueError "Cannot save file")) /\
  FS.stat Sample.docs "/srv/app/homedrive_storage/Docs/a.txt" = None /\
  FS.stat Sample.docs "/srv/app/homedrive_storage/Docs/a.txt.tmp" = None.
Proof.
  pose proof (upload_atomicity Sample.app_dir Sample.keep_name 4
                (Some (Store.Upload "a.txt" Sample.broken_stream)) "Docs" None
                Sample.docs) as H.
  vm_compute in H. destruct H as (H0 & _ & _ & H1 & H2).
  split; [reflexivity|]. split; [exact H0|]. vm_compute. apply H2.
  intros tloc [= <-]. by split.
Defined.

(** C2 as stated fails: when the entry of the temporary file cannot be
    removed, a failed upload leaves the temporary file behind, with the
    bytes that had arrived; the final path holds nothing. *)
Lemma failed_upload_leaves_temp :
  exists w',
    Store.save_uploaded_file Sample.app_dir Sample.keep_name 4
      (Some (Store.Upload "a.txt" Sample.broken_stream)) "Docs" None
      Sample.docs_protected_temp
      = (w', Raise (ValueError "Cannot save file")) /\
    FS.stat w' "/srv/app/homedrive_storage/Docs/a.txt.tmp"
      = Some (FS.File [x68; x69]) /\
    FS.stat w' "/srv/app/homedrive_storage/Docs/a.txt" = None.
Proof. eexists. split; [vm_compute; reflexivity|]. split; reflexivity. Qed.

(** ** A large pair that is not re-hashed *)

Section NoRehash.
Import FS Obs Dedup.

Variable sha256 : bytes -> string.

(** C5 (failing input).  The scan of the four files of
    [shared_partial_digest_groups_differing_files], step by step.  Step 3
    files the two large files [x] and [y] under the digest of their first
    and last MiB, which is the full digest of the small file [s], so that
    the digest group holds files of two sizes.  Step 4 looks at the first
    member of the group, finds it small and takes the group as it is: the
    large pair, which shares size and partial digest and is above the
    threshold, is never hashed in full, and its grouping key stays the
    partial digest, although a full hash gives [x] and [y] digests of their
    own. *)
Theorem large_pair_not_rehashed (s x y : bytes) :
  x <> y ->
  length x = length y ->
  (LARGE_FILE_THRESHOLD < N.of_nat (length x))%N ->
  firstn (N.to_nat PARTIAL_HASH_SIZE) x
    ++ skipn (length x - N.to_nat PARTIAL_HASH_SIZE) x = s ->
  firstn (N.to_nat PARTIAL_HASH_SIZE) y
    ++ skipn (length y - N.to_nat PARTIAL_HASH_SIZE) y = s ->
  let w := Sample.four_files s x y in
  let group :=
    [FileInfo "s1.bin" (N.of_nat (length s)) "/srv/app/homedrive_storage/s1.bin";
     FileInfo "s2.bin" (N.of_nat (length s)) "/srv/app/homedrive_storage/s2.bin";
     FileInfo "x.bin" (N.of_nat (length x)) "/srv/app/homedrive_storage/x.bin";
     FileInfo "y.bin" (N.of_nat (length x)) "/srv/app/homedrive_storage/y.bin"] in
  (exists size_groups,
     size_grouping Sample.app_dir w = (w, Ret size_groups) /\
     partial_hashing sha256 (files_to_hash size_groups) w
       = (w, Ret [(sha256 s, group)])) /\
  confirm sha256 [(sha256 s, group)] w = (w, Ret [(sha256 s, group)]) /\
  hash_file sha256 "/srv/app/homedrive_storage/x.bin" true w = (w, Ret (sha256 s)) /\
  hash_file sha256 "/srv/app/homedrive_storage/y.bin" true w = (w, Ret (sha256 s)) /\
  hash_file sha256 "/srv/app/homedrive_storage/x.bin" false w = (w, Ret (sha256 x)) /\
  hash_file sha256 "/srv/app/homedrive_storage/y.bin" false w = (w, Ret (sha256 y)).
Proof.
  intros _ Hxy Hbig Hx Hy w group.
  assert (length s = 2 * N.to_nat PARTIAL_HASH_SIZE) as Hs
    by (rewrite <- Hx; by apply head_tail_length).
  assert (N.of_nat (length s) <> N.of_nat (length x)) as Hsx.
  { rewrite Hs. unfold LARGE_FILE_THRESHOLD, PARTIAL_HASH_SIZE in *. lia. }
  assert ((LARGE_FILE_THRESHOLD <? N.of_nat (length s))%N = false) as Hsmall.
  { apply N.ltb_ge. rewrite Hs. unfold LARGE_FILE_THRESHOLD, PARTIAL_HASH_SIZE. lia. }
  assert ((LARGE_FILE_THRESHOLD <? N.of_nat (length y))%N = true) as Hbigy
    by (rewrite <- Hxy; by apply N.ltb_lt).
  apply N.ltb_lt in Hbig.
  split_and!.
  - eexists. split; [by apply size_grouping_four_files|].
    change (files_to_hash _) with
      [ScanEntry "s1.bin" "/srv/app/homedrive_storage/s1.bin";
       ScanEntry "s2.bin" "/srv/app/homedrive_storage/s2.bin";
       ScanEntry "x.bin" "/srv/app/homedrive_storage/x.bin";
       ScanEntry "y.bin" "/srv/app/homedrive_storage/y.bin"].
    apply partial_hashing_four_files; try done. by apply N.ltb_lt.
  - by apply confirm_small_first.
  - rewrite (hash_file_run sha256 w "/srv/app/homedrive_storage/x.bin" true x eq_refl), hashed_bytes_spec.
    by rewrite Hbig, Hx.
  - rewrite (hash_file_run sha256 w "/srv/app/homedrive_storage/y.bin" true y eq_refl), hashed_bytes_spec.
    by rewrite Hbigy, Hy.
  - by rewrite (hash_file_run sha256 w "/srv/app/homedrive_storage/x.bin" false x eq_refl), hashed_bytes_spec.
  - by rewrite (hash_file_run sha256 w "/srv/app/homedrive_storage/y.bin" false y eq_refl), hashed_bytes_spec.
Qed.

End NoRehash.

Lemma digest_inj (a b : FS.bytes) : Sample.digest a = Sample.digest b -> a = b.
Proof.
  revert b. induction a as [|x a IH]; intros [|y b]; cbn; try done.
  intros [= Hxy Hab]. f_equal; [|by apply IH].
  by rewrite <- (byte_of_ascii_of_byte x), Hxy, byte_of_ascii_of_byte.
Qed.

Lemma digest_big_differ :
  Sample.digest (Sample.big x00) <> Sample.digest (Sample.big x01).
Proof. intros H. apply digest_inj in H. exact (big_differ H). Qed.

Lemma large_pair_not_rehashed_witness :
  Sample.digest (Sample.big x00) <> Sample.digest (Sample.big x01) /\
  Dedup.confirm Sample.digest
    [(Sample.digest (Sample.edge ++ Sample.edge),
      [Dedup.FileInfo "s1.bin" (N.of_nat (length (Sample.edge ++ Sample.edge)))
         "/srv/app/homedrive_storage/s1.bin";
       Dedup.FileInfo "s2.bin" (N.of_nat (length (Sample.edge ++ Sample.edge)))
         "/srv/app/homedrive_storage/s2.bin";
       Dedup.FileInfo "x.bin" (N.of_nat (length (Sample.big x00)))
         "/srv/app/homedrive_storage/x.bin";
       Dedup.FileInfo "y.bin" (N.of_nat (length (Sample.big x00)))
         "/srv/app/homedrive_storage/y.bin"])]
    (Sample.four_files (Sample.edge ++ Sample.edge) (Sample.big x00) (Sample.big x01))
  = (Sample.four_files (Sample.edge ++ Sample.edge) (Sample.big x00) (Sample.big x01),
     Ret [(Sample.digest (Sample.edge ++ Sample.edge),
      [Dedup.FileInfo "s1.bin" (N.of_nat (length (Sample.edge ++ Sample.edge)))
         "/srv/app/homedrive_storage/s1.bin";
       Dedup.FileInfo "s2.bin" (N.of_nat (length (Sample.edge ++ Sample.edge)))
         "/srv/app/homedrive_storage/s2.bin";
       Dedup.FileInfo "x.bin" (N.of_nat (length (Sample.big x00)))
         "/srv/app/homedrive_storage/x.bin";
       Dedup.FileInfo "y.bin" (N.of_nat (length (Sample.big x00)))
         "/srv/app/homedrive_storage/y.bin"])]) /\
  Dedup.hash_file Sample.digest "/srv/app/homedrive_storage/x.bin" false
    (Sample.four_files (Sample.edge ++ Sample.edge) (Sample.big x00) (Sample.big x01))
  = (Sample.four_files (Sample.edge ++ Sample.edge) (Sample.big x00) (Sample.big x01),
     Ret (Sample.digest (Sample.big x00))) /\
  Dedup.hash_file Sample.digest "/srv/app/homedrive_storage/y.bin" false
    (Sample.four_files (Sample.edge ++ Sample.edge) (Sample.big x00) (Sample.big x01))
  = (Sample.four_files (Sample.edge ++ Sample.edge) (Sample.big x00) (Sample.big x01),
     Ret (Sample.digest (Sample.big x01))).
Proof.
  split; [exact digest_big_differ|].
  destruct (large_pair_not_rehashed Sample.digest
              (Sample.edge ++ Sample.edge) (Sample.big x00) (Sample.big x01))
    as (_ & Hc & _ & _ & Hfx & Hfy).
  - exact big_differ.
  - by rewrite !length_big.
  - rewrite length_big.
    unfold Dedup.LARGE_FILE_THRESHOLD, Dedup.PARTIAL_HASH_SIZE. lia.
  - apply head_tail_of_framed; apply length_replicate.
  - apply head_tail_of_framed; apply length_replicate.
  - split; [exact Hc|]. split; [exact Hfx|exact Hfy].
Defined.

(** ** A large pair that is re-hashed *)

Section Rehash.
Import FS Obs Dedup.

Variable sha256 : bytes -> string.

(** Two files of one size above 100 MiB with the same first and last MiB,
    on their own.  The scan files both under the digest of those two MiB,
    then hashes both in full, and reports them as one group exactly when
    their full digests agree. *)
Theorem large_pair_is_rehashed (s x y : bytes) :
  length x = length y ->
  (LARGE_FILE_THRESHOLD < N.of_nat (length x))%N ->
  firstn (N.to_nat PARTIAL_HASH_SIZE) x
    ++ skipn (length x - N.to_nat PARTIAL_HASH_SIZE) x = s ->
  firstn (N.to_nat PARTIAL_HASH_SIZE) y
    ++ skipn (length y - N.to_nat PARTIAL_HASH_SIZE) y = s ->
  let w := Sample.two_files x y in
  let X := FileInfo "x.bin" (N.of_nat (length x)) "/srv/app/homedrive_storage/x.bin" in
  let Y := FileInfo "y.bin" (N.of_nat (length x)) "/srv/app/homedrive_storage/y.bin" in
  partial_hashing sha256
    [ScanEntry "x.bin" "/srv/app/homedrive_storage/x.bin";
     ScanEntry "y.bin" "/srv/app/homedrive_storage/y.bin"] w
    = (w, Ret [(sha256 s, [X; Y])]) /\
  duplicate_groups Sample.app_dir sha256 w
    = (w, Ret (if bool_decide (sha256 x = sha256 y)
               then [(sha256 x, [X; Y])] else [])).
Proof.
  intros Hxy Hbig Hx Hy w X Y.
  apply N.ltb_lt in Hbig.
  assert (partial_hashing sha256
            [ScanEntry "x.bin" "/srv/app/homedrive_storage/x.bin";
             ScanEntry "y.bin" "/srv/app/homedrive_storage/y.bin"] w
          = (w, Ret [(sha256 s, [X; Y])])) as Hpartial.
  { unfold partial_hashing. cbn [for_each].
    do 2 (erewrite bind_Ret; [|apply hash_candidate_run; reflexivity]).
    rewrite !hashed_bytes_spec, Hx, Hy, <- Hxy, Hbig. cbn [andb se_path se_full_path].
    rewrite dict_append_nil, !dict_append_hit. reflexivity. }
  split; [exact Hpartial|].
  unfold duplicate_groups.
  assert (size_grouping Sample.app_dir w
          = (w, Ret [(N.of_nat (length x),
                      [ScanEntry "x.bin" "/srv/app/homedrive_storage/x.bin";
                       ScanEntry "y.bin" "/srv/app/homedrive_storage/y.bin"])]))
    as Hsizes.
  { unfold size_grouping.
    rewrite (bind_Ret _ _ _ w
               [("/srv/app/homedrive_storage", [], ["x.bin"; "y.bin"])])
      by reflexivity.
    cbn [for_each]. erewrite bind_Ret; [reflexivity|].
    change (contains _ _ || contains _ _) with false. cbv iota.
    cbn [for_each].
    do 2 (erewrite bind_Ret;
          [|apply or_skip_Ret;
            erewrite bind_Ret by (apply getsize_content; reflexivity);
            reflexivity]).
    rewrite <- Hxy. rewrite dict_append_nil, dict_append_hit. reflexivity. }
  rewrite (bind_Ret _ _ _ _ _ Hsizes).
  change (files_to_hash _) with
    [ScanEntry "x.bin" "/srv/app/homedrive_storage/x.bin";
     ScanEntry "y.bin" "/srv/app/homedrive_storage/y.bin"].
  rewrite (bind_Ret _ _ _ _ _ Hpartial).
  assert (confirm sha256 [(sha256 s, [X; Y])] w
          = (w, Ret (dict_append (sha256 y) Y [(sha256 x, [X])]))) as Hconfirm.
  { unfold confirm. cbn [for_each]. erewrite bind_Ret; [reflexivity|].
    unfold confirm_group. rewrite bool_decide_true by (cbn; lia).
    unfold X at 1. cbn [fi_size]. rewrite Hbig.
    rewrite (rehash_members sha256 w [X; Y] []).
    - reflexivity.
    - repeat constructor; by eexists. }
  rewrite (bind_Ret _ _ _ _ _ Hconfirm).
  case_bool_decide as E.
  - rewrite <- E, dict_append_hit. reflexivity.
  - rewrite dict_append_miss by done. reflexivity.
Qed.

End Rehash.

Lemma large_pair_is_rehashed_witness :
  Dedup.duplicate_groups Sample.app_dir Sample.digest
    (Sample.two_files (Sample.big x00) (Sample.big x01))
  = (Sample.two_files (Sample.big x00) (Sample.big x01), Ret []).
Proof.
  destruct (large_pair_is_rehashed Sample.digest (Sample.edge ++ Sample.edge)
              (Sample.big x00) (Sample.big x01)) as [_ H].
  - by rewrite !length_big.
  - rewrite length_big.
    unfold Dedup.LARGE_FILE_THRESHOLD, Dedup.PARTIAL_HASH_SIZE. lia.
  - apply head_tail_of_framed; apply length_replicate.
  - apply head_tail_of_framed; apply length_replicate.
  - rewrite H. rewrite bool_decide_false by exact digest_big_differ.
    exact eq_refl.
Defined.

Section CounterName.

(** The name with the counter 1: two characters longer, and without a
    separator if the name has none. *)
Lemma counter_name_length (m : string) :
  String.length (fst (os_path_splitext m) +:+ "_" +:+ str_of_nat 1
                 +:+ snd (os_path_splitext m))
  = String.length m + 2.
Proof.
  pose proof (f_equal String.length (os_path_splitext_append m)) as H.
  rewrite length_append in H. rewrite !length_append.
  change (String.length (str_of_nat 1)) with 1.
  change (String.length "_") with 1. lia.
Qed.

Lemma counter_name_sepfree (m : string) :
  has_sep m = false ->
  has_sep (fst (os_path_splitext m) +:+ "_" +:+ str_of_nat 1
           +:+ snd (os_path_splitext m)) = false.
Proof.
  intros Hs. rewrite <- (os_path_splitext_append m), has_sep_app in Hs.
  apply orb_false_iff in Hs as [Hb He]. by rewrite !has_sep_app, Hb, He.
Qed.

End CounterName.

Section NameCollision.
Import FS Obs Store.

Variable EXECUTABLE_DIR : string.
Variable secure_filename : string -> string.

Abbreviation BASE_DIR := (PathGuard.BASE_DIR EXECUTABLE_DIR).
Abbreviation full_path_of := (PathGuard.get_full_path EXECUTABLE_DIR no_links 0).
Abbreviation upload_target := (Store.upload_target EXECUTABLE_DIR secure_filename).
Abbreviation save_uploaded_file :=
  (Store.save_uploaded_file EXECUTABLE_DIR secure_filename).
Abbreviation free_upload_name := (Store.free_upload_name EXECUTABLE_DIR).

Lemma full_path_of_Ret (p full : string) :
  full_path_of p = Ret full -> p <> "" -> full = os_path_join BASE_DIR p.
Proof.
  unfold PathGuard.get_full_path.
  destruct (PathGuard.is_safe_path _ _ _ _) as [[]|e|]; try done.
  intros [= <-] Hp. by rewrite bool_decide_false.
Qed.

Lemma get_full_path_run (p full : string) (w : world) :
  full_path_of p = Ret full ->
  Store.get_full_path EXECUTABLE_DIR p w = (w, Ret full).
Proof. intros H. unfold Store.get_full_path. by rewrite H. Qed.

(** The name loop of an upload: a free name is taken as it is. *)
Lemma free_upload_name_free (fuel : nat) (b e user_path : string) (c : nat)
  (fn d full : string) (w : world) :
  stat w full = None ->
  free_upload_name fuel b e user_path c fn d full w = (w, Ret (fn, d, full)).
Proof.
  intros Hfree.
  assert (os_path_exists full w = (w, Ret false)) as He.
  { unfold os_path_exists, ask. rewrite Hfree.
    by rewrite bool_decide_false by (by intros []). }
  destruct fuel; cbn [Store.free_upload_name]; by rewrite (bind_Ret _ _ _ _ _ He).
Qed.

(** A taken name gets the counter appended to its base, once if that name
    is free. *)
Lemma free_upload_name_taken (fuel : nat) (b e user_path : string) (c : nat)
  (fn d full full2 : string) (w : world) :
  let fn2 := b +:+ "_" +:+ str_of_nat c +:+ e in
  let d2 := if bool_decide (user_path = "") then fn2
            else os_path_join user_path fn2 in
  is_Some (stat w full) ->
  full_path_of d2 = Ret full2 ->
  stat w full2 = None ->
  free_upload_name (S fuel) b e user_path c fn d full w
    = (w, Ret (fn2, d2, full2)).
Proof.
  intros fn2 d2 Htaken Hf2 Hfree.
  assert (os_path_exists full w = (w, Ret true)) as He.
  { unfold os_path_exists, ask. by rewrite bool_decide_true. }
  cbn [Store.free_upload_name]. rewrite (bind_Ret _ _ _ _ _ He).
  cbv zeta. rewrite (bind_Ret _ _ _ _ _ (get_full_path_run _ _ _ Hf2)).
  by apply free_upload_name_free.
Qed.

(** What [save_uploaded_file] does before it writes, for a file without a
    relative path whose folder is there. *)
Lemma upload_target_run (fuel : nat) (fname : string) (events : list io_event)
  (user_path full : string) (w : world) :
  let m := secure_filename fname in
  let d := if bool_decide (user_path = "") then m else os_path_join user_path m in
  fname <> "" -> m <> "" -> String.length m <= MAX_FILENAME_LENGTH ->
  full_path_of d = Ret full ->
  os_path_dirname full = "" \/ is_Some (stat w (os_path_dirname full)) ->
  upload_target fuel (Some (Upload fname events)) user_path None w
  = free_upload_name fuel (fst (os_path_splitext m)) (snd (os_path_splitext m))
      user_path 1 m d full w.
Proof.
  intros m d Hfn Hm Hlen Hf Hparent. unfold Store.upload_target.
  cbn [filename fst snd]. rewrite bool_decide_false by done.
  fold m. rewrite bool_decide_false by done.
  rewrite bool_decide_false by lia. fold d.
  rewrite (bind_Ret _ _ _ _ _ (get_full_path_run _ _ _ Hf)).
  unfold bind at 1. unfold os_path_exists at 1, ask.
  assert (negb (bool_decide (os_path_dirname full = ""))
          && negb (bool_decide (is_Some (stat w (os_path_dirname full)))) = false)
    as ->.
  { destruct Hparent as [->|H]; [done|].
    rewrite (bool_decide_true _ H). apply andb_false_r. }
  unfold bind at 1, ret at 1. by destruct (os_path_splitext m).
Qed.

Lemma dest_nonempty (user_path m : string) :
  m <> "" -> has_sep m = false ->
  (if bool_decide (user_path = "") then m else os_path_join user_path m) <> "".
Proof.
  intros Hm Hs. case_bool_decide as Hu; [done|]. unfold os_path_join.
  rewrite (has_sep_startswith _ Hs).
  destruct user_path; [done|]. by destruct (_ || _).
Qed.

Lemma dir_exists (t : node) (loc : list string) :
  is_dir_at t loc = true -> is_Some (get t loc).
Proof. unfold is_dir_at. by destruct (get t loc). Qed.

(** Two uploads of one name into a folder that is there and holds neither
    that name nor the name with the counter 1: the first lands under the
    name, the second under the name with [_1] before the extension, and
    both files hold what their streams delivered. *)
Lemma uploads_of_one_name (fuel1 fuel2 : nat) (fname : string)
  (ev1 ev2 : list io_event) (user_path full1 full2 : string) (w : world) :
  let m := secure_filename fname in
  let m2 := fst (os_path_splitext m) +:+ "_" +:+ str_of_nat 1
            +:+ snd (os_path_splitext m) in
  let dest n := if bool_decide (user_path = "") then n
                else os_path_join user_path n in
  fname <> "" -> has_sep m = false -> plain m ->
  String.length m <= MAX_FILENAME_LENGTH ->
  full_path_of (dest m) = Ret full1 -> full_path_of (dest m2) = Ret full2 ->
  is_Some (locate (tree w) full1) ->
  stat w full1 = None -> stat w full2 = None ->
  (forall full tloc, full = full1 \/ full = full2 ->
     locate (tree w) (full +:+ ".tmp") = Some tloc ->
     is_locked w tloc = false /\ is_dir_at (tree w) tloc = false) ->
  stream_ok ev1 = true -> stream_ok ev2 = true ->
  exists w1 w2,
    save_uploaded_file fuel1 (Some (Upload fname ev1)) user_path None w
      = (w1, Ret (dest m)) /\
    save_uploaded_file (S fuel2) (Some (Upload fname ev2)) user_path None w1
      = (w2, Ret (dest m2)) /\
    stat w2 full1 = Some (File (payload ev1)) /\
    stat w2 full2 = Some (File (payload ev2)).
Proof.
  intros m m2 dest Hfn Hs Hplain Hlen Hf1 Hf2 Hfolder Hfree1 Hfree2 Htmp Hok1 Hok2.
  assert (m <> "") as Hm by apply Hplain.
  (* the second name *)
  pose proof (counter_name_length m) as Hlen2. fold m2 in Hlen2.
  pose proof (counter_name_sepfree m Hs) as Hs2. fold m2 in Hs2.
  assert (m = secure_filename fname) as Em by done.
  assert (m2 = fst (os_path_splitext m) +:+ "_" +:+ str_of_nat 1
               +:+ snd (os_path_splitext m)) as Em2 by done.
  assert (forall n, dest n = if bool_decide (user_path = "") then n
                             else os_path_join user_path n) as Ed by done.
  clearbody dest m2 m.
  assert (0 < String.length m) as Hpos by (destruct m; [done|cbn; lia]).
  assert (forall x y : string, String.length x <> String.length y -> x <> y)
    as Hdiff by (intros x y H ->; done).
  assert (plain m2) as Hplain2.
  { split_and!; apply Hdiff; rewrite Hlen2; cbn; lia. }
  assert (m2 <> m) as N1 by (apply Hdiff; lia).
  assert (m2 <> m +:+ ".tmp") as N2
    by (apply Hdiff; rewrite length_append; cbn; lia).
  assert (m <> m2 +:+ ".tmp") as N3
    by (apply Hdiff; rewrite length_append; cbn; lia).
  assert (String.length m2 <= MAX_FILENAME_LENGTH \/ True) as _ by auto.
  (* where the two names lie *)
  destruct (upload_path_shape BASE_DIR user_path) as (P & HP & EP).
  destruct (split_sep_below P HP) as (init & Hinit & Hsplit).
  rewrite Ed in Hf1, Hf2.
  apply full_path_of_Ret in Hf1 as E1; [|by apply dest_nonempty].
  apply full_path_of_Ret in Hf2 as E2; [|apply dest_nonempty; [apply Hplain2|done]].
  rewrite EP in E1, E2 by done. subst full1 full2.
  assert (exists ploc, namei (tree w) [] init = Some ploc /\
                       is_dir_at (tree w) ploc = true) as (ploc & Hn & Hd).
  { destruct Hfolder as [loc Hloc]. unfold locate in Hloc.
    destruct (bool_decide (P +:+ m = "")); [done|].
    rewrite (Hsplit m Hs), namei_plain_last in Hloc by done.
    destruct (namei (tree w) [] init) as [ploc|]; [|done].
    destruct (is_dir_at (tree w) ploc) eqn:E; [eauto|done]. }
  assert (forall t n, same_dirs (tree w) t -> has_sep n = false -> plain n ->
            locate t (P +:+ n) = Some (ploc ++ [n])) as Hloc.
  { intros t n D Hn1 Hn2. eapply locate_below; try done.
    - by rewrite (namei_ext _ _ _ _ D).
    - by rewrite D. }
  assert (forall t n, same_dirs (tree w) t ->
            os_path_dirname (P +:+ n) = "" \/
            is_Some (stat (set_tree w t) (os_path_dirname (P +:+ n))) \/ has_sep n = true)
    as Hparent.
  { intros t n D. destruct (has_sep n) eqn:Hn1; [by auto|].
    destruct (locate_dirname t P n init ploc HP Hn1 Hinit) as [?|Hl];
      [by rewrite (namei_ext _ _ _ _ D)|by rewrite D|by auto|].
    right. left. rewrite stat_set_tree, Hl. apply dir_exists. by rewrite D. }
  assert (forall n, has_sep n = false -> plain n ->
            stat w (P +:+ n) = None -> get (tree w) (ploc ++ [n]) = None) as Hget.
  { intros n Hn1 Hn2. unfold stat.
    by rewrite (Hloc (tree w) n (same_dirs_refl _) Hn1 Hn2). }
  pose proof (Hget m Hs Hplain Hfree1) as G1.
  pose proof (Hget m2 Hs2 Hplain2 Hfree2) as G2.
  assert (forall n, has_sep n = false -> plain n ->
            P +:+ n = P +:+ m \/ P +:+ n = P +:+ m2 ->
            is_locked w (ploc ++ [n +:+ ".tmp"]) = false /\
            is_dir_at (tree w) (ploc ++ [n +:+ ".tmp"]) = false) as Htemp.
  { intros n Hn1 Hn2 Hn3. apply (Htmp (P +:+ n)); [done|].
    rewrite append_assoc. apply Hloc; [done| |apply plain_tmp].
    by rewrite has_sep_app, Hn1. }
  destruct (Htemp m Hs Hplain (or_introl eq_refl)) as [L1 T1].
  destruct (Htemp m2 Hs2 Hplain2 (or_intror eq_refl)) as [L2 T2].
  (* the first upload *)
  destruct (write_upload_in_folder w P m (dest m) ev1 init ploc)
    as (t1 & Hw1 & Dirs1 & Gm1 & Gt1 & F1); try done.
  assert (upload_target fuel1 (Some (Upload fname ev1)) user_path None w
          = (w, Ret (m, dest m, P +:+ m))) as Ht1.
  { pose proof (upload_target_run fuel1 fname ev1 user_path (P +:+ m) w) as H.
    cbv zeta in H. rewrite <- Em in H. rewrite H; try done.
    - rewrite Ed. by apply free_upload_name_free.
    - destruct (Hparent (tree w) m (same_dirs_refl _)) as [?|[?|?]];
        [by left|right|congruence]. by rewrite set_tree_tree in *. }
  (* the second upload *)
  destruct (write_upload_in_folder (set_tree w t1) P m2 (dest m2) ev2 init ploc)
    as (t2 & Hw2 & Dirs2 & Gm2 & Gt2 & F2); try done.
  { cbn [tree set_tree]. by rewrite (namei_ext _ _ _ _ Dirs1). }
  { cbn [tree set_tree]. by rewrite Dirs1. }
  { cbn [tree set_tree]. rewrite F1; [done|done|]. apply N2. }
  { cbn [tree set_tree]. by rewrite Dirs1. }
  cbn [tree set_tree] in Dirs2, F2.
  change (set_tree (set_tree w t1) t2) with (set_tree w t2) in Hw2.
  assert (upload_target (S fuel2) (Some (Upload fname ev2)) user_path None
            (set_tree w t1)
          = (set_tree w t1, Ret (m2, dest m2, P +:+ m2))) as Ht2.
  { pose proof (upload_target_run (S fuel2) fname ev2 user_path (P +:+ m)
                  (set_tree w t1)) as H.
    cbv zeta in H. rewrite <- Em in H. rewrite H; try done.
    - pose proof (free_upload_name_taken fuel2
                    (fst (os_path_splitext m)) (snd (os_path_splitext m))
                    user_path 1 m
                    (if bool_decide (user_path = "") then m
                     else os_path_join user_path m)
                    (P +:+ m) (P +:+ m2) (set_tree w t1)) as Hl.
      cbv zeta in Hl. rewrite <- Em2 in Hl. rewrite Hl; [by rewrite Ed| | |].
      + rewrite stat_set_tree, (Hloc t1 m Dirs1 Hs Hplain), Gm1. eauto.
      + done.
      + rewrite stat_set_tree, (Hloc t1 m2 Dirs1 Hs2 Hplain2).
        rewrite F1; [done|done|apply N2].
    - destruct (Hparent t1 m Dirs1) as [?|[?|?]]; [by left|by right|congruence]. }
  exists (set_tree w t1), (set_tree w t2).
  assert (same_dirs (tree w) t2) as Dirs12 by (by eapply same_dirs_trans).
  split_and!.
  - unfold Store.save_uploaded_file. by rewrite (bind_Ret _ _ _ _ _ Ht1).
  - unfold Store.save_uploaded_file. by rewrite (bind_Ret _ _ _ _ _ Ht2).
  - rewrite stat_set_tree, (Hloc t2 m Dirs12 Hs Hplain).
    rewrite F2; [done|by apply not_eq_sym|apply N3].
  - by rewrite stat_set_tree, (Hloc t2 m2 Dirs12 Hs2 Hplain2).
Qed.

End NameCollision.

Section Collisions.
Import FS Obs Store.

Variable EXECUTABLE_DIR : string.
Variable secure_filename : string -> string.

Abbreviation create_folder := (Store.create_folder EXECUTABLE_DIR secure_filename).
Abbreviation save_uploaded_file :=
  (Store.save_uploaded_file EXECUTABLE_DIR secure_filename).
Abbreviation full_path_of := (PathGuard.get_full_path EXECUTABLE_DIR no_links 0).

(** A folder that was just created is refused the second time, and nothing
    is created. *)
Lemma second_create_folder_refused (user_path folder_name : string)
  (w w1 : world) (p : string) :
  create_folder user_path folder_name w = (w1, Ret p) ->
  create_folder user_path folder_name w1
    = (w1, Raise (ValueError "Folder already exists")).
Proof.
  intros H. destruct (create_folder_inv _ _ _ _ _ _ _ H)
    as (full & Hn & Hlen & -> & Hf & _ & Hmk).
  destruct (os_makedirs_exists _ _ _ _ Hmk) as [Hex _].
  unfold Store.create_folder. cbv zeta.
  rewrite bool_decide_false by done. rewrite bool_decide_false by lia.
  erewrite bind_Ret by (unfold Store.get_full_path; by rewrite Hf).
  unfold bind, os_path_exists, ask. by rewrite bool_decide_true.
Qed.

(** C8.  A folder that [create_folder] has just created is refused when
    the same call is made again: [ValueError("Folder already exists")], and
    the machine is as the first call left it.  And two uploads in a row of
    files with one name into a folder that is there and holds neither that
    name nor the name with the counter 1 (nor their temporary names as
    folders or protected entries), with streams that do not break: the
    first file lands under the name, the second under the name with [_1]
    before the extension, and both are on disk with what their streams
    delivered. *)
Theorem collision_handling (parent folder_name : string) (w w1 : world)
  (p : string)
  (fuel1 fuel2 : nat) (fname : string) (ev1 ev2 : list io_event)
  (user_path full1 full2 : string) (u : world) :
  let m := secure_filename fname in
  let m2 := fst (os_path_splitext m) +:+ "_" +:+ str_of_nat 1
            +:+ snd (os_path_splitext m) in
  let dest n := if bool_decide (user_path = "") then n
                else os_path_join user_path n in
  create_folder parent folder_name w = (w1, Ret p) ->
  fname <> "" -> has_sep m = false -> plain m ->
  String.length m <= MAX_FILENAME_LENGTH ->
  full_path_of (dest m) = Ret full1 -> full_path_of (dest m2) = Ret full2 ->
  is_Some (locate (tree u) full1) ->
  stat u full1 = None -> stat u full2 = None ->
  (forall full tloc, full = full1 \/ full = full2 ->
     locate (tree u) (full +:+ ".tmp") = Some tloc ->
     is_locked u tloc = false /\ is_dir_at (tree u) tloc = false) ->
  stream_ok ev1 = true -> stream_ok ev2 = true ->
  create_folder parent folder_name w1
    = (w1, Raise (ValueError "Folder already exists")) /\
  exists u1 u2,
    save_uploaded_file fuel1 (Some (Upload fname ev1)) user_path None u
      = (u1, Ret (dest m)) /\
    save_uploaded_file (S fuel2) (Some (Upload fname ev2)) user_path None u1
      = (u2, Ret (dest m2)) /\
    stat u2 full1 = Some (File (payload ev1)) /\
    stat u2 full2 = Some (File (payload ev2)).
Proof.
  intros m m2 dest Hcreate. intros. split.
  - by eapply second_create_folder_refused.
  - by apply uploads_of_one_name.
Qed.

End Collisions.

Lemma collision_handling_witness :
  Store.create_folder Sample.app_dir Sample.keep_name "" "Photos"
    (fst (Store.create_folder Sample.app_dir Sample.keep_name "" "Photos"
            Sample.docs))
  = (fst (Store.create_folder Sample.app_dir Sample.keep_name "" "Photos"
            Sample.docs),
     Raise (ValueError "Folder already exists")) /\
  exists u1 u2,
    Store.save_uploaded_file Sample.app_dir Sample.keep_name 0
      (Some (Store.Upload "a.txt" [Store.Data [x68]])) "Docs" None Sample.docs
      = (u1, Ret "Docs/a.txt") /\
    Store.save_uploaded_file Sample.app_dir Sample.keep_name 1
      (Some (Store.Upload "a.txt" [Store.Data [x69]])) "Docs" None u1
      = (u2, Ret "Docs/a_1.txt") /\
    FS.stat u2 "/srv/app/homedrive_storage/Docs/a.txt" = Some (FS.File [x68]) /\
    FS.stat u2 "/srv/app/homedrive_storage/Docs/a_1.txt" = Some (FS.File [x69]).
Proof.
  apply (collision_handling Sample.app_dir Sample.keep_name "" "Photos"
           Sample.docs _ "Photos" 0 0 "a.txt"
           [Store.Data [x68]] [Store.Data [x69]] "Docs"
           "/srv/app/homedrive_storage/Docs/a.txt"
           "/srv/app/homedrive_storage/Docs/a_1.txt" Sample.docs).
  - reflexivity.
  - done.
  - reflexivity.
  - by split_and!.
  - vm_compute. lia.
  - reflexivity.
  - reflexivity.
  - eexists. reflexivity.
  - reflexivity.
  - reflexivity.
  - intros full tloc [->| ->] H; vm_compute in H; injection H as <-;
      split; reflexivity.
  - reflexivity.
  - reflexivity.
Defined.

(** ** The scan only reads *)

(** Steps 1 to 4 of [find_duplicates] (sizes, partial hashes, full hashes,
    the filter) leave the machine exactly as they found it, whatever they
    return. *)
Theorem duplicate_scan_reads_only (EXECUTABLE_DIR : string)
  (sha256 : FS.bytes -> string) (w : FS.world) :
  fst (Dedup.duplicate_groups EXECUTABLE_DIR sha256 w) = w.
Proof. apply readonly_duplicate_groups. Qed.

(** ** The trash folder and its entries *)

Section TrashPaths.
Import FS Obs Trash.

Variable EXECUTABLE_DIR : string.

Abbreviation TRASH_DIR := (Trash.TRASH_DIR EXECUTABLE_DIR).

Lemma endswith_sep_app (a b : string) :
  b <> "" -> endswith_sep (a +:+ b) = endswith_sep b.
Proof.
  intros Hb. induction a as [|c a IH]; [done|].
  rewrite append_cons. cbn. rewrite IH.
  destruct (a +:+ b) eqn:E; [|done]. by destruct a, b.
Qed.

Lemma trash_dir_suffix : exists X, TRASH_DIR = X +:+ ".trash".
Proof.
  unfold Trash.TRASH_DIR, os_path_join. cbn [startswith String.prefix].
  destruct (_ || _); [by eexists|].
  exists (BASE_DIR EXECUTABLE_DIR +:+ "/"). by rewrite append_assoc.
Qed.

Lemma trash_dir_nonempty : TRASH_DIR <> "".
Proof.
  destruct trash_dir_suffix as [X ->]. intros H.
  apply (f_equal String.length) in H. rewrite length_append in H. cbn in H. lia.
Qed.

(** An entry of the trash folder: [os.path.join(TRASH_DIR, name)]. *)
Lemma trash_dir_join (c : string) :
  has_sep c = false -> os_path_join TRASH_DIR c = TRASH_DIR +:+ "/" +:+ c.
Proof.
  intros Hc. unfold os_path_join. rewrite (has_sep_startswith _ Hc).
  rewrite bool_decide_false by apply trash_dir_nonempty.
  destruct trash_dir_suffix as [X ->].
  by rewrite endswith_sep_app.
Qed.

Lemma locate_trash_dir (t : node) :
  locate t TRASH_DIR = namei t [] (split_sep TRASH_DIR).
Proof. unfold locate. by rewrite bool_decide_false by apply trash_dir_nonempty. Qed.

Lemma locate_trash_entry (t : node) (c : string) :
  component c ->
  locate t (os_path_join TRASH_DIR c) =
    match locate t TRASH_DIR with
    | Some dir => if is_dir_at t dir then Some (dir ++ [c]) else None
    | None => None
    end.
Proof.
  intros [Hc Hp]. rewrite trash_dir_join, locate_trash_dir by done.
  unfold locate. rewrite bool_decide_false.
  - rewrite split_sep_join, (split_sep_no_sep _ Hc). by apply namei_plain_last.
  - intros H. apply trash_dir_nonempty.
    by destruct (Trash.TRASH_DIR EXECUTABLE_DIR).
Qed.

Lemma split_sep_os_path_join (a b x : string) :
  has_sep b = false -> x ∈ split_sep (os_path_join a b) ->
  x ∈ split_sep a \/ x = b.
Proof.
  intros Hb. unfold os_path_join. rewrite (has_sep_startswith _ Hb).
  case_bool_decide as Ha; cbn [orb].
  - subst a. rewrite append_nil_l, (split_sep_no_sep _ Hb).
    intros ->%list_elem_of_singleton. by right.
  - destruct (endswith_sep a) eqn:Ea.
    + apply endswith_sep_inv in Ea as [q ->]. rewrite append_assoc.
      rewrite split_sep_join, (split_sep_no_sep _ Hb).
      replace (q +:+ "/") with (q +:+ "/" +:+ "") by (by rewrite append_nil_r).
      rewrite split_sep_join. cbn. rewrite !elem_of_app, !list_elem_of_singleton.
      tauto.
    + rewrite split_sep_join, (split_sep_no_sep _ Hb).
      rewrite elem_of_app, list_elem_of_singleton. tauto.
Qed.

Lemma trash_dir_no_dotdot :
  PathGuard.has_dotdot_segment EXECUTABLE_DIR = false ->
  ".." ∉ split_sep TRASH_DIR.
Proof.
  unfold PathGuard.has_dotdot_segment. intros H%bool_decide_eq_false.
  intros [[H1|H1]%split_sep_os_path_join|H1]%split_sep_os_path_join; done.
Qed.

(** Path resolution without [..] only descends, and looks at nothing but
    the folders on its way. *)
Lemma namei_descends (t : node) (cur rest loc : list string) :
  ".." ∉ rest -> namei t cur rest = Some loc -> cur `prefix_of` loc.
Proof.
  revert cur. induction rest as [|c rest IH]; intros cur Hdd; cbn.
  - by intros [= ->].
  - apply not_elem_of_cons in Hdd as [Hc Hdd].
    destruct (is_dir_at t cur); [|done].
    destruct (_ || _); [by apply IH|].
    rewrite bool_decide_false by done. intros H%IH; [|done].
    etrans; [|done]. by apply prefix_app_r.
Qed.

Lemma namei_stable (t t' : node) (cur rest loc : list string) :
  ".." ∉ rest -> namei t cur rest = Some loc ->
  (forall l, l `prefix_of` loc -> is_dir_at t' l = is_dir_at t l) ->
  namei t' cur rest = Some loc.
Proof.
  revert cur. induction rest as [|c rest IH]; intros cur Hdd Hn Hsame; [done|].
  pose proof (namei_descends _ _ _ _ Hdd Hn) as Hpre.
  apply not_elem_of_cons in Hdd as [Hc Hdd].
  cbn in *. rewrite (Hsame _ Hpre).
  destruct (is_dir_at t cur); [|done].
  destruct (_ || _); [by apply IH|].
  rewrite bool_decide_false in * by done. by apply IH.
Qed.

End TrashPaths.

(** ** Expiry cleanup *)

Section Removal.
Import FS Obs Trash.

(** What the removal of an entry of a folder does. *)
Lemma remove_trash_object_run (w : world) (p : string) (dir : list string)
  (c : string) :
  locate (tree w) p = Some (dir ++ [c]) -> is_dir_at (tree w) dir = true ->
  exists t',
    put (tree w) (dir ++ [c]) None = Some t' /\
    remove_trash_object p w =
      if blocked w (dir ++ [c])
      then (w, Raise (PermissionError "Operation not permitted"))
      else if bool_decide (is_Some (get (tree w) (dir ++ [c])))
           then (set_tree w t', Ret tt)
           else (w, Ret tt).
Proof.
  intros Hl Hd. destruct (put_in_dir (tree w) dir c None Hd) as [t' Ht'].
  exists t'. split; [done|].
  unfold remove_trash_object, blocked, bind, os_path_exists, os_path_isdir, ask, stat.
  rewrite Hl. destruct (get (tree w) (dir ++ [c])) as [[d|es]|] eqn:Eg.
  - rewrite bool_decide_true by eauto.
    unfold os_remove, update. do 3 (cbv beta iota; rewrite ?Hl, ?Eg).
    destruct (is_locked w (dir ++ [c])); [done|]. by rewrite Ht'.
  - rewrite bool_decide_true by eauto.
    unfold shutil_rmtree, update. do 3 (cbv beta iota; rewrite ?Hl, ?Eg).
    destruct (locked_below w (dir ++ [c])); [done|].
    clear Hl Hd Eg. destruct dir; cbn [app] in Ht' |- *; by rewrite Ht'.
  - by rewrite bool_decide_false by (by intros []).
Qed.

Lemma shrunk_refl (dir : list string) (w : world) : shrunk dir w w.
Proof. split_and!; [done|done|]. by left. Qed.

Lemma shrunk_blocked (dir : list string) (w w' : world) (c : string) :
  shrunk dir w w' -> blocked w' (dir ++ [c]) = blocked w (dir ++ [c]).
Proof.
  intros (Hlk & _ & Hc). unfold blocked, is_locked, locked_below. rewrite Hlk.
  destruct (Hc c) as [->|[-> Hb]]; [done|].
  unfold blocked, is_locked, locked_below in Hb. by rewrite Hb.
Qed.

Lemma shrunk_is_dir (dir : list string) (w w' : world) :
  shrunk dir w w' -> is_dir_at (tree w') dir = is_dir_at (tree w) dir.
Proof. intros (_ & Hd & _). by apply Hd. Qed.

(** Removing an entry that can be removed. *)
Lemma shrunk_remove (dir : list string) (w0 w : world) (c : string) (t' : node) :
  shrunk dir w0 w -> blocked w0 (dir ++ [c]) = false ->
  put (tree w) (dir ++ [c]) None = Some t' ->
  shrunk dir w0 (set_tree w t').
Proof.
  intros (Hlk & Hd & Hc) Hb Hput. split_and!; [done| |].
  - intros l Hl. rewrite <- (Hd l Hl). cbn [tree set_tree].
    destruct (put_above _ _ _ _ l Hput) as [-> ->]; [| |done].
    + etrans; [done|]. by apply prefix_app_r.
    + intros ->. by apply prefix_snoc_not in Hl.
  - intros c'. cbn [tree set_tree]. destruct (decide (c' = c)) as [->|Hne].
    + right. split; [|done]. by eapply put_eq.
    + rewrite (put_ne _ _ _ _ _ Hput) by (by apply sibling_not_prefix). apply Hc.
Qed.

End Removal.

Section CleanupLoop.
Import FS Obs Trash.

Variable EXECUTABLE_DIR : string.
Hypothesis no_dotdot : PathGuard.has_dotdot_segment EXECUTABLE_DIR = false.

Abbreviation TRASH_DIR := (Trash.TRASH_DIR EXECUTABLE_DIR).
Abbreviation cleanup_items := (Trash.cleanup_items EXECUTABLE_DIR).

(** The trash folder, at the start of the loop. *)
Variable dir : list string.
Variable w0 : world.
Hypothesis trash_at : locate (tree w0) TRASH_DIR = Some dir.
Hypothesis trash_is_dir : is_dir_at (tree w0) dir = true.

Lemma shrunk_locate (w : world) :
  shrunk dir w0 w ->
  locate (tree w) TRASH_DIR = Some dir /\ is_dir_at (tree w) dir = true.
Proof.
  intros Hs. split; [|by rewrite (shrunk_is_dir _ _ _ Hs)].
  rewrite locate_trash_dir in *. destruct Hs as (_ & Hd & _).
  eapply namei_stable; [by apply trash_dir_no_dotdot|done|done].
Qed.

Lemma locate_shrunk_entry (w : world) (c : string) :
  shrunk dir w0 w -> component c ->
  locate (tree w) (os_path_join TRASH_DIR c) = Some (dir ++ [c]).
Proof.
  intros Hs Hc. destruct (shrunk_locate w Hs) as [Hl Hd].
  by rewrite locate_trash_entry, Hl, Hd.
Qed.

Lemma removal_fails_blocked (w : world) (item : trash_item) :
  shrunk dir w0 w -> component (trash_name item) ->
  removal_fails EXECUTABLE_DIR w item = blocked w0 (dir ++ [trash_name item]).
Proof.
  intros Hs Hc. unfold removal_fails.
  destruct (remove_trash_object_run w _ dir _ (locate_shrunk_entry w _ Hs Hc))
    as (t' & _ & ->); [by apply shrunk_locate|].
  rewrite (shrunk_blocked _ _ _ _ Hs).
  destruct (blocked w0 _); [done|]. by destruct (bool_decide _).
Qed.

(** The loop of [cleanup_old_trash]: an entry is kept when it has not
    expired or when its object cannot be removed; whether it can is decided
    by the machine at the start of the loop. *)
Lemma cleanup_items_run (now : Z) (items : manifest) :
  forall (w : world) (keep : manifest) (n : nat) (errs : list string),
  shrunk dir w0 w ->
  Forall (fun item => component (trash_name item)) items ->
  exists w',
    cleanup_items now items (keep, n, errs) w =
      (w', Ret (keep ++ List.filter
                          (fun item => negb (expired now item)
                                       || blocked w0 (dir ++ [trash_name item]))
                          items,
                n + length (List.filter
                              (fun item => expired now item
                                           && negb (blocked w0 (dir ++ [trash_name item])))
                              items),
                errs ++ map (fun item => trash_name item +:+ ": Operation not permitted")
                          (List.filter
                             (fun item => expired now item
                                          && blocked w0 (dir ++ [trash_name item]))
                             items))) /\
    shrunk dir w0 w' /\
    (Forall (fun item => negb (expired now item)
                         || blocked w0 (dir ++ [trash_name item]) = true) items ->
     w' = w).
Proof.
  induction items as [|item items IH]; intros w keep n errs Hs Hnames.
  { exists w. cbn. by rewrite !app_nil_r, Nat.add_0_r. }
  apply Forall_cons in Hnames as [Hc Hnames].
  cbn [Trash.cleanup_items List.filter].
  destruct (expired now item) eqn:Ex; cbn [negb orb andb].
  - destruct (remove_trash_object_run w _ dir _ (locate_shrunk_entry w _ Hs Hc))
      as (t' & Hput & Hrun); [by apply shrunk_locate|].
    rewrite (shrunk_blocked _ _ _ _ Hs) in Hrun.
    destruct (blocked w0 (dir ++ [trash_name item])) eqn:Eb.
    + rewrite (bind_Ret _ _ w w
                 (keep ++ [item], n,
                  errs ++ [trash_name item +:+ ": Operation not permitted"]));
        cycle 1.
      { unfold cleanup_item. rewrite Ex. unfold try_except, bind.
        rewrite Hrun. reflexivity. }
      destruct (IH w (keep ++ [item]) n
                  (errs ++ [trash_name item +:+ ": Operation not permitted"])
                  Hs Hnames) as (w' & E' & S' & I').
      exists w'. split_and!; [|done|].
      * cbv beta. refine (eq_trans E' _). cbn [map length negb]. by rewrite <- !app_assoc.
      * intros [_ H]%Forall_cons. by apply I'.
    + destruct (bool_decide (is_Some (get (tree w) (dir ++ [trash_name item])))).
      * rewrite (bind_Ret _ _ w (set_tree w t') (keep, S n, errs)); cycle 1.
        { unfold cleanup_item. rewrite Ex. unfold try_except, bind.
          rewrite Hrun. reflexivity. }
        destruct (IH (set_tree w t') keep (S n) errs) as (w' & E' & S' & I');
          [by eapply shrunk_remove|done|].
        exists w'. split_and!; [|done|intros [H _]%Forall_cons; by rewrite ?Ex, ?Eb in H].
        cbv beta. refine (eq_trans E' _). cbn [length negb]. by rewrite Nat.add_succ_r.
      * rewrite (bind_Ret _ _ w w (keep, S n, errs)); cycle 1.
        { unfold cleanup_item. rewrite Ex. unfold try_except, bind.
          rewrite Hrun. reflexivity. }
        destruct (IH w keep (S n) errs Hs Hnames) as (w' & E' & S' & I').
        exists w'. split_and!; [|done|intros [H _]%Forall_cons; by rewrite ?Ex, ?Eb in H].
        cbv beta. refine (eq_trans E' _). cbn [length negb]. by rewrite Nat.add_succ_r.
  - rewrite (bind_Ret _ _ w w (keep ++ [item], n, errs)); cycle 1.
    { unfold cleanup_item. rewrite Ex. reflexivity. }
    destruct (IH w (keep ++ [item]) n errs Hs Hnames) as (w' & E' & S' & I').
    exists w'. split_and!; [|done|].
    + cbv beta. refine (eq_trans E' _). by rewrite <- !app_assoc.
    + intros [_ H]%Forall_cons. by apply I'.
Qed.

End CleanupLoop.

Section ManifestWrite.
Import FS Obs Trash.

(** Renaming a file onto a name of the same folder. *)
Lemma rename_beside_run (w : world) (t2 : node) (src dst : string)
  (dir : list string) (a b : string) (d : bytes) :
  locate t2 src = Some (dir ++ [a]) -> locate t2 dst = Some (dir ++ [b]) ->
  a <> b ->
  get t2 (dir ++ [a]) = Some (File d) -> is_dir_at t2 dir = true ->
  if negb (is_locked w (dir ++ [a]))
     && match get t2 (dir ++ [b]) with
        | Some (Dir _) => false
        | Some (File _) => negb (is_locked w (dir ++ [b]))
        | None => true
        end
  then exists t4,
         os_replace src dst (set_tree w t2) = (set_tree w t4, Ret tt) /\
         same_dirs t2 t4 /\
         get t4 (dir ++ [b]) = Some (File d) /\ get t4 (dir ++ [a]) = None /\
         forall l : list string,
           ~ l `prefix_of` (dir ++ [a]) -> ~ (dir ++ [a]) `prefix_of` l ->
           ~ l `prefix_of` (dir ++ [b]) -> ~ (dir ++ [b]) `prefix_of` l ->
           get t4 l = get t2 l
  else exists e, os_replace src dst (set_tree w t2) = (set_tree w t2, Raise e).
Proof.
  intros Hs Hd Hab Hg Hdir.
  assert (~ (dir ++ [a]) `prefix_of` (dir ++ [b])) as N1
    by (by apply sibling_not_prefix).
  assert (~ (dir ++ [b]) `prefix_of` (dir ++ [a])) as N2
    by (by apply sibling_not_prefix).
  assert (os_replace src dst (set_tree w t2) =
          match (if is_locked w (dir ++ [a])
                 then Raise (PermissionError "Operation not permitted")
                 else match get t2 (dir ++ [b]) with
                      | Some (Dir _) => Raise (OSError "Is a directory")
                      | old =>
                          if bool_decide (is_Some old) && is_locked w (dir ++ [b])
                          then Raise (PermissionError "Operation not permitted")
                          else match put t2 (dir ++ [a]) None with
                               | Some t1 =>
                                   match put t1 (dir ++ [b]) (Some (File d)) with
                                   | Some t2 => Ret t2
                                   | None => Raise (OSError "No such file or directory")
                                   end
                               | None => Raise (OSError "No such file or directory")
                               end
                      end) with
          | Ret t => (set_tree w t, Ret tt)
          | Raise e => (set_tree w t2, Raise e)
          | Timeout => (set_tree w t2, Timeout)
          end) as ->.
  { unfold os_replace, update. cbn [tree set_tree]. rewrite Hs, Hd, Hg.
    rewrite bool_decide_false by (intros E; apply N1; by rewrite E).
    rewrite !bool_decide_false by done. cbn [orb].
    change (is_locked (set_tree w t2)) with (is_locked w).
    destruct (is_locked w (dir ++ [a])); [done|].
    by destruct (get t2 (dir ++ [b])) as [[]|]. }
  destruct (is_locked w (dir ++ [a])); cbn [negb andb]; [by eauto|].
  destruct (put_in_dir t2 dir a None Hdir) as [t3 Ht3].
  assert (same_dirs t2 t3) as D3.
  { eapply put_leaf_same_dirs; [done| |done]. unfold is_dir_at. by rewrite Hg. }
  assert (get t3 (dir ++ [b]) = get t2 (dir ++ [b])) as Hb3
    by (by rewrite (put_ne _ _ _ _ _ Ht3)).
  destruct (put_in_dir t3 dir b (Some (File d))) as [t4 Ht4]; [by rewrite D3|].
  rewrite Ht3, Ht4.
  assert (is_dir_at t2 (dir ++ [b]) = false ->
          same_dirs t2 t4 /\
          get t4 (dir ++ [b]) = Some (File d) /\ get t4 (dir ++ [a]) = None /\
          forall l : list string,
            ~ l `prefix_of` (dir ++ [a]) -> ~ (dir ++ [a]) `prefix_of` l ->
            ~ l `prefix_of` (dir ++ [b]) -> ~ (dir ++ [b]) `prefix_of` l ->
            get t4 l = get t2 l)
    as Hfacts.
  { intros Hnd. split_and!.
    - eapply same_dirs_trans; [done|].
      eapply put_leaf_same_dirs; [done| |done]. by rewrite D3.
    - by eapply put_eq.
    - rewrite (put_ne _ _ _ _ _ Ht4) by done. by eapply put_eq.
    - intros l A1 A2 B1 B2.
      by rewrite (put_ne _ _ _ _ _ Ht4), (put_ne _ _ _ _ _ Ht3). }
  unfold is_dir_at in Hfacts.
  destruct (get t2 (dir ++ [b])) as [[d'|es]|]; [|by eauto|].
  - rewrite bool_decide_true by eauto. cbn [andb].
    destruct (is_locked w (dir ++ [b])); cbn [negb]; [by eauto|].
    exists t4. split; [done|]. by apply Hfacts.
  - rewrite bool_decide_false by (by intros []). cbn [andb].
    exists t4. split; [done|]. by apply Hfacts.
Qed.

(** The handler of [save_trash_manifest] ends in [raise]. *)
Lemma save_handler_raises (temp : string) (e : exn) (w : world) :
  exists w' e',
    (ex <- os_path_exists temp;;
     _ <- (if ex then os_remove temp else ret tt);;
     @raise unit e) w = (w', Raise e').
Proof.
  unfold bind, os_path_exists, ask.
  destruct (bool_decide _); [|by eauto].
  unfold os_remove, update.
  destruct (locate (tree w) temp) as [loc|]; [|by eauto].
  destruct (get (tree w) loc) as [[d|es]|]; [|by eauto..].
  destruct (is_locked w loc); [by eauto|].
  destruct (put (tree w) loc None); by eauto.
Qed.

Variable EXECUTABLE_DIR : string.
Variable json_dump : manifest -> bytes.

Abbreviation TRASH_DIR := (Trash.TRASH_DIR EXECUTABLE_DIR).
Abbreviation TRASH_MANIFEST := (Trash.TRASH_MANIFEST EXECUTABLE_DIR).
Abbreviation save_trash_manifest :=
  (Trash.save_trash_manifest EXECUTABLE_DIR json_dump).

Lemma component_manifest :
  component ".trash_manifest.json" /\ component ".trash_manifest.json.tmp".
Proof. by split_and!. Qed.

Lemma trash_manifest_temp :
  TRASH_MANIFEST +:+ ".tmp" = os_path_join TRASH_DIR ".trash_manifest.json.tmp".
Proof.
  unfold Trash.TRASH_MANIFEST. rewrite !trash_dir_join by done.
  by rewrite !append_assoc.
Qed.

(** [save_trash_manifest] in a trash folder that is there: it succeeds
    unless the temporary name is a folder or a protected entry, or the
    manifest name is a folder or a protected file. *)
Lemma save_trash_manifest_run (m : manifest) (w : world) (dir : list string) :
  locate (tree w) TRASH_DIR = Some dir -> is_dir_at (tree w) dir = true ->
  if negb (is_dir_at (tree w) (dir ++ [".trash_manifest.json.tmp"]))
     && negb (is_locked w (dir ++ [".trash_manifest.json.tmp"]))
     && match get (tree w) (dir ++ [".trash_manifest.json"]) with
        | Some (Dir _) => false
        | Some (File _) => negb (is_locked w (dir ++ [".trash_manifest.json"]))
        | None => true
        end
  then exists t',
         save_trash_manifest m w = (set_tree w t', Ret tt) /\
         same_dirs (tree w) t' /\
         get t' (dir ++ [".trash_manifest.json"]) = Some (File (json_dump m)) /\
         get t' (dir ++ [".trash_manifest.json.tmp"]) = None /\
         (forall c, c <> ".trash_manifest.json" -> c <> ".trash_manifest.json.tmp" ->
                    get t' (dir ++ [c]) = get (tree w) (dir ++ [c])) /\
         (forall l : list string,
            ~ l `prefix_of` dir -> ~ dir `prefix_of` l ->
            get t' l = get (tree w) l)
  else exists w' e, save_trash_manifest m w = (w', Raise e).
Proof.
  intros Hl Hd. destruct component_manifest as [Cm Ct].
  assert (locate (tree w) TRASH_MANIFEST = Some (dir ++ [".trash_manifest.json"]))
    as Lm by (unfold Trash.TRASH_MANIFEST; by rewrite locate_trash_entry, Hl, Hd).
  assert (locate (tree w) (TRASH_MANIFEST +:+ ".tmp")
          = Some (dir ++ [".trash_manifest.json.tmp"]))
    as Lt by (by rewrite trash_manifest_temp, locate_trash_entry, Hl, Hd).
  unfold Trash.save_trash_manifest.
  rewrite (bind_Ret _ _ w w true); cycle 1.
  { unfold os_path_exists, ask, stat. rewrite Hl. unfold is_dir_at in Hd.
    destruct (get (tree w) dir); [|done]. by rewrite bool_decide_true by eauto. }
  cbn [negb]. rewrite (bind_Ret _ _ w w tt) by done. cbv zeta.
  set (temp := TRASH_MANIFEST +:+ ".tmp") in *.
  set (tloc := dir ++ [".trash_manifest.json.tmp"]) in *.
  set (mloc := dir ++ [".trash_manifest.json"]) in *.
  destruct (is_dir_at (tree w) tloc) eqn:Etd; cbn [negb andb].
  { destruct (open_wb_fail w temp) as [e He]; [by rewrite Lt|].
    unfold try_except. rewrite (bind_Raise _ _ _ _ _ He).
    apply save_handler_raises. }
  destruct (open_wb_run w temp dir _ Lt Etd Hd) as (t1 & Hopen & Hput1).
  assert (differ_at tloc (tree w) t1) as D1 by (by eapply put_leaf_differ_at).
  assert (get t1 tloc = Some (File [])) as G1 by (by eapply put_eq).
  destruct (put_over t1 tloc (File (json_dump m))) as [t2 Hput2];
    [by rewrite G1|].
  assert (file_write tloc (json_dump m) (set_tree w t1) = (set_tree w t2, Ret tt))
    as Hwrite.
  { unfold file_write, update. cbn [tree set_tree]. rewrite G1. cbn [app].
    by rewrite Hput2. }
  assert (differ_at tloc t1 t2) as D2.
  { eapply put_leaf_differ_at; [done| |done]. unfold is_dir_at. by rewrite G1. }
  assert (get t2 tloc = Some (File (json_dump m))) as G2 by (by eapply put_eq).
  destruct (differ_at_trans _ _ _ _ D1 D2) as [D12 F12].
  assert (get t2 mloc = get (tree w) mloc) as Gm.
  { apply F12; by apply sibling_not_prefix. }
  pose proof (rename_beside_run w t2 temp TRASH_MANIFEST dir
                ".trash_manifest.json.tmp" ".trash_manifest.json" (json_dump m))
    as Hren.
  rewrite !(locate_ext _ _ _ D12), D12 in Hren.
  specialize (Hren Lt Lm ltac:(done) G2 Hd). fold tloc mloc in Hren.
  rewrite Gm in Hren.
  destruct (negb (is_locked w tloc) && _).
  - destruct Hren as (t4 & Hrep & D4 & G4 & Gt4 & F4).
    exists t4. split_and!; try done.
    + apply try_except_Ret.
      rewrite (bind_Ret _ _ _ _ _ Hopen), (bind_Ret _ _ _ _ _ Hwrite).
      exact Hrep.
    + by eapply same_dirs_trans.
    + intros c Hc1 Hc2. rewrite F4 by (by apply sibling_not_prefix).
      apply F12; by apply sibling_not_prefix.
    + intros l N1 N2.
      assert (forall c, ~ l `prefix_of` (dir ++ [c]) /\ ~ (dir ++ [c]) `prefix_of` l)
        as Hout.
      { intros c. split.
        - intros [k Hk]. destruct k as [|x k _] using rev_ind.
          + rewrite app_nil_r in Hk. subst l. apply N2. by apply prefix_app_r.
          + rewrite app_assoc in Hk. apply app_inj_tail in Hk as [-> _].
            apply N1. by eexists.
        - intros H. apply N2. etrans; [|done]. by apply prefix_app_r. }
      rewrite F4 by apply Hout. apply F12; apply Hout.
  - destruct Hren as [e He]. unfold try_except.
    rewrite (bind_Ret _ _ _ _ _ Hopen), (bind_Ret _ _ _ _ _ Hwrite).
    unfold os_rename. rewrite He. apply save_handler_raises.
Qed.

End ManifestWrite.

Section CleanupTwice.
Import FS Obs Trash.

Variable EXECUTABLE_DIR : string.
Variable json_dump : manifest -> bytes.
Variable json_load : bytes -> option manifest.

Abbreviation TRASH_DIR := (Trash.TRASH_DIR EXECUTABLE_DIR).
Abbreviation TRASH_MANIFEST := (Trash.TRASH_MANIFEST EXECUTABLE_DIR).
Abbreviation load_trash_manifest :=
  (Trash.load_trash_manifest EXECUTABLE_DIR json_load).
Abbreviation save_trash_manifest :=
  (Trash.save_trash_manifest EXECUTABLE_DIR json_dump).
Abbreviation cleanup_old_trash :=
  (Trash.cleanup_old_trash EXECUTABLE_DIR json_dump json_load).

Lemma filter_all {A : Type} (f : A -> bool) (l : list A) :
  Forall (fun a => f a = true) l -> List.filter f l = l.
Proof.
  induction 1 as [|a l Ha _ IH]; cbn; [done|]. by rewrite Ha, IH.
Qed.

Lemma filter_none {A : Type} (f : A -> bool) (l : list A) :
  Forall (fun a => f a = false) l -> List.filter f l = [].
Proof.
  induction 1 as [|a l Ha _ IH]; cbn; [done|]. by rewrite Ha, IH.
Qed.

Lemma stat_trash_entry (w : world) (dir : list string) (c : string) :
  locate (tree w) TRASH_DIR = Some dir -> is_dir_at (tree w) dir = true ->
  component c ->
  stat w (os_path_join TRASH_DIR c) = get (tree w) (dir ++ [c]).
Proof.
  intros Hl Hd Hc. unfold stat. by rewrite locate_trash_entry, Hl, Hd.
Qed.

(** Without a trash folder there is no manifest. *)
Lemma no_trash_no_manifest (w : world) :
  match locate (tree w) TRASH_DIR with
  | Some dir => is_dir_at (tree w) dir
  | None => false
  end = false ->
  locate (tree w) TRASH_MANIFEST = None /\
  locate (tree w) (TRASH_MANIFEST +:+ ".tmp") = None /\
  load_trash_manifest w = (w, Ret []).
Proof.
  intros H. destruct component_manifest as [Cm Ct].
  assert (locate (tree w) TRASH_MANIFEST = None) as Lm.
  { unfold Trash.TRASH_MANIFEST. rewrite locate_trash_entry by done.
    destruct (locate (tree w) TRASH_DIR); [by rewrite H|done]. }
  split_and!; [done| |].
  - rewrite trash_manifest_temp, locate_trash_entry by done.
    destruct (locate (tree w) TRASH_DIR); [by rewrite H|done].
  - rewrite load_trash_manifest_run. unfold stat. by rewrite Lm.
Qed.

(** [cleanup_old_trash] up to the write of the manifest. *)
Lemma cleanup_old_trash_run (now : Z) (w : world) (dir : list string)
  (m : manifest) :
  PathGuard.has_dotdot_segment EXECUTABLE_DIR = false ->
  locate (tree w) TRASH_DIR = Some dir -> is_dir_at (tree w) dir = true ->
  load_trash_manifest w = (w, Ret m) ->
  Forall (fun item => component (trash_name item)) m ->
  exists w',
    shrunk dir w w' /\
    (Forall (fun item => negb (expired now item)
                         || blocked w (dir ++ [trash_name item]) = true) m ->
     w' = w) /\
    cleanup_old_trash now w =
      (_ <- save_trash_manifest
              (List.filter (fun item => negb (expired now item)
                                        || blocked w (dir ++ [trash_name item])) m);;
       ret (CleanupResult
              (length (List.filter
                         (fun item => expired now item
                                      && negb (blocked w (dir ++ [trash_name item])))
                         m))
              (map (fun item => trash_name item +:+ ": Operation not permitted")
                 (List.filter
                    (fun item => expired now item
                                 && blocked w (dir ++ [trash_name item])) m)))) w'.
Proof.
  intros Hdd Hl Hd Hload Hnames.
  destruct (cleanup_items_run EXECUTABLE_DIR Hdd dir w Hl Hd now m w [] 0 []
              (shrunk_refl _ _) Hnames) as (w' & Eloop & Hs & Hidle).
  exists w'. split_and!; [done..|].
  unfold Trash.cleanup_old_trash.
  rewrite (bind_Ret _ _ w w true); cycle 1.
  { unfold os_path_exists, ask, stat. rewrite Hl. unfold is_dir_at in Hd.
    destruct (get (tree w) dir); [|done]. by rewrite bool_decide_true by eauto. }
  cbn [negb]. rewrite (bind_Ret _ _ _ _ _ Hload).
  erewrite bind_Ret by exact Eloop. reflexivity.
Qed.

(** A trash folder that is a regular file: the manifest cannot be
    written. *)
Lemma save_without_folder (m : manifest) (w : world) :
  is_Some (stat w TRASH_DIR) ->
  locate (tree w) (TRASH_MANIFEST +:+ ".tmp") = None ->
  exists w' e, save_trash_manifest m w = (w', Raise e).
Proof.
  intros He Lt. unfold Trash.save_trash_manifest.
  rewrite (bind_Ret _ _ w w true); cycle 1.
  { unfold os_path_exists, ask. by rewrite bool_decide_true. }
  cbn [negb]. rewrite (bind_Ret _ _ w w tt) by done. cbv zeta.
  destruct (open_wb_fail w (TRASH_MANIFEST +:+ ".tmp")) as [e E]; [by rewrite Lt|].
  unfold try_except. rewrite (bind_Raise _ _ _ _ _ E).
  apply save_handler_raises.
Qed.

(** C7.  Two runs of [cleanup_old_trash] in a row, at the clock readings
    [now1] and [now2], on a manifest whose trash names are single path
    components (as [move_to_trash] makes them), where no entry that had not
    expired at [now1] has expired at [now2]; the installation path has no
    [..], the manifest file is not a protected entry, and [json.load] reads
    back what [json.dump] wrote.  When the first run returns: it has
    counted the expired entries whose removal was not refused and reported
    the others; the manifest on disk holds exactly the entries that had
    not expired and those whose removal was refused, in their order; the
    second run returns, has deleted nothing, and leaves that manifest. *)
Theorem cleanup_idempotence (now1 now2 : Z) (w w1 : world) (m : manifest)
  (r1 : cleanup_result) :
  PathGuard.has_dotdot_segment EXECUTABLE_DIR = false ->
  (forall m', json_load (json_dump m') = Some m') ->
  load_trash_manifest w = (w, Ret m) ->
  Forall (fun item => component (trash_name item)) m ->
  (forall loc, locate (tree w) TRASH_MANIFEST = Some loc -> is_locked w loc = false) ->
  (forall item, item ∈ m -> expired now1 item = false -> expired now2 item = false) ->
  cleanup_old_trash now1 w = (w1, Ret r1) ->
  let keep :=
    List.filter (fun item => negb (expired now1 item)
                             || removal_fails EXECUTABLE_DIR w item) m in
  deleted r1 =
    length (List.filter (fun item => expired now1 item
                                     && negb (removal_fails EXECUTABLE_DIR w item)) m) /\
  errors r1 =
    map (fun item => trash_name item +:+ ": Operation not permitted")
      (List.filter (fun item => expired now1 item
                                && removal_fails EXECUTABLE_DIR w item) m) /\
  load_trash_manifest w1 = (w1, Ret keep) /\
  exists w2 r2,
    cleanup_old_trash now2 w1 = (w2, Ret r2) /\ deleted r2 = 0 /\
    load_trash_manifest w2 = (w2, Ret keep).
Proof.
  intros Hdd Hrt Hload Hnames Hfree Hclock Hrun keep.
  destruct component_manifest as [Cm Ct].
  destruct (locate (tree w) TRASH_DIR) as [dir|] eqn:Hl; cycle 1.
  { (* no trash folder *)
    destruct (no_trash_no_manifest w) as (_ & _ & Hnil); [by rewrite Hl|].
    rewrite Hnil in Hload. injection Hload as <-.
    assert (forall now, cleanup_old_trash now w = (w, Ret (CleanupResult 0 []))) as Hno.
    { intros now. unfold Trash.cleanup_old_trash.
      rewrite (bind_Ret _ _ w w false); [done|].
      unfold os_path_exists, ask, stat. rewrite Hl.
      by rewrite bool_decide_false by (by intros []). }
    rewrite Hno in Hrun. injection Hrun as <- <-.
    split_and!; [done..|]. exists w, (CleanupResult 0 []). by rewrite Hno. }
  destruct (get (tree w) dir) as [[d|es]|] eqn:Hg.
  { (* the trash folder is a regular file *)
    exfalso.
    destruct (no_trash_no_manifest w) as (_ & Lt & Hnil);
      [unfold is_dir_at; by rewrite Hl, Hg|].
    rewrite Hnil in Hload. injection Hload as <-.
    destruct (save_without_folder [] w) as (w' & e & Hsave); [|done|].
    { unfold stat. rewrite Hl, Hg. by eexists. }
    unfold Trash.cleanup_old_trash in Hrun.
    rewrite (bind_Ret _ _ w w true) in Hrun; cycle 1.
    { unfold os_path_exists, ask, stat. rewrite Hl, Hg.
      by rewrite bool_decide_true by eauto. }
    cbn [negb] in Hrun. rewrite (bind_Ret _ _ _ _ _ Hnil) in Hrun.
    cbn [Trash.cleanup_items] in Hrun.
    cbv [bind ret] in Hrun. by rewrite Hsave in Hrun. }
  2:{ (* the trash folder is not there *)
    destruct (no_trash_no_manifest w) as (_ & _ & Hnil);
      [unfold is_dir_at; by rewrite Hl, Hg|].
    rewrite Hnil in Hload. injection Hload as <-.
    assert (forall now, cleanup_old_trash now w = (w, Ret (CleanupResult 0 []))) as Hno.
    { intros now. unfold Trash.cleanup_old_trash.
      rewrite (bind_Ret _ _ w w false); [done|].
      unfold os_path_exists, ask, stat. rewrite Hl, Hg.
      by rewrite bool_decide_false by (by intros []). }
    rewrite Hno in Hrun. injection Hrun as <- <-.
    split_and!; [done..|]. exists w, (CleanupResult 0 []). by rewrite Hno. }
  (* the trash folder is a folder *)
  assert (is_dir_at (tree w) dir = true) as Hd by (unfold is_dir_at; by rewrite Hg).
  set (mloc := dir ++ [".trash_manifest.json"]) in *.
  set (tloc := dir ++ [".trash_manifest.json.tmp"]) in *.
  assert (locate (tree w) TRASH_MANIFEST = Some mloc) as Lm
    by (unfold Trash.TRASH_MANIFEST; by rewrite locate_trash_entry, Hl, Hd).
  pose proof (Hfree _ Lm) as Hmfree.
  (* whether a removal is refused is decided by the location *)
  assert (forall item, In item m ->
            removal_fails EXECUTABLE_DIR w item
            = blocked w (dir ++ [trash_name item])) as Hrf.
  { intros item Hin. apply (removal_fails_blocked EXECUTABLE_DIR Hdd dir w Hl Hd).
    - apply shrunk_refl.
    - by apply (proj1 (List.Forall_forall _ _) Hnames). }
  assert (keep = List.filter (fun item => negb (expired now1 item)
                               || blocked w (dir ++ [trash_name item])) m) as Hkeep.
  { apply List.filter_ext_in. intros item Hin. by rewrite Hrf. }
  rewrite (List.filter_ext_in _
             (fun item => expired now1 item
                          && negb (blocked w (dir ++ [trash_name item]))) m)
    by (intros item Hin; by rewrite Hrf).
  rewrite (List.filter_ext_in
             (fun item => expired now1 item && removal_fails EXECUTABLE_DIR w item)
             (fun item => expired now1 item
                          && blocked w (dir ++ [trash_name item])) m)
    by (intros item Hin; by rewrite Hrf).
  clearbody keep. subst keep.
  set (keep := List.filter (fun item => negb (expired now1 item)
                               || blocked w (dir ++ [trash_name item])) m) in *.
  (* the first run *)
  destruct (cleanup_old_trash_run now1 w dir m Hdd Hl Hd Hload Hnames)
    as (w' & Hs & _ & Hrun1).
  fold keep in Hrun1. rewrite Hrun1 in Hrun. clear Hrun1.
  destruct (shrunk_locate EXECUTABLE_DIR Hdd dir w Hl Hd w' Hs) as [Hl' Hd'].
  pose proof (save_trash_manifest_run EXECUTABLE_DIR json_dump keep w' dir Hl' Hd')
    as Hsave.
  fold mloc tloc in Hsave.
  destruct (is_dir_at (tree w') tloc) eqn:Etd; cbn [negb andb] in Hsave.
  { destruct Hsave as (w'' & e & Hsave).
    by rewrite (bind_Raise _ _ _ _ _ Hsave) in Hrun. }
  destruct (is_locked w' tloc) eqn:Etl; cbn [negb andb] in Hsave.
  { destruct Hsave as (w'' & e & Hsave).
    by rewrite (bind_Raise _ _ _ _ _ Hsave) in Hrun. }
  destruct (match get (tree w') mloc with
            | Some (File _) => negb (is_locked w' mloc)
            | Some (Dir _) => false
            | None => true
            end); cycle 1.
  { destruct Hsave as (w'' & e & Hsave).
    by rewrite (bind_Raise _ _ _ _ _ Hsave) in Hrun. }
  destruct Hsave as (t1 & Hsave & D1 & Gm1 & Gt1 & F1 & _).
  rewrite (bind_Ret _ _ _ _ _ Hsave) in Hrun. injection Hrun as <- <-.
  cbn [deleted errors]. split; [done|]. split; [done|].
  destruct Hs as (Hlk & Hdirs & Hkids).
  assert (locked (set_tree w' t1) = locked w) as Hlk1 by done.
  assert (locate t1 TRASH_DIR = Some dir) as Hl1 by (by rewrite (locate_ext _ _ _ D1)).
  assert (is_dir_at t1 dir = true) as Hd1 by (by rewrite D1).
  assert (load_trash_manifest (set_tree w' t1) = (set_tree w' t1, Ret keep)) as Hload1.
  { rewrite load_trash_manifest_run. unfold Trash.TRASH_MANIFEST.
    rewrite (stat_trash_entry _ dir) by done. cbn [tree set_tree].
    fold mloc. by rewrite Gm1, Hrt. }
  split; [done|].
  (* the entries that were kept *)
  assert (Forall (fun item => component (trash_name item)) keep) as Hnames1.
  { apply List.Forall_forall. intros item [Hin _]%List.filter_In.
    by apply (proj1 (List.Forall_forall _ _) Hnames). }
  assert (Forall (fun item => negb (expired now2 item)
                    || blocked (set_tree w' t1) (dir ++ [trash_name item]) = true)
            keep) as Hkept.
  { apply List.Forall_forall. intros item [Hin Hk]%List.filter_In.
    destruct (expired now2 item) eqn:E2; [|done]. cbn [negb orb].
    destruct (expired now1 item) eqn:E1; cycle 1.
    { rewrite Hclock in E2; [done| |done]. by apply list_elem_of_In. }
    cbn [negb orb] in Hk.
    assert (blocked w' (dir ++ [trash_name item]) = true) as Hb'.
    { unfold blocked, is_locked, locked_below. rewrite Hlk.
      destruct (Hkids (trash_name item)) as [->|[_ Hf]]; [done|congruence]. }
    destruct (decide (trash_name item = ".trash_manifest.json.tmp")) as [En|Hnt].
    { exfalso. rewrite En in Hb'. fold tloc in Hb'.
      unfold blocked in Hb'. unfold is_dir_at in Etd.
      destruct (get (tree w') tloc) as [[]|]; congruence. }
    destruct (decide (trash_name item = ".trash_manifest.json")) as [En|Hnm].
    { exfalso. rewrite En in Hk. fold mloc in Hk.
      rewrite load_trash_manifest_run in Hload. unfold stat in Hload.
      rewrite Lm in Hload. unfold blocked in Hk.
      destruct (get (tree w) mloc) as [[]|]; [congruence| |done].
      injection Hload as <-. done. }
    unfold blocked, is_locked, locked_below in Hb' |- *.
    cbn [tree set_tree locked]. by rewrite F1. }
  (* the second run *)
  destruct (cleanup_old_trash_run now2 (set_tree w' t1) dir keep Hdd Hl1 Hd1
              Hload1 Hnames1) as (w2' & _ & Hidle & Hrun2).
  rewrite (Hidle Hkept) in Hrun2. clear Hidle w2'.
  rewrite (filter_all _ _ Hkept) in Hrun2.
  rewrite (filter_none (fun item => expired now2 item && negb _) keep) in Hrun2;
    cycle 1.
  { eapply Forall_impl; [exact Hkept|]. intros item H. cbv beta in H |- *.
    destruct (expired now2 item); [|done]. cbn [negb orb andb] in *. by rewrite H. }
  pose proof (save_trash_manifest_run EXECUTABLE_DIR json_dump keep
                (set_tree w' t1) dir Hl1 Hd1) as Hsave2.
  cbn [tree set_tree] in Hsave2. fold mloc tloc in Hsave2.
  unfold is_dir_at in Hsave2 at 1. rewrite Gt1, Gm1 in Hsave2.
  change (is_locked (set_tree w' t1)) with (is_locked w') in Hsave2.
  rewrite Etl in Hsave2.
  replace (is_locked w' mloc) with false in Hsave2
    by (unfold is_locked in *; by rewrite Hlk, Hmfree).
  cbn [negb andb] in Hsave2.
  destruct Hsave2 as (t2 & Hsave2 & D2 & Gm2 & _).
  eexists _, _. split_and!.
  - rewrite Hrun2. rewrite (bind_Ret _ _ _ _ _ Hsave2). reflexivity.
  - done.
  - rewrite load_trash_manifest_run. unfold Trash.TRASH_MANIFEST.
    rewrite (stat_trash_entry _ dir); [|by rewrite (locate_ext _ _ _ D2)|by rewrite D2|done].
    cbn [tree set_tree]. fold mloc. by rewrite Gm2, Hrt.
Qed.

End CleanupTwice.

Lemma cleanup_idempotence_witness :
  Trash.deleted
    (Trash.CleanupResult 1 ["item_2_b: Operation not permitted"]) = 1 /\
  Trash.errors
    (Trash.CleanupResult 1 ["item_2_b: Operation not permitted"])
    = ["item_2_b: Operation not permitted"] /\
  Trash.load_trash_manifest Sample.app_dir Sample.manifest_load
    (fst (Trash.cleanup_old_trash Sample.app_dir Sample.manifest_dump
            Sample.manifest_load 3100000 Sample.trash_of_three))
  = (fst (Trash.cleanup_old_trash Sample.app_dir Sample.manifest_dump
            Sample.manifest_load 3100000 Sample.trash_of_three),
     Ret [Trash.TrashItem "item_2_b" "b" "b" 2 false 1;
          Trash.TrashItem "item_3024000_c" "c" "c" 3024000 false 1]) /\
  exists w2 r2,
    Trash.cleanup_old_trash Sample.app_dir Sample.manifest_dump
      Sample.manifest_load 3100060
      (fst (Trash.cleanup_old_trash Sample.app_dir Sample.manifest_dump
              Sample.manifest_load 3100000 Sample.trash_of_three))
    = (w2, Ret r2) /\
    Trash.deleted r2 = 0 /\
    Trash.load_trash_manifest Sample.app_dir Sample.manifest_load w2
    = (w2,
       Ret [Trash.TrashItem "item_2_b" "b" "b" 2 false 1;
            Trash.TrashItem "item_3024000_c" "c" "c" 3024000 false 1]).
Proof.
  apply (cleanup_idempotence Sample.app_dir Sample.manifest_dump
           Sample.manifest_load 3100000 3100060 Sample.trash_of_three
           _ Sample.three_items
           (Trash.CleanupResult 1 ["item_2_b: Operation not permitted"])).
  - vm_compute. reflexivity.
  - apply manifest_load_dump.
  - vm_compute. reflexivity.
  - repeat constructor; done.
  - intros loc H. vm_compute in H. injection H as <-. reflexivity.
  - intros item H. unfold Sample.three_items in H.
    repeat (apply elem_of_cons in H as [->|H]); try (by apply elem_of_nil in H);
      vm_compute; congruence.
  - vm_compute. reflexivity.
Defined.

(** An entry that is exactly 30 days old at the first run and one second
    older at the second: the first run keeps it, the second deletes it. *)
Lemma entry_at_age_limit_deleted_by_second_run :
  snd (Trash.cleanup_old_trash Sample.app_dir Sample.manifest_dump
         Sample.manifest_load (1700000000 + 30 * 24 * 60 * 60) Sample.trash_of_one)
  = Ret (Trash.CleanupResult 0 []) /\
  snd (Trash.cleanup_old_trash Sample.app_dir Sample.manifest_dump
         Sample.manifest_load (1700000000 + 30 * 24 * 60 * 60 + 1)
         (fst (Trash.cleanup_old_trash Sample.app_dir Sample.manifest_dump
                 Sample.manifest_load (1700000000 + 30 * 24 * 60 * 60)
                 Sample.trash_of_one)))
  = Ret (Trash.CleanupResult 1 []).
Proof. split; vm_compute; reflexivity. Qed.

(** A manifest that [move_to_trash] did not write, both runs at one clock
    reading: the first run fails to remove the protected file [x], named
    through the folder [d], keeps its entry and removes [d]; the second run
    no longer finds the path, counts the entry as deleted and drops it,
    while [x] is still in the trash. *)
Lemma entry_named_through_folder_dropped_by_second_run :
  snd (Trash.cleanup_old_trash Sample.app_dir Sample.manifest_dump
         Sample.manifest_load 1700000000 Sample.trash_tampered)
  = Ret (Trash.CleanupResult 1 ["d/../x: Operation not permitted"]) /\
  snd (Trash.load_trash_manifest Sample.app_dir Sample.manifest_load
         (fst (Trash.cleanup_old_trash Sample.app_dir Sample.manifest_dump
                 Sample.manifest_load 1700000000 Sample.trash_tampered)))
  = Ret [Trash.TrashItem "d/../x" "x" "x" 0 false 1] /\
  snd (Trash.cleanup_old_trash Sample.app_dir Sample.manifest_dump
         Sample.manifest_load 1700000000
         (fst (Trash.cleanup_old_trash Sample.app_dir Sample.manifest_dump
                 Sample.manifest_load 1700000000 Sample.trash_tampered)))
  = Ret (Trash.CleanupResult 1 []) /\
  snd (Trash.load_trash_manifest Sample.app_dir Sample.manifest_load
         (fst (Trash.cleanup_old_trash Sample.app_dir Sample.manifest_dump
                 Sample.manifest_load 1700000000
                 (fst (Trash.cleanup_old_trash Sample.app_dir Sample.manifest_dump
                         Sample.manifest_load 1700000000 Sample.trash_tampered)))))
  = Ret [] /\
  FS.stat
    (fst (Trash.cleanup_old_trash Sample.app_dir Sample.manifest_dump
            Sample.manifest_load 1700000000
            (fst (Trash.cleanup_old_trash Sample.app_dir Sample.manifest_dump
                    Sample.manifest_load 1700000000 Sample.trash_tampered))))
    "/srv/app/homedrive_storage/.trash/x"
  = Some (FS.File [x68]).
Proof. split_and!; vm_compute; reflexivity. Qed.

(** A manifest name that is a protected entry once the file is there: the
    first run writes the manifest, the second cannot replace it and
    raises. *)
Lemma protected_manifest_second_run_raises :
  snd (Trash.cleanup_old_trash Sample.app_dir Sample.manifest_dump
         Sample.manifest_load 1700000000 Sample.trash_protected_manifest)
  = Ret (Trash.CleanupResult 0 []) /\
  snd (Trash.cleanup_old_trash Sample.app_dir Sample.manifest_dump
         Sample.manifest_load 1700000000
         (fst (Trash.cleanup_old_trash Sample.app_dir Sample.manifest_dump
                 Sample.manifest_load 1700000000 Sample.trash_protected_manifest)))
  = Raise (PermissionError "Operation not permitted").
Proof. split; vm_compute; reflexivity. Qed.

(** ** The trash round trip *)

(** C3 (failing input).  The folder [Docs] with the file [a.txt], moved to
    the trash under the path ["Docs/"] and restored under the trash name
    that [move_to_trash] returned: [restore_from_trash] returns ["Docs"],
    the manifest is empty again, but [Docs] is a new folder that holds the
    old one under its trash name: the file is at
    [Docs/item_1700000000_/a.txt], and there is nothing at [Docs/a.txt]. *)
Theorem trash_round_trip_nests_folder :
  FS.stat Sample.docs_with_file "/srv/app/homedrive_storage/Docs/"
  = Some (FS.Dir [("a.txt", FS.File [x68; x69])]) /\
  snd (Trash.move_to_trash Sample.app_dir Sample.manifest_dump
         Sample.manifest_load 0 1700000000 "Docs/" Sample.docs_with_file)
  = Ret "item_1700000000_" /\
  snd (Trash.restore_from_trash Sample.app_dir Sample.manifest_dump
         Sample.manifest_load 0 "item_1700000000_"
         (fst (Trash.move_to_trash Sample.app_dir Sample.manifest_dump
                 Sample.manifest_load 0 1700000000 "Docs/" Sample.docs_with_file)))
  = Ret "Docs" /\
  FS.stat
    (fst (Trash.restore_from_trash Sample.app_dir Sample.manifest_dump
            Sample.manifest_load 0 "item_1700000000_"
            (fst (Trash.move_to_trash Sample.app_dir Sample.manifest_dump
                    Sample.manifest_load 0 1700000000 "Docs/"
                    Sample.docs_with_file))))
    "/srv/app/homedrive_storage/Docs"
  = Some (FS.Dir [("item_1700000000_",
                   FS.Dir [("a.txt", FS.File [x68; x69])])]) /\
  FS.stat
    (fst (Trash.restore_from_trash Sample.app_dir Sample.manifest_dump
            Sample.manifest_load 0 "item_1700000000_"
            (fst (Trash.move_to_trash Sample.app_dir Sample.manifest_dump
                    Sample.manifest_load 0 1700000000 "Docs/"
                    Sample.docs_with_file))))
    "/srv/app/homedrive_storage/Docs/a.txt"
  = None /\
  snd (Trash.load_trash_manifest Sample.app_dir Sample.manifest_load
         (fst (Trash.restore_from_trash Sample.app_dir Sample.manifest_dump
                 Sample.manifest_load 0 "item_1700000000_"
                 (fst (Trash.move_to_trash Sample.app_dir Sample.manifest_dump
                         Sample.manifest_load 0 1700000000 "Docs/"
                         Sample.docs_with_file)))))
  = Ret [].
Proof. split_and!; vm_compute; reflexivity. Qed.

(** ** Moving and renaming *)

Section AllOrNothing.
Import FS Obs.

Lemma all_or_nothing_readonly {A : Type} (m : M A) :
  readonly m -> all_or_nothing m.
Proof.
  intros H w. specialize (H w). destruct (m w) as [w' [a|e|]]; by cbn in *.
Qed.

Lemma all_or_nothing_bind {A B : Type} (m : M A) (f : A -> M B) :
  readonly m -> (forall a, all_or_nothing (f a)) -> all_or_nothing (bind m f).
Proof.
  intros Hm Hf w. unfold bind. specialize (Hm w).
  destruct (m w) as [w' [a|e|]]; cbn in *; subst; [apply Hf|done|done].
Qed.

(** A block that changes something only in its last step. *)
Lemma all_or_nothing_then {A B : Type} (m : M A) (b : B) :
  all_or_nothing m -> all_or_nothing (bind m (fun _ => ret b)).
Proof.
  intros Hm w. unfold bind, ret. specialize (Hm w).
  by destruct (m w) as [w' [a|e|]].
Qed.

Lemma all_or_nothing_try_except {A : Type} (m : M A) (h : exn -> M A) :
  all_or_nothing m -> (forall e, readonly (h e)) ->
  all_or_nothing (try_except m h).
Proof.
  intros Hm Hh w. unfold try_except. specialize (Hm w).
  destruct (m w) as [w' [a|e|]]; [done| |done]. subst w'.
  specialize (Hh e w). destruct (h e w) as [w' [a|e'|]]; by cbn in *.
Qed.

Lemma all_or_nothing_update (f : world -> outcome node) :
  all_or_nothing (update f).
Proof. intros w. unfold update. by destruct (f w). Qed.

Lemma readonly_get_full_path (EXECUTABLE_DIR p : string) :
  readonly (Store.get_full_path EXECUTABLE_DIR p).
Proof. done. Qed.

Lemma readonly_reraise {A : Type} (what : string) (e : exn) :
  readonly (@Items.reraise A what e).
Proof. by destruct e. Qed.

End AllOrNothing.

Section ItemsFail.
Import FS Obs Items.

Variable EXECUTABLE_DIR : string.
Variable secure_filename : string -> string.

(** A rename that does not return has changed nothing: the machine is as
    it was, whatever was raised. *)
Theorem failed_rename_changes_nothing (user_path new_name : string) :
  all_or_nothing (rename_item EXECUTABLE_DIR secure_filename user_path new_name).
Proof.
  unfold rename_item. cbv zeta.
  case_bool_decide; [by apply all_or_nothing_readonly|].
  case_bool_decide; [by apply all_or_nothing_readonly|].
  apply all_or_nothing_bind; [apply readonly_get_full_path|]. intros full.
  apply all_or_nothing_bind; [done|]. intros [|]; cbn [negb];
    [|by apply all_or_nothing_readonly].
  apply all_or_nothing_bind; [done|]. intros [|];
    [by apply all_or_nothing_readonly|].
  apply all_or_nothing_try_except; [|intros e; apply readonly_reraise].
  apply all_or_nothing_then, all_or_nothing_update.
Qed.

End ItemsFail.

Section ItemsMove.
Import FS Obs Items.

(** What a rename that succeeded onto a free name has done: the object is
    at the new location, nothing is at the old one, and what is neither
    above nor below the two is as it was. *)
Lemma os_replace_moves (src dst : string) (w w' : world) :
  os_replace src dst w = (w', Ret tt) -> stat w dst = None ->
  exists sloc dloc obj,
    locate (tree w) src = Some sloc /\ locate (tree w) dst = Some dloc /\
    get (tree w) sloc = Some obj /\
    locked w' = locked w /\ disk_free w' = disk_free w /\
    get (tree w') dloc = Some obj /\ get (tree w') sloc = None /\
    forall l : list string,
      ~ l `prefix_of` sloc -> ~ sloc `prefix_of` l ->
      ~ l `prefix_of` dloc -> ~ dloc `prefix_of` l ->
      get (tree w') l = get (tree w) l.
Proof.
  unfold os_replace, update, stat.
  destruct (locate (tree w) src) as [sloc|]; [|done].
  destruct (locate (tree w) dst) as [dloc|]; [|done].
  destruct (get (tree w) sloc) as [obj|] eqn:Hs; [|done].
  intros H Hd. rewrite Hd in H.
  case_bool_decide as Heq; [congruence|].
  case_bool_decide as Hp1; [done|]. case_bool_decide as Hp2; [done|].
  cbn [orb] in H. destruct (is_locked w sloc); [done|].
  assert (match put (tree w) sloc None with
          | Some t1 =>
              match put t1 dloc (Some obj) with
              | Some t2 => (set_tree w t2, Ret tt)
              | None => (w, Raise (OSError "No such file or directory"))
              end
          | None => (w, Raise (OSError "No such file or directory"))
          end = (w', Ret tt)) as H'.
  { destruct obj; cbn in H;
      destruct (put (tree w) sloc None) as [t1|]; [|done| |done];
      by destruct (put t1 dloc _). }
  clear H. destruct (put (tree w) sloc None) as [t1|] eqn:P1; [|done].
  destruct (put t1 dloc (Some obj)) as [t2|] eqn:P2; [|done].
  injection H' as <-. exists sloc, dloc, obj. split_and!; try done.
  - by eapply put_eq.
  - cbn [tree set_tree]. rewrite (put_ne _ _ _ _ _ P2) by done. by eapply put_eq.
  - intros l N1 N2 N3 N4. cbn [tree set_tree].
    by rewrite (put_ne _ _ _ _ _ P2), (put_ne _ _ _ _ _ P1).
Qed.

Variable EXECUTABLE_DIR : string.
Variable secure_filename : string -> string.

Abbreviation full_path_of := (PathGuard.get_full_path EXECUTABLE_DIR Store.no_links 0).


(** A move that returns: the destination is a folder that was there,
    nothing was in it under the name of the item; the object is in the
    destination under its own name, nothing is at the old path, and
    everything beside the two is as it was. *)
Theorem move_item_moves (source_path dest_folder : string) (w w' : world)
  (result : string) :
  move_item EXECUTABLE_DIR source_path dest_folder w = (w', Ret result) ->
  exists source_full dest_full sloc dloc obj es,
    full_path_of source_path = Ret source_full /\
    full_path_of dest_folder = Ret dest_full /\
    result = (if bool_decide (dest_folder = "")
              then os_path_basename source_full
              else os_path_join dest_folder (os_path_basename source_full)) /\
    stat w dest_full = Some (Dir es) /\
    locate (tree w) source_full = Some sloc /\
    locate (tree w) (os_path_join dest_full (os_path_basename source_full))
      = Some dloc /\
    get (tree w) sloc = Some obj /\ get (tree w) dloc = None /\
    locked w' = locked w /\ disk_free w' = disk_free w /\
    get (tree w') dloc = Some obj /\ get (tree w') sloc = None /\
    forall l : list string,
      ~ l `prefix_of` sloc -> ~ sloc `prefix_of` l ->
      ~ l `prefix_of` dloc -> ~ dloc `prefix_of` l ->
      get (tree w') l = get (tree w) l.
Proof.
  unfold move_item.
  intros H. apply bind_inv_Ret in H as (w1 & source_full & Hs & H).
  unfold get_full_path, Store.get_full_path in Hs. injection Hs as <- Hs.
  apply bind_inv_Ret in H as (w1 & dest_full & Hd & H).
  unfold get_full_path, Store.get_full_path in Hd. injection Hd as <- Hd.
  apply bind_inv_Ret in H as (w1 & e & He & H). injection He as <- <-.
  case_bool_decide as Hex; cbn [negb] in H; [|done].
  apply bind_inv_Ret in H as (w1 & de & Hde & H). injection Hde as <- <-.
  apply bind_inv_Ret in H as (w1 & dd & Hdd & H). injection Hdd as <- <-.
  destruct (stat w dest_full) as [[d|es]|] eqn:Hdest;
    [by rewrite orb_true_r in H| |by rewrite orb_true_r in H].
  rewrite bool_decide_true in H by eauto. cbn [negb orb] in H.
  apply bind_inv_Ret in H as (w1 & ne & Hn & H). injection Hn as <- <-.
  case_bool_decide as Hnew; [done|].
  apply try_except_inv_Ret in H as [H|(w1 & e & _ & H)]; cycle 1.
  { by destruct e. }
  apply bind_inv_Ret in H as (w1 & [] & Hmv & H).
  injection H as <- <-.
  assert (stat w (os_path_join dest_full (os_path_basename source_full)) = None)
    as Hfree.
  { destruct (stat w (os_path_join _ _)); [|done]. destruct Hnew. by eexists. }
  assert (os_replace source_full
            (os_path_join dest_full (os_path_basename source_full)) w
          = (w1, Ret tt)) as Hrep.
  { unfold shutil_move in Hmv.
    apply bind_inv_Ret in Hmv as (w2 & d & Hd' & Hmv).
    unfold os_path_isdir, ask in Hd'. rewrite Hfree in Hd'.
    by injection Hd' as <- <-. }
  destruct (os_replace_moves _ _ _ _ Hrep Hfree)
    as (sloc & dloc & obj & L1 & L2 & G & Hlk & Hdf & G1 & G2 & F).
  exists source_full, dest_full, sloc, dloc, obj, es. split_and!; try done.
  unfold stat in Hfree. by rewrite L2 in Hfree.
Qed.

End ItemsMove.


Lemma move_item_moves_witness :
  exists source_full dest_full sloc dloc obj es,
    PathGuard.get_full_path Sample.app_dir Store.no_links 0 "Docs/a.txt"
      = Ret source_full /\
    PathGuard.get_full_path Sample.app_dir Store.no_links 0 "" = Ret dest_full /\
    "a.txt" = (if bool_decide ("" = "")
               then os_path_basename source_full
               else os_path_join "" (os_path_basename source_full)) /\
    FS.stat Sample.docs_with_file dest_full = Some (FS.Dir es) /\
    FS.locate (FS.tree Sample.docs_with_file) source_full = Some sloc /\
    FS.locate (FS.tree Sample.docs_with_file)
      (os_path_join dest_full (os_path_basename source_full)) = Some dloc /\
    FS.get (FS.tree Sample.docs_with_file) sloc = Some obj /\
    FS.get (FS.tree Sample.docs_with_file) dloc = None /\
    FS.locked (fst (Items.move_item Sample.app_dir "Docs/a.txt" ""
                      Sample.docs_with_file))
      = FS.locked Sample.docs_with_file /\
    FS.disk_free (fst (Items.move_item Sample.app_dir "Docs/a.txt" ""
                         Sample.docs_with_file))
      = FS.disk_free Sample.docs_with_file /\
    FS.get (FS.tree (fst (Items.move_item Sample.app_dir "Docs/a.txt" ""
                            Sample.docs_with_file))) dloc = Some obj /\
    FS.get (FS.tree (fst (Items.move_item Sample.app_dir "Docs/a.txt" ""
                            Sample.docs_with_file))) sloc = None /\
    forall l : list string,
      ~ l `prefix_of` sloc -> ~ sloc `prefix_of` l ->
      ~ l `prefix_of` dloc -> ~ dloc `prefix_of` l ->
      FS.get (FS.tree (fst (Items.move_item Sample.app_dir "Docs/a.txt" ""
                              Sample.docs_with_file))) l
      = FS.get (FS.tree Sample.docs_with_file) l.
Proof.
  apply (move_item_moves Sample.app_dir "Docs/a.txt" ""
           Sample.docs_with_file _ "a.txt").
  vm_compute. reflexivity.
Defined.

(** ** Emptying the trash *)

Section EmptyTrash.
Import FS Obs Trash.

Variable EXECUTABLE_DIR : string.
Variable json_dump : manifest -> bytes.
Variable json_load : bytes -> option manifest.

Abbreviation TRASH_DIR := (Trash.TRASH_DIR EXECUTABLE_DIR).
Abbreviation TRASH_MANIFEST := (Trash.TRASH_MANIFEST EXECUTABLE_DIR).
Abbreviation load_trash_manifest :=
  (Trash.load_trash_manifest EXECUTABLE_DIR json_load).
Abbreviation save_trash_manifest :=
  (Trash.save_trash_manifest EXECUTABLE_DIR json_dump).
Abbreviation empty_trash :=
  (Trash.empty_trash EXECUTABLE_DIR json_dump json_load).
Abbreviation get_trash_info := (Trash.get_trash_info EXECUTABLE_DIR json_load).

Lemma os_remove_run (w : world) (p : string) (loc : list string) (d : bytes)
  (t' : node) :
  locate (tree w) p = Some loc -> get (tree w) loc = Some (File d) ->
  put (tree w) loc None = Some t' ->
  os_remove p w =
    if is_locked w loc then (w, Raise (PermissionError "Operation not permitted"))
    else (set_tree w t', Ret tt).
Proof.
  intros Hl Hg Hp. unfold os_remove, update. rewrite Hl, Hg.
  destruct (is_locked w loc); [done|]. by rewrite Hp.
Qed.

Lemma shutil_rmtree_run (w : world) (p : string) (dir : list string) (c : string)
  (es : list (string * node)) (t' : node) :
  locate (tree w) p = Some (dir ++ [c]) -> get (tree w) (dir ++ [c]) = Some (Dir es) ->
  put (tree w) (dir ++ [c]) None = Some t' ->
  shutil_rmtree p w =
    if locked_below w (dir ++ [c])
    then (w, Raise (PermissionError "Operation not permitted"))
    else (set_tree w t', Ret tt).
Proof.
  intros Hl Hg Hp. unfold shutil_rmtree, update. rewrite Hl, Hg.
  destruct (locked_below w (dir ++ [c])); [done|].
  clear Hl Hg. destruct dir; cbn [app] in Hp |- *; by rewrite Hp.
Qed.

(** The loop of [empty_trash]: the objects that can be removed are gone
    afterwards, the others are reported. *)
Lemma empty_items_run (dir : list string) (w0 : world) (items : manifest) :
  PathGuard.has_dotdot_segment EXECUTABLE_DIR = false ->
  locate (tree w0) TRASH_DIR = Some dir -> is_dir_at (tree w0) dir = true ->
  forall (w : world) (n : nat) (errs : list string),
  shrunk dir w0 w ->
  Forall (fun item => component (trash_name item)) items ->
  exists w' n',
    Trash.empty_items EXECUTABLE_DIR items (n, errs) w =
      (w', Ret (n', errs ++ map (fun item => trash_name item +:+ ": Operation not permitted")
                          (List.filter
                             (fun item => blocked w0 (dir ++ [trash_name item]))
                             items))) /\
    shrunk dir w0 w' /\
    (forall c, get (tree w) (dir ++ [c]) = None -> get (tree w') (dir ++ [c]) = None) /\
    (forall item, In item items -> blocked w0 (dir ++ [trash_name item]) = false ->
                  get (tree w') (dir ++ [trash_name item]) = None).
Proof.
  intros Hdd Hl Hd.
  induction items as [|item items IH]; intros w n errs Hs Hnames.
  { exists w, n. cbn. rewrite app_nil_r. by split_and!. }
  apply Forall_cons in Hnames as [Hc Hnames].
  cbn [Trash.empty_items List.filter].
  pose proof (locate_shrunk_entry EXECUTABLE_DIR Hdd dir w0 Hl Hd w _ Hs Hc) as Le.
  destruct (shrunk_locate EXECUTABLE_DIR Hdd dir w0 Hl Hd w Hs) as [Hlw Hdw].
  pose proof (shrunk_blocked _ _ _ (trash_name item) Hs) as Hb.
  destruct (put_in_dir (tree w) dir (trash_name item) None Hdw) as [t' Ht'].
  assert (exists w1 n1 errs1,
            Trash.empty_item EXECUTABLE_DIR item (n, errs) w = (w1, Ret (n1, errs1)) /\
            shrunk dir w0 w1 /\
            (forall c, get (tree w) (dir ++ [c]) = None ->
                       get (tree w1) (dir ++ [c]) = None) /\
            (blocked w0 (dir ++ [trash_name item]) = false ->
             get (tree w1) (dir ++ [trash_name item]) = None) /\
            errs1 = errs ++
              (if blocked w0 (dir ++ [trash_name item])
               then [trash_name item +:+ ": Operation not permitted"] else []))
    as (w1 & n1 & errs1 & Hstep & Hs1 & Hmono & Hgone & ->).
  { unfold Trash.empty_item, try_except, bind, os_path_exists, os_path_isdir, ask, stat.
    rewrite Le. unfold blocked in Hb at 1.
    destruct (get (tree w) (dir ++ [trash_name item])) as [[d|es]|] eqn:Eg.
    - rewrite bool_decide_true by eauto. do 3 (cbv beta iota; rewrite ?Le, ?Eg).
      rewrite (os_remove_run _ _ _ _ _ Le Eg Ht'), Hb.
      destruct (blocked w0 _) eqn:Eb.
      + exists w, n, (errs ++ [trash_name item +:+ ": Operation not permitted"]).
        by split_and!.
      + exists (set_tree w t'), (S n), errs.
        split_and!; [done|by eapply shrunk_remove| |by intros _; eapply put_eq
                     |by rewrite app_nil_r].
        intros c Hn. cbn [tree set_tree].
        destruct (decide (c = trash_name item)) as [->|Hne]; [by eapply put_eq|].
        by rewrite (put_ne _ _ _ _ _ Ht') by (by apply sibling_not_prefix).
    - rewrite bool_decide_true by eauto. do 3 (cbv beta iota; rewrite ?Le, ?Eg).
      rewrite (shutil_rmtree_run _ _ _ _ _ _ Le Eg Ht'), Hb.
      destruct (blocked w0 _) eqn:Eb.
      + exists w, n, (errs ++ [trash_name item +:+ ": Operation not permitted"]).
        by split_and!.
      + exists (set_tree w t'), (S n), errs.
        split_and!; [done|by eapply shrunk_remove| |by intros _; eapply put_eq
                     |by rewrite app_nil_r].
        intros c Hn. cbn [tree set_tree].
        destruct (decide (c = trash_name item)) as [->|Hne]; [by eapply put_eq|].
        by rewrite (put_ne _ _ _ _ _ Ht') by (by apply sibling_not_prefix).
    - rewrite bool_decide_false by (by intros []).
      rewrite <- Hb. exists w, n, errs.
      split_and!; [done|done|done|done|by rewrite app_nil_r]. }
  rewrite (bind_Ret _ _ _ _ _ Hstep).
  destruct (IH w1 n1
              (errs ++ (if blocked w0 (dir ++ [trash_name item])
                        then [trash_name item +:+ ": Operation not permitted"]
                        else []))
              Hs1 Hnames) as (w' & n' & E' & S' & M' & G').
  exists w', n'. split_and!; [|done|by intros c Hn; apply M', Hmono|].
  - cbv beta. refine (eq_trans E' _).
    destruct (blocked w0 (dir ++ [trash_name item])); cbn [map];
      by rewrite <- !app_assoc.
  - intros it [<-|Hin] Hnb; [by apply M', Hgone|by apply G'].
Qed.

(** After [empty_trash] has returned the manifest is empty and
    [get_trash_info] reports nothing, whatever could be removed: the object
    of an entry whose removal was not refused is gone; an object whose
    removal was refused is named in [errors], is still in the trash folder
    and is no longer listed.  (Manifest names are single path components,
    the installation path has no [..], and [json.load] reads back the empty
    manifest that [json.dump] wrote.) *)
Theorem empty_trash_forgets_every_entry (w w1 : world) (m : manifest)
  (r : cleanup_result) :
  PathGuard.has_dotdot_segment EXECUTABLE_DIR = false ->
  json_load (json_dump []) = Some [] ->
  load_trash_manifest w = (w, Ret m) ->
  Forall (fun item => component (trash_name item)) m ->
  empty_trash w = (w1, Ret r) ->
  load_trash_manifest w1 = (w1, Ret []) /\
  get_trash_info w1 = (w1, Ret (0, 0%N)) /\
  errors r =
    map (fun item => trash_name item +:+ ": Operation not permitted")
      (List.filter (removal_fails EXECUTABLE_DIR w) m) /\
  forall item,
    In item m -> trash_name item <> ".trash_manifest.json" ->
    if removal_fails EXECUTABLE_DIR w item
    then is_Some (stat w (os_path_join TRASH_DIR (trash_name item))) /\
         is_Some (stat w1 (os_path_join TRASH_DIR (trash_name item)))
    else stat w1 (os_path_join TRASH_DIR (trash_name item)) = None.
Proof.
  intros Hdd Hrt Hload Hnames Hrun.
  destruct component_manifest as [Cm Ct].
  assert (match locate (tree w) TRASH_DIR with
          | Some dir => is_dir_at (tree w) dir
          | None => false
          end = false ->
          is_Some (stat w TRASH_DIR) -> False) as Hfile.
  { intros Hno Hex.
    destruct (no_trash_no_manifest EXECUTABLE_DIR json_load w Hno) as (_ & Lt & Hnil).
    rewrite Hnil in Hload. injection Hload as <-.
    destruct (save_without_folder EXECUTABLE_DIR json_dump [] w Hex Lt)
      as (w' & e & Hsave).
    unfold Trash.empty_trash in Hrun.
    rewrite (bind_Ret _ _ w w true) in Hrun; cycle 1.
    { unfold os_path_exists, ask. by rewrite bool_decide_true. }
    cbn [negb] in Hrun. rewrite (bind_Ret _ _ _ _ _ Hnil) in Hrun.
    cbn [Trash.empty_items] in Hrun.
    cbv [bind ret] in Hrun. by rewrite Hsave in Hrun. }
  assert (match locate (tree w) TRASH_DIR with
          | Some dir => is_dir_at (tree w) dir
          | None => false
          end = false ->
          ~ is_Some (stat w TRASH_DIR) ->
          load_trash_manifest w1 = (w1, Ret []) /\
          get_trash_info w1 = (w1, Ret (0, 0%N)) /\ r = CleanupResult 0 [] /\ m = [])
    as Hnone.
  { intros Hno Hex.
    destruct (no_trash_no_manifest EXECUTABLE_DIR json_load w Hno) as (_ & _ & Hnil).
    rewrite Hnil in Hload. injection Hload as <-.
    unfold Trash.empty_trash in Hrun.
    rewrite (bind_Ret _ _ w w false) in Hrun; cycle 1.
    { unfold os_path_exists, ask. by rewrite bool_decide_false. }
    injection Hrun as <- <-. split_and!; [done| |done..].
    unfold Trash.get_trash_info.
    rewrite (bind_Ret _ _ w w false); [done|].
    unfold os_path_exists, ask. by rewrite bool_decide_false. }
  destruct (locate (tree w) TRASH_DIR) as [dir|] eqn:Hl; cycle 1.
  { destruct Hnone as (H1 & H2 & -> & ->); [done| |by split_and!].
    unfold stat. rewrite Hl. by intros []. }
  destruct (is_dir_at (tree w) dir) eqn:Hd; cycle 1.
  { destruct (decide (is_Some (stat w TRASH_DIR))) as [Hex|Hex];
      [by destruct Hfile|].
    destruct Hnone as (H1 & H2 & -> & ->); [done..|by split_and!]. }
  clear Hfile Hnone.
  set (mloc := dir ++ [".trash_manifest.json"]) in *.
  set (tloc := dir ++ [".trash_manifest.json.tmp"]) in *.
  assert (forall item, In item m ->
            removal_fails EXECUTABLE_DIR w item
            = blocked w (dir ++ [trash_name item])) as Hrf.
  { intros item Hin. apply (removal_fails_blocked EXECUTABLE_DIR Hdd dir w Hl Hd).
    - apply shrunk_refl.
    - by apply (proj1 (List.Forall_forall _ _) Hnames). }
  rewrite (List.filter_ext_in _
             (fun item => blocked w (dir ++ [trash_name item])) m Hrf).
  destruct (empty_items_run dir w m Hdd Hl Hd w 0 [] (shrunk_refl _ _) Hnames)
    as (w' & n' & Eloop & Hs & _ & Hgone).
  unfold Trash.empty_trash in Hrun.
  rewrite (bind_Ret _ _ w w true) in Hrun; cycle 1.
  { unfold os_path_exists, ask, stat. rewrite Hl. unfold is_dir_at in Hd.
    destruct (get (tree w) dir); [|done]. by rewrite bool_decide_true by eauto. }
  cbn [negb] in Hrun. rewrite (bind_Ret _ _ _ _ _ Hload) in Hrun.
  erewrite bind_Ret in Hrun by exact Eloop. cbv beta iota in Hrun.
  destruct (shrunk_locate EXECUTABLE_DIR Hdd dir w Hl Hd w' Hs) as [Hl' Hd'].
  pose proof (save_trash_manifest_run EXECUTABLE_DIR json_dump [] w' dir Hl' Hd')
    as Hsave.
  fold mloc tloc in Hsave.
  destruct (is_dir_at (tree w') tloc) eqn:Etd; cbn [negb andb] in Hsave.
  { destruct Hsave as (w'' & e & Hsave).
    by rewrite (bind_Raise _ _ _ _ _ Hsave) in Hrun. }
  destruct (is_locked w' tloc) eqn:Etl; cbn [negb andb] in Hsave.
  { destruct Hsave as (w'' & e & Hsave).
    by rewrite (bind_Raise _ _ _ _ _ Hsave) in Hrun. }
  destruct (match get (tree w') mloc with
            | Some (File _) => negb (is_locked w' mloc)
            | Some (Dir _) => false
            | None => true
            end); cycle 1.
  { destruct Hsave as (w'' & e & Hsave).
    by rewrite (bind_Raise _ _ _ _ _ Hsave) in Hrun. }
  destruct Hsave as (t1 & Hsave & D1 & Gm1 & Gt1 & F1 & _).
  rewrite (bind_Ret _ _ _ _ _ Hsave) in Hrun. injection Hrun as <- <-.
  assert (locate t1 TRASH_DIR = Some dir) as Hl1 by (by rewrite (locate_ext _ _ _ D1)).
  assert (is_dir_at t1 dir = true) as Hd1 by (by rewrite D1).
  assert (load_trash_manifest (set_tree w' t1) = (set_tree w' t1, Ret [])) as Hload1.
  { rewrite load_trash_manifest_run. unfold Trash.TRASH_MANIFEST.
    rewrite (stat_trash_entry _ _ dir) by done. cbn [tree set_tree].
    fold mloc. by rewrite Gm1, Hrt. }
  split_and!; [done| |done|].
  - unfold Trash.get_trash_info.
    rewrite (bind_Ret _ _ (set_tree w' t1) (set_tree w' t1) true); cycle 1.
    { unfold os_path_exists, ask, stat. cbn [tree set_tree]. rewrite Hl1.
      unfold is_dir_at in Hd1.
      destruct (get t1 dir); [|done]. by rewrite bool_decide_true by eauto. }
    cbn [negb]. by rewrite (bind_Ret _ _ _ _ _ Hload1).
  - intros item Hin Hnm.
    assert (component (trash_name item)) as Hc
      by (by apply (proj1 (List.Forall_forall _ _) Hnames)).
    rewrite (Hrf item Hin).
    rewrite !(stat_trash_entry _ _ dir) by done. cbn [tree set_tree].
    destruct Hs as (Hlk & _ & Hkids).
    destruct (blocked w (dir ++ [trash_name item])) eqn:Eb.
    + assert (get (tree w') (dir ++ [trash_name item])
              = get (tree w) (dir ++ [trash_name item])) as Hsame.
      { destruct (Hkids (trash_name item)) as [->|[_ Hf]]; [done|congruence]. }
      assert (trash_name item <> ".trash_manifest.json.tmp") as Hnt.
      { intros En. rewrite En in Hsame, Eb. fold tloc in Hsame, Eb.
        unfold blocked in Eb. unfold is_dir_at in Etd. rewrite Hsame in Etd.
        unfold is_locked in Etl, Eb. rewrite Hlk in Etl.
        destruct (get (tree w) tloc) as [[]|]; congruence. }
      rewrite F1, Hsame by done. unfold blocked in Eb.
      by destruct (get (tree w) (dir ++ [trash_name item])) as [[]|].
    + destruct (decide (trash_name item = ".trash_manifest.json.tmp")) as [En|Hnt].
      * rewrite En. done.
      * rewrite F1 by done. by apply Hgone.
Qed.

End EmptyTrash.

Lemma empty_trash_forgets_every_entry_witness :
  Trash.load_trash_manifest Sample.app_dir Sample.manifest_load
    (fst (Trash.empty_trash Sample.app_dir Sample.manifest_dump
            Sample.manifest_load Sample.trash_of_three))
  = (fst (Trash.empty_trash Sample.app_dir Sample.manifest_dump
            Sample.manifest_load Sample.trash_of_three), Ret []) /\
  Trash.get_trash_info Sample.app_dir Sample.manifest_load
    (fst (Trash.empty_trash Sample.app_dir Sample.manifest_dump
            Sample.manifest_load Sample.trash_of_three))
  = (fst (Trash.empty_trash Sample.app_dir Sample.manifest_dump
            Sample.manifest_load Sample.trash_of_three), Ret (0, 0%N)) /\
  Trash.errors (Trash.CleanupResult 2 ["item_2_b: Operation not permitted"])
  = map (fun item => Trash.trash_name item +:+ ": Operation not permitted")
      (List.filter (Obs.removal_fails Sample.app_dir Sample.trash_of_three)
         Sample.three_items) /\
  forall item,
    In item Sample.three_items ->
    Trash.trash_name item <> ".trash_manifest.json" ->
    if Obs.removal_fails Sample.app_dir Sample.trash_of_three item
    then is_Some (FS.stat Sample.trash_of_three
                    (os_path_join (Trash.TRASH_DIR Sample.app_dir)
                       (Trash.trash_name item))) /\
         is_Some (FS.stat
                    (fst (Trash.empty_trash Sample.app_dir Sample.manifest_dump
                            Sample.manifest_load Sample.trash_of_three))
                    (os_path_join (Trash.TRASH_DIR Sample.app_dir)
                       (Trash.trash_name item)))
    else FS.stat (fst (Trash.empty_trash Sample.app_dir Sample.manifest_dump
                         Sample.manifest_load Sample.trash_of_three))
           (os_path_join (Trash.TRASH_DIR Sample.app_dir) (Trash.trash_name item))
         = None.
Proof.
  apply (empty_trash_forgets_every_entry Sample.app_dir Sample.manifest_dump
           Sample.manifest_load Sample.trash_of_three _ Sample.three_items
           (Trash.CleanupResult 2 ["item_2_b: Operation not permitted"])).
  - vm_compute. reflexivity.
  - apply manifest_load_dump.
  - vm_compute. reflexivity.
  - repeat constructor; done.
  - vm_compute. reflexivity.
Defined.
